(** * multiclusterhub-operator: template cache and kind-dispatched renderer

    A shallow embedding of [pkg/rendering/renderer.go] and
    [pkg/rendering/templates/templates.go].

    Go values of type [interface{}] found inside unstructured content are
    an inductive type that keeps the dynamic type of every map, because
    [UpdateNamespace] branches on it with type assertions.  Go pointers to
    resources are locations in a heap of maps, so that sharing between a
    [*resource.Resource], the [*unstructured.Unstructured] built from its
    [Map()] and the template cache is visible.  Functions that return
    [(T, error)] return a pair of a value and an optional error; a panic or
    a fatal exit is an outcome of its own.

    The calls into [strconv], [k8s.io/apimachinery] and kustomize are
    modelled after those libraries on the values this program hands them.
    The template engine, [path.Join], [version.Version] and the label that
    [utils.AddInstallerLabel] derives are parameters. *)

From stdpp Require Import gmap strings list fin_maps.

Set Warnings "-register-all".
Open Scope string_scope.
Open Scope list_scope.

(** ** Errors *)

Inductive error : Type := Err (msg : string).

(** ** Dynamic values *)

(** The dynamic types that occur under a [map[string]interface{}].
    [VMap] is [map[string]interface{}] and [VStrMap] is [map[string]string]:
    the two are different dynamic types for a Go type assertion. *)
Inductive value : Type :=
| VNil
| VBool (b : bool)
| VInt (z : Z)
| VFloat (bits : Z)
| VString (s : string)
| VList (l : list value)
| VMap (m : gmap string value)
| VStrMap (m : gmap string string).

(** The content of a [map[string]interface{}], e.g. [u.Object]. *)
Abbreviation object := (gmap string value).

(** [v.(map[string]interface{})] with the comma-ok form. *)
Definition asMap (v : option value) : option object :=
  match v with
  | Some (VMap m) => Some m
  | _ => None
  end.

(** [v.(map[string]string)] with the comma-ok form. *)
Definition asStrMap (v : option value) : option (gmap string string) :=
  match v with
  | Some (VStrMap m) => Some m
  | _ => None
  end.

(** [v.(string)] with the comma-ok form. *)
Definition asString (v : option value) : option string :=
  match v with
  | Some (VString s) => Some s
  | _ => None
  end.

(** A generic map all of whose values are strings, as a
    [map[string]string]: the loop "for k, v := range m" with [v.(string)]
    failing on the first value that is not a string. *)
Definition stringsOf (m : object) : option (gmap string string) :=
  if bool_decide (map_Forall (λ _ v, is_Some (asString (Some v))) m)
  then Some (omap (λ v, asString (Some v)) m)
  else None.

(** Indexing a [map[string]string]: a missing key reads as the zero
    value, the empty string. *)
Definition index (m : gmap string string) (k : string) : string :=
  default "" (m !! k).

(** ** strconv *)

Module strconv.

(** [strconv.ParseBool]: twelve accepted spellings, anything else is
    [(false, syntax error)]. *)
Definition ParseBool (str : string) : bool * option error :=
  if bool_decide (str ∈ ["1"; "t"; "T"; "true"; "TRUE"; "True"]) then (true, None)
  else if bool_decide (str ∈ ["0"; "f"; "F"; "false"; "FALSE"; "False"]) then (false, None)
  else (false, Some (Err ("strconv.ParseBool: parsing " +:+ str +:+ ": invalid syntax"))).

End strconv.

(** ** k8s.io/apimachinery unstructured helpers *)

Module unstructured.

(** [NestedFieldNoCopy]: walk [fields] through nested
    [map[string]interface{}] values.  Not found and wrong shape both
    read as [None]; every caller below discards the distinction. *)
Fixpoint nestedIn (val : value) (fields : list string) : option value :=
  match fields with
  | [] => Some val
  | field :: rest =>
      match val with
      | VMap m =>
          match m !! field with
          | Some v => nestedIn v rest
          | None => None
          end
      | _ => None
      end
  end.

Definition NestedFieldNoCopy (obj : object) (fields : list string) : option value :=
  nestedIn (VMap obj) fields.

(** [getNestedString]: the string at the path, or [""] when the path is
    missing or does not hold a string. *)
Definition getNestedString (obj : object) (fields : list string) : string :=
  default "" (asString (NestedFieldNoCopy obj fields)).

Definition GetKind (obj : object) : string := getNestedString obj ["kind"].
Definition GetName (obj : object) : string := getNestedString obj ["metadata"; "name"].
Definition GetNamespace (obj : object) : string :=
  getNestedString obj ["metadata"; "namespace"].

(** [setNestedFieldNoCopy]: intermediate maps are created when absent;
    an intermediate value that is not a [map[string]interface{}] is an
    error and nothing is written ([None]). *)
Fixpoint setNested (m : object) (v : value) (fields : list string) : option object :=
  match fields with
  | [] => None
  | [field] => Some (<[field := v]> m)
  | field :: rest =>
      match m !! field with
      | Some (VMap m') =>
          match setNested m' v rest with
          | Some m'' => Some (<[field := VMap m'']> m)
          | None => None
          end
      | Some _ => None
      | None =>
          match setNested ∅ v rest with
          | Some m'' => Some (<[field := VMap m'']> m)
          | None => None
          end
      end
  end.

(** [u.setNestedField]: the error of [SetNestedField] is dropped, the
    object is then left as it was. *)
Definition setNestedField (obj : object) (v : value) (fields : list string) : object :=
  default obj (setNested obj v fields).

(** [RemoveNestedField]: delete the last field if the path to it exists. *)
Fixpoint RemoveNestedField (m : object) (fields : list string) : object :=
  match fields with
  | [] => m
  | [field] => delete field m
  | field :: rest =>
      match m !! field with
      | Some (VMap m') => <[field := VMap (RemoveNestedField m' rest)]> m
      | _ => m
      end
  end.

(** [SetNamespace]: the empty namespace removes the field. *)
Definition SetNamespace (obj : object) (namespace : string) : object :=
  if bool_decide (namespace = "") then RemoveNestedField obj ["metadata"; "namespace"]
  else setNestedField obj (VString namespace) ["metadata"; "namespace"].

(** [NestedStringMap]: the [map[string]interface{}] at the path with all
    its values strings, as a [map[string]string]; [None] otherwise. *)
Definition NestedStringMap (obj : object) (fields : list string)
  : option (gmap string string) :=
  match asMap (NestedFieldNoCopy obj fields) with
  | Some m => stringsOf m
  | None => None
  end.

(** [GetLabels]: a fresh [map[string]string], empty on any failure. *)
Definition GetLabels (obj : object) : gmap string string :=
  default ∅ (NestedStringMap obj ["metadata"; "labels"]).

(** [SetLabels] / [SetNestedStringMap]: stored as a
    [map[string]interface{}] of strings. *)
Definition SetLabels (obj : object) (labels : gmap string string) : object :=
  setNestedField obj (VMap (VString <$> labels)) ["metadata"; "labels"].

End unstructured.

(** ** rbac/v1 ClusterRoleBinding and the unstructured converter *)

(** Outcome of a conversion that returns an [error]. *)
Inductive result (A : Type) : Type :=
| Ok (a : A)
| Fail (e : error).
Arguments Ok {A} a.
Arguments Fail {A} e.

Definition bindR {A B} (r : result A) (k : A → result B) : result B :=
  match r with
  | Ok a => k a
  | Fail e => Fail e
  end.

Notation "'let?' x := r 'in' k" := (bindR r (λ x, k))
  (at level 10, x name, r at level 100, k at level 200).

Module rbacv1.

Record Subject : Type := {
  Kind : string;
  APIGroup : string;
  Name : string;
  Namespace : string
}.

Record RoleRef : Type := {
  RoleAPIGroup : string;
  RoleKind : string;
  RoleName : string
}.

(** [TypeMeta] and the [ObjectMeta] fields this program reads or writes;
    the other [ObjectMeta] fields are not modelled. *)
Record ClusterRoleBinding : Type := {
  TypeKind : string;
  APIVersion : string;
  MetaName : string;
  MetaNamespace : string;
  Labels : gmap string string;
  Annotations : gmap string string;
  Subjects : list Subject;
  Ref : RoleRef
}.

(** [clusterRoleBinding.Subjects[0].Namespace = ns] on a non-empty list. *)
Definition setFirstSubjectNamespace (crb : ClusterRoleBinding) (ns : string)
  : ClusterRoleBinding :=
  match Subjects crb with
  | [] => crb
  | s :: rest =>
      {| TypeKind := TypeKind crb; APIVersion := APIVersion crb;
         MetaName := MetaName crb; MetaNamespace := MetaNamespace crb;
         Labels := Labels crb; Annotations := Annotations crb;
         Subjects := {| Kind := Kind s; APIGroup := APIGroup s;
                        Name := Name s; Namespace := ns |} :: rest;
         Ref := Ref crb |}
  end.

End rbacv1.

Module converter.
Import rbacv1.

(** [reflect.Kind] of the dynamic type, as the error messages print it. *)
Definition kindOf (v : value) : string :=
  match v with
  | VNil => "invalid"
  | VBool _ => "bool"
  | VInt _ => "int64"
  | VFloat _ => "float64"
  | VString _ => "string"
  | VList _ => "slice"
  | VMap _ | VStrMap _ => "map"
  end.

(** A value into a [string]: [nil] gives the zero value; an integer is
    convertible to a string for [reflect] but not for JSON; the other
    dynamic types are not convertible. *)
Definition decStringValue (v : value) : result string :=
  match v with
  | VNil => Ok ""
  | VString s => Ok s
  | VInt _ => Fail (Err "cannot convert int64 to string")
  | _ => Fail (Err "unrecognized type: string")
  end.

(** A string field: absent gives the zero value. *)
Definition decString (v : option value) : result string :=
  match v with
  | None => Ok ""
  | Some x => decStringValue x
  end.

(** The values of a generic map into strings.  When several values fail,
    Go reports the one its map iteration meets first; here it is the first
    in the order of the keys. *)
Definition decStrings (m : object) : result (gmap string string) :=
  map_fold (λ k v rest,
              match decStringValue v, rest with
              | Fail e, _ => Fail e
              | Ok _, Fail e => Fail e
              | Ok s, Ok x => Ok (<[k := s]> x)
              end) (Ok ∅) m.

(** A [map[string]string] field, from either map shape. *)
Definition decStringMap (v : option value) : result (gmap string string) :=
  match v with
  | None | Some VNil => Ok ∅
  | Some (VStrMap m) => Ok m
  | Some (VMap m) => decStrings m
  | Some x => Fail (Err ("cannot restore map from " +:+ kindOf x))
  end.

(** A struct field: absent and [nil] give the zero struct (all fields
    absent); the fields are read off a map of either shape. *)
Definition decStruct (v : option value) : result object :=
  match v with
  | None | Some VNil => Ok ∅
  | Some (VMap m) => Ok m
  | Some (VStrMap m) => Ok (VString <$> m)
  | Some x => Fail (Err ("cannot restore struct from: " +:+ kindOf x))
  end.

Definition decSubject (v : value) : result Subject :=
  let? m := decStruct (Some v) in
  let? kind := decString (m !! "kind") in
  let? apiGroup := decString (m !! "apiGroup") in
  let? name := decString (m !! "name") in
  let? namespace := decString (m !! "namespace") in
  Ok {| Kind := kind; APIGroup := apiGroup; Name := name; Namespace := namespace |}.

Fixpoint decAll {A} (dec : value → result A) (l : list value) : result (list A) :=
  match l with
  | [] => Ok []
  | v :: rest =>
      let? a := dec v in
      let? others := decAll dec rest in
      Ok (a :: others)
  end.

Definition decSubjects (v : option value) : result (list Subject) :=
  match v with
  | None | Some VNil => Ok []
  | Some (VList l) => decAll decSubject l
  | Some x => Fail (Err ("cannot restore slice from " +:+ kindOf x))
  end.

Definition decRoleRef (v : option value) : result RoleRef :=
  let? m := decStruct v in
  let? apiGroup := decString (m !! "apiGroup") in
  let? kind := decString (m !! "kind") in
  let? name := decString (m !! "name") in
  Ok {| RoleAPIGroup := apiGroup; RoleKind := kind; RoleName := name |}.

(** [runtime.DefaultUnstructuredConverter.FromUnstructured] into a
    [ClusterRoleBinding]: the fields are decoded in the order of their
    declaration, unknown fields are ignored, a field of the wrong shape is
    an error.  Of [ObjectMeta] the fields [name], [namespace], [labels]
    and [annotations] are decoded; the decoding is that of the library on
    resources whose [metadata] holds no other field of [ObjectMeta]. *)
Definition FromUnstructured (u : object) : result ClusterRoleBinding :=
  let? kind := decString (u !! "kind") in
  let? apiVersion := decString (u !! "apiVersion") in
  let? meta := decStruct (u !! "metadata") in
  let? name := decString (meta !! "name") in
  let? namespace := decString (meta !! "namespace") in
  let? labels := decStringMap (meta !! "labels") in
  let? annotations := decStringMap (meta !! "annotations") in
  let? subjects := decSubjects (u !! "subjects") in
  let? roleRef := decRoleRef (u !! "roleRef") in
  Ok {| TypeKind := kind; APIVersion := apiVersion;
        MetaName := name; MetaNamespace := namespace;
        Labels := labels; Annotations := annotations;
        Subjects := subjects; Ref := roleRef |}.

(** A field tagged [omitempty]. *)
Definition putString (k s : string) (m : object) : object :=
  if bool_decide (s = "") then m else <[k := VString s]> m.

Definition putStringMap (k : string) (x : gmap string string) (m : object) : object :=
  if bool_decide (x = ∅) then m else <[k := VMap (VString <$> x)]> m.

Definition encSubject (s : Subject) : value :=
  VMap (putString "apiGroup" (APIGroup s)
       (putString "namespace" (Namespace s)
       (<["kind" := VString (Kind s)]> (<["name" := VString (Name s)]> ∅)))).

Definition encRoleRef (r : RoleRef) : value :=
  VMap (<["apiGroup" := VString (RoleAPIGroup r)]>
       (<["kind" := VString (RoleKind r)]>
       (<["name" := VString (RoleName r)]> ∅))).

Definition encMeta (crb : ClusterRoleBinding) : value :=
  VMap (putString "name" (MetaName crb)
       (putString "namespace" (MetaNamespace crb)
       (putStringMap "labels" (Labels crb)
       (putStringMap "annotations" (Annotations crb)
       (<["creationTimestamp" := VNil]> ∅))))).

(** [runtime.DefaultUnstructuredConverter.ToUnstructured] of a
    [ClusterRoleBinding]: a fresh [map[string]interface{}] following the
    JSON tags; every map in it is generic.  [metadata] holds the fields of
    [ObjectMeta] that [rbacv1.ClusterRoleBinding] models and the
    [creationTimestamp: null] of a zero time. *)
Definition ToUnstructured (crb : ClusterRoleBinding) : result object :=
  Ok (putString "kind" (TypeKind crb)
     (putString "apiVersion" (APIVersion crb)
     (<["metadata" := encMeta crb]>
     ((if bool_decide (Subjects crb = []) then id
       else <["subjects" := VList (encSubject <$> Subjects crb)]>)
     (<["roleRef" := encRoleRef (Ref crb)]> ∅))))).

End converter.

(** ** apimachinery: runtime *)

Module runtime.

(** The dynamic types [runtime.DeepCopyJSONValue] copies:
    [map[string]interface{}] and [[]interface{}] of such values, [string],
    [int64], [bool], [float64] and [nil].  On every other dynamic type, a
    [map[string]string] among them, it panics. *)
Fixpoint jsonValue (v : value) : bool :=
  match v with
  | VNil | VBool _ | VInt _ | VFloat _ | VString _ => true
  | VList l => forallb jsonValue l
  | VMap m => map_fold (λ _ x rest, jsonValue x && rest) true m
  | VStrMap _ => false
  end.

(** [runtime.DeepCopyJSON]: the copy, or [None] for the panic.  Values are
    immutable here, so the copy of a value is the value. *)
Definition DeepCopyJSON (x : object) : option object :=
  if jsonValue (VMap x) then Some x else None.

End runtime.

(** ** State, panics and the heap of maps *)

(** A call either returns or takes the process down (a panic that nobody
    recovers, or [log.Fatalf]). *)
Inductive outcome (A : Type) : Type :=
| Returns (a : A)
| Crashes (why : string).
Arguments Returns {A} a.
Arguments Crashes {A} why.

Abbreviation ST S A := (S → outcome A * S)%type.

Definition ret {S A} (a : A) : ST S A := λ s, (Returns a, s).

Definition bind {S A B} (c : ST S A) (k : A → ST S B) : ST S B :=
  λ s, match c s with
       | (Returns a, s') => k a s'
       | (Crashes why, s') => (Crashes why, s')
       end.

Definition crash {S A} (why : string) : ST S A := λ s, (Crashes why, s).

Notation "'let!' x := c 'in' k" := (bind c (λ x, k))
  (at level 10, x name, c at level 100, k at level 200).
Notation "'let!' ' pat := c 'in' k" := (bind c (λ x, match x with pat => k end))
  (at level 10, pat pattern, c at level 100, k at level 200).

(** A Go map is a reference: a location of the heap holds its content.
    The maps nested in a resource are part of the content of its
    location: [DeepCopy] copies them too, and nothing here shares a nested
    map between two resources. *)
Abbreviation loc := nat.
Abbreviation heap := (list object).

Definition load (l : loc) : ST heap object :=
  λ h, match h !! l with
       | Some o => (Returns o, h)
       | None => (Crashes "invalid memory address or nil pointer dereference", h)
       end.

Definition store (l : loc) (o : object) : ST heap unit :=
  λ h, match h !! l with
       | Some _ => (Returns (), <[l := o]> h)
       | None => (Crashes "invalid memory address or nil pointer dereference", h)
       end.

Definition alloc (o : object) : ST heap loc :=
  λ h, (Returns (length h), h ++ [o]).

(** [*resource.Resource]: the pointer is identified with the map it wraps
    (the other fields of a kustomize resource are bookkeeping that this
    program never reads). *)
Record Resource : Type := { Map : loc }.

(** [*unstructured.Unstructured]: [Object] is the map itself, not a copy. *)
Record Unstructured : Type := { Object : loc }.

(** [res.DeepCopy()]: a new map with the same content.  The copy is made
    by [runtime.DeepCopyJSON], which panics on content that is not JSON
    data. *)
Definition DeepCopy (res : Resource) : ST heap Resource :=
  let! obj := load (Map res) in
  match runtime.DeepCopyJSON obj with
  | Some copy =>
      let! l := alloc copy in
      ret {| Map := l |}
  | None => crash "cannot deep copy map[string]string"
  end.

(** [res.GetKind()]. *)
Definition GetKind (res : Resource) : ST heap string :=
  let! obj := load (Map res) in
  ret (unstructured.GetKind obj).

(** [res.SetNamespace(ns)]: writes through to the wrapped map. *)
Definition SetNamespace (res : Resource) (ns : string) : ST heap unit :=
  let! obj := load (Map res) in
  store (Map res) (unstructured.SetNamespace obj ns).

(** ** api/v1 *)

Module operatorsv1.

(** Modelled from the spec: the type [MultiClusterHub] is declared in
    [api/v1], which is not under src/.  It is the owning entity, which
    "supplies name, namespace, and other identity fields"; the renderer
    reads the name and the namespace only. *)
Record MultiClusterHub : Type := {
  Name : string;
  Namespace : string
}.

Definition GetName (cr : MultiClusterHub) : string := Name cr.
Definition GetNamespace (cr : MultiClusterHub) : string := Namespace cr.

End operatorsv1.

(** ** pkg/rendering/renderer.go *)

(** [UpdateNamespace], on the content of [u.Object]. *)
Definition UpdateNamespace (Object : object) : bool :=
  match asMap (Object !! "metadata") with
  | Some metadata =>
      match asStrMap (metadata !! "annotations") with
      | Some annotations =>
          if bool_decide (index annotations "update-namespace" ≠ "")
          then fst (strconv.ParseBool (index annotations "update-namespace"))
          else true
      | None => true
      end
  | None => true
  end.

Abbreviation renderFn := (Resource → ST heap (option Unstructured * option error)).

Record Renderer : Type := {
  cr : operatorsv1.MultiClusterHub;
  renderFns : gmap string renderFn
}.

(** The loop of [renderTemplates]; [uobjs] is the slice built so far. *)
Fixpoint renderLoop (r : Renderer) (templates : list Resource) (uobjs : list Unstructured)
  : ST heap (list Unstructured * option error) :=
  match templates with
  | [] => ret (uobjs, None)
  | template :: rest =>
      let! kind := GetKind template in
      match renderFns r !! kind with
      | None => renderLoop r rest (uobjs ++ [{| Object := Map template |}])
      | Some render =>
          let! copy := DeepCopy template in
          let! '(uobj, err) := render copy in
          match err with
          | Some e => ret ([], Some e)
          | None =>
              match uobj with
              | None => renderLoop r rest uobjs
              | Some u => renderLoop r rest (uobjs ++ [u])
              end
          end
      end
  end.

Definition renderTemplates (r : Renderer) (templates : list Resource)
  : ST heap (list Unstructured * option error) :=
  renderLoop r templates [].

Definition renderNamespace (cr : operatorsv1.MultiClusterHub) : renderFn :=
  λ res,
    let! u := load (Map res) in
    let! _ := (if UpdateNamespace u then SetNamespace res (operatorsv1.Namespace cr) else ret ()) in
    ret (Some {| Object := Map res |}, None).

Section Rendering.

(** The ownership/installer label derived from the owning entity's name
    and namespace, as a set of label keys with their values. *)
Variable installerLabels : string → string → gmap string string.

(** Modelled from the spec: [utils.AddInstallerLabel] lives in [pkg/utils],
    which is not under src/.  The spec has it "attach an ownership/installer
    label derived from the owning entity's name and namespace": the derived
    label is merged into the labels the object already has and written
    back with [SetLabels].  This is the change made to the content of
    [u.Object]. *)
Definition AddInstallerLabel (Object : object) (name ns : string) : object :=
  unstructured.SetLabels Object (installerLabels name ns ∪ unstructured.GetLabels Object).

(** [utils.AddInstallerLabel(u, name, ns)] on the shared map. *)
Definition addInstallerLabel (u : Unstructured) (name ns : string) : ST heap unit :=
  let! obj := load (Object u) in
  store (Object u) (AddInstallerLabel obj name ns).

Definition renderClusterRole (cr : operatorsv1.MultiClusterHub) : renderFn :=
  λ res,
    let u := {| Object := Map res |} in
    let! _ := addInstallerLabel u (operatorsv1.GetName cr) (operatorsv1.GetNamespace cr) in
    ret (Some u, None).

Definition renderClusterRoleBinding (cr : operatorsv1.MultiClusterHub) : renderFn :=
  λ res,
    let u := {| Object := Map res |} in
    let! _ := addInstallerLabel u (operatorsv1.GetName cr) (operatorsv1.GetNamespace cr) in
    let! content := load (Object u) in
    match converter.FromUnstructured content with
    | Fail err => ret (None, Some err)
    | Ok clusterRoleBinding =>
        match rbacv1.Subjects clusterRoleBinding with
        | [] => crash "index out of range [0] with length 0"
        | subject :: _ =>
            if bool_decide (rbacv1.Kind subject = "Group") then ret (Some u, None)
            else
              let clusterRoleBinding' :=
                if UpdateNamespace content
                then rbacv1.setFirstSubjectNamespace clusterRoleBinding (operatorsv1.Namespace cr)
                else clusterRoleBinding in
              match converter.ToUnstructured clusterRoleBinding' with
              | Fail err => ret (None, Some err)
              | Ok newCRB =>
                  let! l := alloc newCRB in
                  ret (Some {| Object := l |}, None)
              end
        end
    end.

Definition renderCRD (cr : operatorsv1.MultiClusterHub) : renderFn :=
  λ res,
    let u := {| Object := Map res |} in
    let! _ := addInstallerLabel u (operatorsv1.GetName cr) (operatorsv1.GetNamespace cr) in
    ret (Some u, None).

Definition NewRenderer (multipleClusterHub : operatorsv1.MultiClusterHub) : Renderer :=
  {| cr := multipleClusterHub;
     renderFns :=
       list_to_map
         [ ("Deployment", renderNamespace multipleClusterHub);
           ("Service", renderNamespace multipleClusterHub);
           ("ServiceAccount", renderNamespace multipleClusterHub);
           ("ConfigMap", renderNamespace multipleClusterHub);
           ("ClusterRoleBinding", renderClusterRoleBinding multipleClusterHub);
           ("ClusterRole", renderClusterRole multipleClusterHub);
           ("Subscription", renderNamespace multipleClusterHub);
           ("StatefulSet", renderNamespace multipleClusterHub);
           ("Channel", renderNamespace multipleClusterHub);
           ("CustomResourceDefinition", renderCRD multipleClusterHub) ] |}.

End Rendering.

(** ** pkg/rendering/templates/templates.go *)

Module templates.

Definition TemplatesPathEnvVar : string := "TEMPLATES_PATH".

(** [resmap.ResMap]: the resources in order. *)
Abbreviation ResMap := (list Resource).

(** [m.Resources()]: a new slice of the same pointers. *)
Definition Resources (m : ResMap) : list Resource := m.

Record TemplateRenderer : Type := {
  templatesPath : string;
  templates : gmap string ResMap
}.

(** What the template package reads and writes: the heap, the process
    environment, the two package variables, and the list of directories
    handed to the template engine so far (one entry per invocation). *)
Record world : Type := {
  mem : heap;
  environ : gmap string string;
  loadTemplateRendererOnce : bool;
  templateRenderer : option TemplateRenderer;
  materialized : list string
}.

Definition setMem (w : world) (h : heap) : world :=
  {| mem := h; environ := environ w;
     loadTemplateRendererOnce := loadTemplateRendererOnce w;
     templateRenderer := templateRenderer w; materialized := materialized w |}.

Definition setTemplateRenderer (w : world) (r : TemplateRenderer) : world :=
  {| mem := mem w; environ := environ w;
     loadTemplateRendererOnce := loadTemplateRendererOnce w;
     templateRenderer := Some r; materialized := materialized w |}.

Definition setOnce (w : world) : world :=
  {| mem := mem w; environ := environ w;
     loadTemplateRendererOnce := true;
     templateRenderer := templateRenderer w; materialized := materialized w |}.

Definition logMaterialized (w : world) (path : string) : world :=
  {| mem := mem w; environ := environ w;
     loadTemplateRendererOnce := loadTemplateRendererOnce w;
     templateRenderer := templateRenderer w;
     materialized := materialized w ++ [path] |}.

(** Run a heap computation on the heap of the world. *)
Definition onHeap {A} (c : ST heap A) : ST world A :=
  λ w, let '(o, h) := c (mem w) in (o, setMem w h).

(** [GetTemplateRenderer]: the body under [sync.Once] runs on the first
    call only; [log.Fatalf] ends the process.  The pointer returned is the
    package variable, i.e. the [templateRenderer] field of the world. *)
Definition GetTemplateRenderer : ST world unit :=
  λ w, if loadTemplateRendererOnce w then (Returns (), w)
       else match environ w !! TemplatesPathEnvVar with
            | None => (Crashes "TEMPLATES_PATH environment variable is required", w)
            | Some templatesPath =>
                (Returns (),
                 setOnce (setTemplateRenderer w
                            {| templatesPath := templatesPath; templates := ∅ |}))
            end.

(** Allocate the resources of a freshly built [ResMap]. *)
Fixpoint allocAll (objs : list object) : ST heap ResMap :=
  match objs with
  | [] => ret []
  | o :: rest =>
      let! l := alloc o in
      let! ls := allocAll rest in
      ret ({| Map := l |} :: ls)
  end.

Section Cache.

(** [version.Version], a constant of [pkg/version] (not under src/). *)
Variable Version : string.

(** [path.Join]. *)
Variable Join : list string → string.

(** The template engine (loader, kustomize target and
    [MakeCustomizedResMap]) reads the disk: its [n]-th invocation (counting
    from 0) on a directory yields the objects of the resources, or an
    error. *)
Variable kustomize : nat → string → result (list object).

Definition kind : string := "multiclusterhub".

(** [fmt.Sprintf("%s-%s", kind, version)]. *)
Definition key : string := kind +:+ "-" +:+ Version.

(** [r.render(kustomizationPath)]: one invocation of the engine. *)
Definition render (kustomizationPath : string) : ST world (ResMap * option error) :=
  λ w, let n := length (materialized w) in
       let w' := logMaterialized w kustomizationPath in
       match kustomize n kustomizationPath with
       | Fail err => (Returns ([], Some err), w')
       | Ok objs => onHeap (let! rm := allocAll objs in ret (rm, None)) w'
       end.

(** The map write [r.templates[key] = resMap]. *)
Definition storeTemplates (resMap : ResMap) : ST world unit :=
  λ w, match templateRenderer w with
       | None => (Crashes "invalid memory address or nil pointer dereference", w)
       | Some r =>
           (Returns (),
            setTemplateRenderer w
              {| templatesPath := templatesPath r;
                 templates := <[key := resMap]> (templates r) |})
       end.

(** The receiver [r] is the pointer [GetTemplateRenderer] returns. *)
Definition GetTemplates : ST world (list Resource * option error) :=
  λ w, match templateRenderer w with
       | None => (Crashes "invalid memory address or nil pointer dereference", w)
       | Some r =>
           match templates r !! key with
           | Some resMap => (Returns (Resources resMap, None), w)
           | None =>
               (let! '(resMap, err) := render (Join [templatesPath r; kind; "base"]) in
                match err with
                | Some e => ret ([], Some e)
                | None =>
                    let! _ := storeTemplates resMap in
                    ret (Resources resMap, None)
                end) w
           end
       end.

End Cache.

End templates.

(** ** Render *)

Section Render.

Variable Version : string.
Variable Join : list string → string.
Variable kustomize : nat → string → result (list object).

(** [Render]; the client argument is not used by the body. *)
Definition Render (r : Renderer) : ST templates.world (list Unstructured * option error) :=
  let! _ := templates.GetTemplateRenderer in
  let! '(templates, err) := templates.GetTemplates Version Join kustomize in
  match err with
  | Some e => ret ([], Some e)
  | None =>
      let! '(resources, err) := templates.onHeap (renderTemplates r templates) in
      match err with
      | Some e => ret ([], Some e)
      | None => ret (resources, None)
      end
  end.

End Render.

(** ** Sequential callers *)

(** [n] calls one after the other, with their results in order. *)
Fixpoint sequentially {S A} (n : nat) (c : ST S A) : ST S (list A) :=
  match n with
  | O => ret []
  | S n' =>
      let! a := c in
      let! others := sequentially n' c in
      ret (a :: others)
  end.

(** ** Concurrent callers of [GetTemplates] *)

Module concurrent.
Import templates.

(** Where a caller of [GetTemplates] stands.  Nothing in [GetTemplates]
    takes a lock, so every access to the shared state is a step of its
    own: the map read of line 55, the call of [r.render] of line 57 and
    the map write of line 61. *)
Inductive pc : Type :=
| AtLookup
| AtRender (kustomizationPath : string)
| AtStore (resMap : ResMap)
| Finished (out : list Resource * option error)
| Panicked.

(** The shared world and the callers in flight. *)
Abbreviation config := (world * list pc)%type.

Section Steps.

Variable Version : string.
Variable Join : list string → string.
Variable kustomize : nat → string → result (list object).

(** One step of one caller on the shared world. *)
Definition stepThread (p : pc) (w : world) : pc * world :=
  match p with
  | AtLookup =>
      match templateRenderer w with
      | None => (Panicked, w)
      | Some r =>
          match templates r !! key Version with
          | Some resMap => (Finished (Resources resMap, None), w)
          | None => (AtRender (Join [templatesPath r; kind; "base"]), w)
          end
      end
  | AtRender kustomizationPath =>
      match render kustomize kustomizationPath w with
      | (Returns (_, Some e), w') => (Finished ([], Some e), w')
      | (Returns (resMap, None), w') => (AtStore resMap, w')
      | (Crashes _, w') => (Panicked, w')
      end
  | AtStore resMap =>
      match storeTemplates Version resMap w with
      | (Returns _, w') => (Finished (Resources resMap, None), w')
      | (Crashes _, w') => (Panicked, w')
      end
  | Finished out => (Finished out, w)
  | Panicked => (Panicked, w)
  end.

(** The scheduler lets caller [i] take its next step. *)
Definition step (c : config) (i : nat) : config :=
  match c.2 !! i with
  | Some p => let '(p', w') := stepThread p c.1 in (w', <[i := p']> c.2)
  | None => c
  end.

(** A schedule is the order in which callers are picked. *)
Definition run (sched : list nat) (c : config) : config := foldl step c sched.

(** A caller that has looked up the key and missed, and has not called the
    engine yet, still has one materialization ahead of it. *)
Definition pending (p : pc) : nat :=
  match p with
  | AtLookup | AtRender _ => 1
  | _ => 0
  end.

Definition materializations (w : world) : nat := length (materialized w).

End Steps.

End concurrent.

(** ** Sample inputs *)

Module samples.

Definition hub : operatorsv1.MultiClusterHub :=
  {| operatorsv1.Name := "multiclusterhub"; operatorsv1.Namespace := "ns-a" |}.

Definition labels (name ns : string) : gmap string string :=
  <["installer.name" := name]> (<["installer.namespace" := ns]> ∅).

(** A Deployment in namespace [default] with the given annotations value. *)
Definition deployment (annotations : value) : object :=
  <["kind" := VString "Deployment"]>
  (<["metadata" :=
       VMap (<["name" := VString "web"]>
            (<["namespace" := VString "default"]>
            (<["annotations" := annotations]> ∅)))]> ∅).

(** The same Deployment without annotations. *)
Definition plainDeployment : object :=
  <["kind" := VString "Deployment"]>
  (<["metadata" :=
       VMap (<["name" := VString "web"]> (<["namespace" := VString "default"]> ∅))]> ∅).

(** [update-namespace: "false"] in a [map[string]interface{}], the shape
    a decoded YAML or JSON document has. *)
Definition genericOptOut : object :=
  deployment (VMap (<["update-namespace" := VString "false"]> ∅)).

(** [update-namespace: "false"] in a [map[string]string]. *)
Definition typedOptOut : object :=
  deployment (VStrMap (<["update-namespace" := "false"]> ∅)).

(** [update-namespace: "yes"] in a [map[string]string]. *)
Definition typedYes : object :=
  deployment (VStrMap (<["update-namespace" := "yes"]> ∅)).

(** A ClusterRoleBinding with one subject of the given kind, in namespace
    [default], and no annotations. *)
Definition binding (subjectKind : string) : object :=
  <["apiVersion" := VString "rbac.authorization.k8s.io/v1"]>
  (<["kind" := VString "ClusterRoleBinding"]>
  (<["metadata" := VMap (<["name" := VString "hub-binding"]> ∅)]>
  (<["subjects" :=
       VList [VMap (<["kind" := VString subjectKind]>
                   (<["name" := VString "hub-sa"]>
                   (<["namespace" := VString "default"]> ∅)))]]>
  (<["roleRef" :=
       VMap (<["apiGroup" := VString "rbac.authorization.k8s.io"]>
            (<["kind" := VString "ClusterRole"]>
            (<["name" := VString "hub-role"]> ∅)))]> ∅)))).

Definition subject (subjectKind namespace : string) : rbacv1.Subject :=
  {| rbacv1.Kind := subjectKind; rbacv1.APIGroup := "";
     rbacv1.Name := "hub-sa"; rbacv1.Namespace := namespace |}.

(** A ClusterRoleBinding whose [subjects] is a string, not a list. *)
Definition malformedBinding : object :=
  <["kind" := VString "ClusterRoleBinding"]>
  (<["metadata" := VMap (<["name" := VString "broken"]> ∅)]>
  (<["subjects" := VString "oops"]> ∅)).

(** A resource of a kind that has no patch function. *)
Definition secret : object :=
  <["kind" := VString "Secret"]>
  (<["metadata" :=
       VMap (<["name" := VString "token"]> (<["namespace" := VString "default"]> ∅))]> ∅).

Definition version : string := "2.4.0".

Definition join (elems : list string) : string :=
  foldr (λ e acc, if bool_decide (acc = "") then e else e +:+ "/" +:+ acc) "" elems.

(** An engine that always yields a Deployment, a ClusterRoleBinding and a
    Secret. *)
Definition engine (n : nat) (dir : string) : result (list object) :=
  Ok [plainDeployment; binding "ServiceAccount"; secret].

(** An engine whose first invocation fails. *)
Definition flaky (n : nat) (dir : string) : result (list object) :=
  match n with
  | O => Fail (Err "open kustomization.yaml: no such file or directory")
  | S _ => Ok [plainDeployment; binding "ServiceAccount"; secret]
  end.

(** An engine that yields a malformed ClusterRoleBinding between two
    resources that are fine. *)
Definition broken (n : nat) (dir : string) : result (list object) :=
  Ok [plainDeployment; malformedBinding; secret].

(** An engine that yields a Deployment that opts out of the namespace
    override, the annotation in the shape a decoded document has. *)
Definition optingOut (n : nat) (dir : string) : result (list object) :=
  Ok [genericOptOut].

(** The process right after the first [GetTemplateRenderer]. *)
Definition loaded : templates.world :=
  {| templates.mem := [];
     templates.environ := <["TEMPLATES_PATH" := "/templates"]> ∅;
     templates.loadTemplateRendererOnce := true;
     templates.templateRenderer :=
       Some {| templates.templatesPath := "/templates"; templates.templates := ∅ |};
     templates.materialized := [] |}.

(** The three resources of [engine] as the cache hands them out, and the
    heap that holds them. *)
Definition three : list Resource := [{| Map := 0 |}; {| Map := 1 |}; {| Map := 2 |}].

Definition stored : heap := [plainDeployment; binding "ServiceAccount"; secret].

(** The world after one successful [GetTemplates] from [loaded]. *)
Definition cached : templates.world :=
  (templates.GetTemplates version join engine loaded).2.

(** The world after [GetTemplates] from [loaded] with the [broken] engine. *)
Definition cachedBroken : templates.world :=
  (templates.GetTemplates version join broken loaded).2.

(** The ClusterRoleBinding of [binding] with the given annotations in a
    [map[string]string]. *)
Definition annotatedBinding (subjectKind : string) (annotations : gmap string string)
  : object :=
  <["metadata" :=
      VMap (<["name" := VString "hub-binding"]>
           (<["annotations" := VStrMap annotations]> ∅))]> (binding subjectKind).


(** A ClusterRoleBinding without subjects. *)
Definition emptyBinding : object :=
  <["kind" := VString "ClusterRoleBinding"]>
  (<["metadata" := VMap (<["name" := VString "empty"]> ∅)]> ∅).

(** The typed reading of [binding] and [annotatedBinding] once labelled
    for [hub]. *)
Definition typedBinding (subjectKind : string) (annotations : gmap string string)
  : rbacv1.ClusterRoleBinding :=
  {| rbacv1.TypeKind := "ClusterRoleBinding";
     rbacv1.APIVersion := "rbac.authorization.k8s.io/v1";
     rbacv1.MetaName := "hub-binding"; rbacv1.MetaNamespace := "";
     rbacv1.Labels := labels "multiclusterhub" "ns-a";
     rbacv1.Annotations := annotations;
     rbacv1.Subjects := [subject subjectKind "default"];
     rbacv1.Ref := {| rbacv1.RoleAPIGroup := "rbac.authorization.k8s.io";
                      rbacv1.RoleKind := "ClusterRole";
                      rbacv1.RoleName := "hub-role" |} |}.

(** A renderer whose patch function for Secrets returns neither a resource
    nor an error. *)
Definition dropSecret : renderFn := λ _, ret (None, None).

Definition dropping : Renderer :=
  {| cr := hub; renderFns := <["Secret" := dropSecret]> ∅ |}.

(** Another owning entity. *)
Definition otherHub : operatorsv1.MultiClusterHub :=
  {| operatorsv1.Name := "second"; operatorsv1.Namespace := "ns-b" |}.

(** A process that has not called [GetTemplateRenderer] yet. *)
Definition fresh (environ : gmap string string) : templates.world :=
  {| templates.mem := []; templates.environ := environ;
     templates.loadTemplateRendererOnce := false;
     templates.templateRenderer := None;
     templates.materialized := [] |}.

(** The heap [stored] with the binding replaced by one without subjects. *)
Definition storedEmpty : heap := [plainDeployment; emptyBinding; secret].

End samples.

(** * Properties *)

(** ** The namespace-override policy *)

(** The annotation value [UpdateNamespace] looks at: present only when
    [metadata] is a generic map and [metadata.annotations] is a
    [map[string]string]. *)
Definition typedAnnotations (Object : object) : option (gmap string string) :=
  match asMap (Object !! "metadata") with
  | Some metadata => asStrMap (metadata !! "annotations")
  | None => None
  end.

(** The annotation as a reader of the resource sees it: the string under
    [metadata.annotations], whichever of the two map types holds it. *)
Definition annotation (Object : object) (name : string) : option string :=
  match asMap (Object !! "metadata") with
  | Some metadata =>
      match metadata !! "annotations" with
      | Some (VStrMap annotations) => annotations !! name
      | Some (VMap annotations) => asString (annotations !! name)
      | _ => None
      end
  | None => None
  end.


(** [metadata] is absent or a generic map. *)
Definition metadataIsMap (Object : object) : Prop :=
  match Object !! "metadata" with
  | None | Some (VMap _) => True
  | Some _ => False
  end.

(** A patch function writes to the map of the resource it is given and to
    maps it allocates, nowhere else. *)
Definition confined (f : renderFn) : Prop :=
  ∀ (res : Resource) (h : heap),
    (length h ≤ length (f res h).2)%nat ∧
    ∀ l, l ≠ Map res → (l < length h)%nat → (f res h).2 !! l = h !! l.

(** A patch function hands back an allocated map of the same kind as its
    input. *)
Definition keepsKind (f : renderFn) : Prop :=
  ∀ (res : Resource) (h h' : heap) (o : object) (u : Unstructured),
    h !! Map res = Some o →
    f res h = (Returns (Some u, None), h') →
    ∃ o', h' !! Object u = Some o' ∧
          (unstructured.GetKind o ≠ "" → unstructured.GetKind o' = unstructured.GetKind o).

(** A patch function never returns [(nil, nil)]. *)
Definition neverDrops (f : renderFn) : Prop :=
  ∀ (res : Resource) (h h' : heap), f res h ≠ (Returns (None, None), h').

Definition wellBehaved (f : renderFn) : Prop :=
  confined f ∧ keepsKind f ∧ neverDrops f.

(** Output [u] stands for template [t]: it holds a map of the same kind,
    and when no patch function is registered for that kind it is the
    template's own map with its content as it was.  [h] is the heap
    before the pipeline, [h'] the heap after. *)
Definition aligned (r : Renderer) (h h' : heap) (t : Resource) (u : Unstructured) : Prop :=
  ∀ o, h !! Map t = Some o →
       ∃ o', h' !! Object u = Some o' ∧
             unstructured.GetKind o' = unstructured.GetKind o ∧
             (renderFns r !! unstructured.GetKind o = None →
              u = {| Object := Map t |} ∧ o' = o).

(** The directory [GetTemplates] hands to the engine. *)
Definition base (Join : list string → string) (r : templates.TemplateRenderer) : string :=
  Join [templates.templatesPath r; templates.kind; "base"].

(** Callers in flight on a cache that started cold with [m] invocations
    of the engine behind it: the renderer is loaded, and as soon as the
    key is stored or a caller is past its call of the engine, the engine
    has been invoked since. *)
Definition engineRan (Version : string) (m : nat) (c : concurrent.config) : Prop :=
  (m ≤ concurrent.materializations c.1)%nat ∧
  (∃ r, templates.templateRenderer c.1 = Some r ∧
        (is_Some (templates.templates r !! templates.key Version) →
         (m < concurrent.materializations c.1)%nat)) ∧
  ∀ i p, c.2 !! i = Some p → concurrent.pending p = 0 →
         (m < concurrent.materializations c.1)%nat.

(** ** Vocabulary of the further properties *)

(** The spellings [strconv.ParseBool] reads as true. *)
Definition trueSpellings : list string := ["1"; "t"; "T"; "true"; "TRUE"; "True"].

(** The kinds [NewRenderer] registers, by patch function. *)
Definition namespaceKinds : list string :=
  ["Deployment"; "Service"; "ServiceAccount"; "ConfigMap"; "Subscription";
   "StatefulSet"; "Channel"].

Definition labelKinds : list string :=
  ["ClusterRoleBinding"; "ClusterRole"; "CustomResourceDefinition"].

(** [&unstructured.Unstructured{Object: template.Map()}]. *)
Definition wrap (t : Resource) : Unstructured := {| Object := Map t |}.

(** A patch function returns the map it was given or a map that did not
    exist before the call. *)
Definition ownOrFresh (f : renderFn) : Prop :=
  ∀ (res : Resource) (h h' : heap) (u : Unstructured),
    f res h = (Returns (Some u, None), h') →
    Object u = Map res ∨ (length h ≤ Object u)%nat.

(** A patch function hands back an allocated map whose content is related
    by [Q] to the content it was given. *)
Definition establishes (Q : object → object → Prop) (f : renderFn) : Prop :=
  ∀ (res : Resource) (h h' : heap) (o : object) (u : Unstructured),
    h !! Map res = Some o →
    f res h = (Returns (Some u, None), h') →
    ∃ o', h' !! Object u = Some o' ∧ Q o o'.

(** Output [u] of a run from heap [h] to heap [h'] is what the pipeline
    makes of template [t]: for a kind without patch function the template
    itself, its content as it was; for a registered kind, whose template
    was copied and so is JSON data, a map that did not exist before the
    run, with content related by [Q] at that kind to the template's. *)
Definition rendered (r : Renderer) (Q : string → object → object → Prop)
    (h h' : heap) (t : Resource) (u : Unstructured) : Prop :=
  ∀ o, h !! Map t = Some o →
       match renderFns r !! unstructured.GetKind o with
       | None => u = wrap t ∧ h' !! Map t = Some o
       | Some _ =>
           runtime.jsonValue (VMap o) = true ∧
           (length h ≤ Object u)%nat ∧
           ∃ o', h' !! Object u = Some o' ∧ Q (unstructured.GetKind o) o o'
       end.

(** What the patch function registered for [kind] makes of content [o]:
    for the kinds of the namespace transform the namespace is overridden
    or the content is kept, as [UpdateNamespace] says; for the labelled
    kinds the installer label is among the labels when [metadata] is
    absent or a generic map. *)
Definition patched (installerLabels : string → string → gmap string string)
    (cr : operatorsv1.MultiClusterHub) (kind : string) (o o' : object) : Prop :=
  (kind ∈ namespaceKinds →
   o' = if UpdateNamespace o
        then unstructured.SetNamespace o (operatorsv1.Namespace cr) else o) ∧
  (kind ∈ labelKinds → metadataIsMap o →
   ∀ k v, installerLabels (operatorsv1.Name cr) (operatorsv1.Namespace cr) !! k = Some v →
          unstructured.GetLabels o' !! k = Some v).

(** The process with another environment. *)
Definition setEnviron (w : templates.world) (env : gmap string string) : templates.world :=
  {| templates.mem := templates.mem w; templates.environ := env;
     templates.loadTemplateRendererOnce := templates.loadTemplateRendererOnce w;
     templates.templateRenderer := templates.templateRenderer w;
     templates.materialized := templates.materialized w |}.

Lemma UpdateNamespace_typed (Object : object) (annotations : gmap string string) :
  typedAnnotations Object = Some annotations →
  UpdateNamespace Object =
    if bool_decide (index annotations "update-namespace" ≠ "")
    then (strconv.ParseBool (index annotations "update-namespace")).1
    else true.
Proof.
  unfold typedAnnotations, UpdateNamespace.
  destruct (asMap (Object !! "metadata")) as [metadata|]; [|done].
  by intros ->.
Qed.

Lemma UpdateNamespace_untyped (Object : object) :
  typedAnnotations Object = None → UpdateNamespace Object = true.
Proof.
  unfold typedAnnotations, UpdateNamespace.
  destruct (asMap (Object !! "metadata")) as [metadata|]; [|done].
  by intros ->.
Qed.

Lemma ParseBool_invalid (s : string) :
  is_Some (strconv.ParseBool s).2 → (strconv.ParseBool s).1 = false.
Proof.
  unfold strconv.ParseBool.
  repeat case_bool_decide; simpl; by try intros [? ?].
Qed.

Lemma GetNamespace_SetNamespace (Object : object) (ns : string) :
  metadataIsMap Object →
  unstructured.GetNamespace (unstructured.SetNamespace Object ns) = ns.
Proof.
  unfold metadataIsMap, unstructured.SetNamespace, unstructured.GetNamespace,
    unstructured.getNestedString, unstructured.NestedFieldNoCopy,
    unstructured.setNestedField.
  intros Hmeta. case_bool_decide as Hns; simpl.
  - subst ns. destruct (Object !! "metadata") as [[]|] eqn:E; try done; simpl.
    + by rewrite lookup_insert_eq, lookup_delete_eq.
    + by rewrite E.
  - destruct (Object !! "metadata") as [[]|] eqn:E; try done; simpl.
    + by rewrite !lookup_insert_eq.
    + by rewrite !lookup_insert_eq.
Qed.

(** Running the state monad. *)

Lemma bind_run {S A B} (c : ST S A) (k : A → ST S B) (s s' : S) (a : A) :
  c s = (Returns a, s') → bind c k s = k a s'.
Proof. unfold bind. by intros ->. Qed.

Lemma bind_crash {S A B} (c : ST S A) (k : A → ST S B) (s s' : S) (why : string) :
  c s = (Crashes why, s') → bind c k s = (Crashes why, s').
Proof. unfold bind. by intros ->. Qed.

Lemma outcome_with_state {A B : Type} (p : A * B) (a : A) : p.1 = a → p = (a, p.2).
Proof. intros <-. by destruct p. Qed.

Lemma load_run (h : heap) (l : loc) (o : object) :
  h !! l = Some o → load l h = (Returns o, h).
Proof. unfold load. by intros ->. Qed.

Lemma store_run (h : heap) (l : loc) (o o' : object) :
  h !! l = Some o → store l o' h = (Returns (), <[l := o']> h).
Proof. unfold store. by intros ->. Qed.

Lemma renderNamespace_run (cr : operatorsv1.MultiClusterHub) (res : Resource)
    (h : heap) (Object : object) :
  h !! Map res = Some Object →
  renderNamespace cr res h =
    (Returns (Some {| Object := Map res |}, None),
     if UpdateNamespace Object
     then <[Map res := unstructured.SetNamespace Object (operatorsv1.Namespace cr)]> h
     else h).
Proof.
  intros Hres. unfold renderNamespace.
  rewrite (bind_run _ _ h h Object); [|by apply load_run].
  destruct (UpdateNamespace Object); [|done].
  rewrite (bind_run _ _ h (<[Map res := unstructured.SetNamespace Object (operatorsv1.Namespace cr)]> h) ()); [done|].
  unfold SetNamespace.
  rewrite (bind_run _ _ h h Object); [|by apply load_run].
  by apply (store_run h _ Object).
Qed.

(** C10: a resource whose [metadata.annotations] is a string-to-string map
    with a non-empty [update-namespace] value that [strconv.ParseBool]
    rejects makes [UpdateNamespace] return [false]; the parse error is
    dropped: the namespace transform returns the resource with no error
    and writes nothing. *)
Theorem UpdateNamespace_malformed_value (cr : operatorsv1.MultiClusterHub)
    (res : Resource) (h : heap) (Object : object)
    (annotations : gmap string string) (s : string) :
  h !! Map res = Some Object →
  typedAnnotations Object = Some annotations →
  annotations !! "update-namespace" = Some s →
  s ≠ "" →
  is_Some (strconv.ParseBool s).2 →
  UpdateNamespace Object = false ∧
  renderNamespace cr res h = (Returns (Some {| Object := Map res |}, None), h).
Proof.
  intros Hres Hann Hs Hne Hbad.
  assert (UpdateNamespace Object = false) as Hupd.
  { rewrite (UpdateNamespace_typed _ _ Hann). unfold index. rewrite Hs. simpl.
    rewrite bool_decide_eq_true_2; [|done]. by apply ParseBool_invalid. }
  split; [done|].
  rewrite (renderNamespace_run _ _ _ _ Hres). by rewrite Hupd.
Qed.

Lemma UpdateNamespace_malformed_value_witness :
  UpdateNamespace samples.typedYes = false ∧
  renderNamespace samples.hub {| Map := 0 |} [samples.typedYes] =
    (Returns (Some {| Object := 0 |}, None), [samples.typedYes]).
Proof.
  apply (UpdateNamespace_malformed_value samples.hub {| Map := 0 |}
           [samples.typedYes] samples.typedYes
           (<["update-namespace" := "yes"]> ∅) "yes").
  - reflexivity.
  - reflexivity.
  - reflexivity.
  - discriminate.
  - vm_compute. eexists. reflexivity.
Defined.

(** ** Writes under [metadata] leave the other top-level fields alone *)

Lemma setNested_deeper (m : object) (v : value) (field f' : string) (rest : list string) :
  unstructured.setNested m v (field :: f' :: rest) =
    match m !! field with
    | Some (VMap m') =>
        match unstructured.setNested m' v (f' :: rest) with
        | Some m'' => Some (<[field := VMap m'']> m)
        | None => None
        end
    | Some _ => None
    | None =>
        match unstructured.setNested ∅ v (f' :: rest) with
        | Some m'' => Some (<[field := VMap m'']> m)
        | None => None
        end
    end.
Proof. reflexivity. Qed.

Lemma setNestedField_other (obj : object) (v : value) (field k : string)
    (rest : list string) :
  k ≠ field → unstructured.setNestedField obj v (field :: rest) !! k = obj !! k.
Proof.
  intros Hne. unfold unstructured.setNestedField.
  destruct rest as [|f' rest'].
  - simpl. by rewrite lookup_insert_ne.
  - rewrite setNested_deeper.
    destruct (obj !! field) as [[]|]; try done.
    + destruct (unstructured.setNested m v (f' :: rest')); simpl; [|done].
      by rewrite lookup_insert_ne.
    + destruct (unstructured.setNested ∅ v (f' :: rest')); simpl; [|done].
      by rewrite lookup_insert_ne.
Qed.

Lemma RemoveNestedField_other (obj : object) (field k : string) (rest : list string) :
  k ≠ field → rest ≠ [] → unstructured.RemoveNestedField obj (field :: rest) !! k = obj !! k.
Proof.
  intros Hne Hrest. destruct rest as [|f' rest']; [done|]. simpl.
  destruct (obj !! field) as [[]|]; try done.
  by rewrite lookup_insert_ne.
Qed.

Lemma SetNamespace_other (obj : object) (ns k : string) :
  k ≠ "metadata" → unstructured.SetNamespace obj ns !! k = obj !! k.
Proof.
  intros Hne. unfold unstructured.SetNamespace. case_bool_decide.
  - by apply RemoveNestedField_other.
  - by apply setNestedField_other.
Qed.

Lemma GetKind_lookup (obj obj' : object) :
  obj' !! "kind" = obj !! "kind" → unstructured.GetKind obj' = unstructured.GetKind obj.
Proof.
  unfold unstructured.GetKind, unstructured.getNestedString,
    unstructured.NestedFieldNoCopy. simpl. by intros ->.
Qed.

Lemma GetKind_SetNamespace (obj : object) (ns : string) :
  unstructured.GetKind (unstructured.SetNamespace obj ns) = unstructured.GetKind obj.
Proof. apply GetKind_lookup. by apply SetNamespace_other. Qed.

Section LabelFacts.

Variable installerLabels : string → string → gmap string string.

Lemma AddInstallerLabel_other (obj : object) (name ns k : string) :
  k ≠ "metadata" → AddInstallerLabel installerLabels obj name ns !! k = obj !! k.
Proof. intros Hne. by apply setNestedField_other. Qed.

Lemma GetKind_AddInstallerLabel (obj : object) (name ns : string) :
  unstructured.GetKind (AddInstallerLabel installerLabels obj name ns)
  = unstructured.GetKind obj.
Proof. apply GetKind_lookup. by apply AddInstallerLabel_other. Qed.

(** The labels stored by [SetLabels] read back as they were written. *)
Lemma stringsOf_fmap (labels : gmap string string) :
  stringsOf (VString <$> labels) = Some labels.
Proof.
  unfold stringsOf. rewrite bool_decide_eq_true_2.
  - f_equal. apply map_eq. intros k. rewrite lookup_omap, lookup_fmap.
    by destruct (labels !! k).
  - intros k x Hx. rewrite lookup_fmap in Hx.
    destruct (labels !! k); simplify_eq/=. by eexists.
Qed.

Lemma decStrings_fmap (labels : gmap string string) :
  converter.decStrings (VString <$> labels) = Ok labels.
Proof.
  unfold converter.decStrings. rewrite map_fold_fmap.
  apply (map_fold_weak_ind (λ b (m : gmap string string), b = Ok m)); [done|].
  by intros k s m rest Hk ->.
Qed.

Lemma GetLabels_SetLabels (obj : object) (labels : gmap string string) :
  metadataIsMap obj →
  unstructured.GetLabels (unstructured.SetLabels obj labels) = labels.
Proof.
  unfold metadataIsMap, unstructured.GetLabels, unstructured.SetLabels,
    unstructured.NestedStringMap, unstructured.NestedFieldNoCopy,
    unstructured.setNestedField.
  intros Hmeta.
  destruct (obj !! "metadata") as [[]|] eqn:E; try done; simpl; rewrite E; simpl.
  - rewrite !lookup_insert_eq. simpl. by rewrite stringsOf_fmap.
  - rewrite !lookup_insert_eq. simpl. by rewrite stringsOf_fmap.
Qed.

(** On a resource whose [metadata] is absent or a generic map, the
    installer label is among the labels afterwards. *)
Lemma AddInstallerLabel_attached (obj : object) (name ns k v : string) :
  metadataIsMap obj →
  installerLabels name ns !! k = Some v →
  unstructured.GetLabels (AddInstallerLabel installerLabels obj name ns) !! k = Some v.
Proof.
  intros Hmeta Hk. unfold AddInstallerLabel.
  rewrite GetLabels_SetLabels by done.
  by apply lookup_union_Some_l.
Qed.

End LabelFacts.

(** ** The converter *)

Section ConverterFacts.
Import rbacv1 converter.

Lemma bindR_Ok {A B} (r : result A) (k : A → result B) (b : B) :
  bindR r k = Ok b → ∃ a, r = Ok a ∧ k a = Ok b.
Proof. destruct r as [a|e]; simpl; [|done]. intros H. by exists a. Qed.

Lemma putString_eq (k s : string) (m : object) :
  m !! k = None → decString (putString k s m !! k) = Ok s.
Proof.
  intros Hm. unfold putString. case_bool_decide as Hs.
  - subst s. by rewrite Hm.
  - by rewrite lookup_insert_eq.
Qed.

Lemma putString_ne (k k' s : string) (m : object) :
  k ≠ k' → putString k s m !! k' = m !! k'.
Proof.
  intros Hne. unfold putString. case_bool_decide; [done|].
  by rewrite lookup_insert_ne.
Qed.

Lemma putStringMap_eq (k : string) (x : gmap string string) (m : object) :
  m !! k = None → decStringMap (putStringMap k x m !! k) = Ok x.
Proof.
  intros Hm. unfold putStringMap. case_bool_decide as Hx.
  - subst x. by rewrite Hm.
  - rewrite lookup_insert_eq. cbn [decStringMap]. by rewrite decStrings_fmap.
Qed.

Lemma putStringMap_ne (k k' : string) (x : gmap string string) (m : object) :
  k ≠ k' → putStringMap k x m !! k' = m !! k'.
Proof.
  intros Hne. unfold putStringMap. case_bool_decide; [done|].
  by rewrite lookup_insert_ne.
Qed.

(** Skip the fields written under other keys, in a goal with one lookup. *)
Ltac skip_fields :=
  repeat first [ rewrite putString_ne by done
               | rewrite putStringMap_ne by done
               | rewrite lookup_insert_ne by done ].

Ltac read_field :=
  skip_fields;
  first [ rewrite putString_eq; [done | by skip_fields]
        | rewrite putStringMap_eq; [done | by skip_fields]
        | by rewrite lookup_insert_eq
        | done ].

Lemma decSubject_encSubject (s : Subject) : decSubject (encSubject s) = Ok s.
Proof.
  destruct s as [kind apiGroup name namespace].
  set (m := putString "apiGroup" apiGroup
              (putString "namespace" namespace
                 (<["kind" := VString kind]> (<["name" := VString name]> ∅)))).
  assert (decString (m !! "kind") = Ok kind) as Hkind by (unfold m; read_field).
  assert (decString (m !! "apiGroup") = Ok apiGroup) as Hgroup by (unfold m; read_field).
  assert (decString (m !! "name") = Ok name) as Hname by (unfold m; read_field).
  assert (decString (m !! "namespace") = Ok namespace) as Hns by (unfold m; read_field).
  unfold decSubject, encSubject. cbn [Kind APIGroup Name Namespace]. fold m.
  cbn [decStruct bindR].
  rewrite Hkind. cbn [bindR]. rewrite Hgroup. cbn [bindR].
  rewrite Hname. cbn [bindR]. rewrite Hns. done.
Qed.

Lemma decAll_encSubject (l : list Subject) :
  decAll decSubject (encSubject <$> l) = Ok l.
Proof.
  induction l as [|s l IH]; [done|].
  rewrite fmap_cons. cbn [decAll]. rewrite decSubject_encSubject. cbn [bindR].
  by rewrite IH.
Qed.

Lemma decRoleRef_encRoleRef (r : RoleRef) : decRoleRef (Some (encRoleRef r)) = Ok r.
Proof.
  destruct r as [apiGroup kind name]. unfold decRoleRef, encRoleRef.
  cbn [decStruct bindR].
  rewrite lookup_insert_eq. cbn [decString bindR].
  rewrite lookup_insert_ne by done. rewrite lookup_insert_eq. cbn [decString bindR].
  rewrite !lookup_insert_ne by done. by rewrite lookup_insert_eq.
Qed.

(** What the converter writes, it reads back. *)
Lemma FromUnstructured_ToUnstructured (crb : ClusterRoleBinding) (u : object) :
  ToUnstructured crb = Ok u → FromUnstructured u = Ok crb.
Proof.
  destruct crb as [kind apiVersion name namespace labels annotations subjects roleRef].
  unfold ToUnstructured, encMeta. cbn [TypeKind APIVersion MetaName MetaNamespace
    Labels Annotations Subjects Ref]. intros [= <-].
  set (body := (if bool_decide (subjects = []) then id
                else <["subjects" := VList (encSubject <$> subjects)]>)
                 (<["roleRef" := encRoleRef roleRef]> ∅)).
  set (meta := putString "name" name
                 (putString "namespace" namespace
                    (putStringMap "labels" labels
                       (putStringMap "annotations" annotations
                          (<["creationTimestamp" := VNil]> ∅))))).
  set (u := putString "kind" kind
              (putString "apiVersion" apiVersion (<["metadata" := VMap meta]> body))).
  assert (∀ k, k ≠ "subjects" → k ≠ "roleRef" → body !! k = None) as Hbody.
  { intros k H1 H2. unfold body. case_bool_decide; simpl.
    - by rewrite lookup_insert_ne.
    - by rewrite !lookup_insert_ne. }
  assert (decSubjects (u !! "subjects") = Ok subjects) as Hsubjects.
  { unfold u. skip_fields. unfold body. case_bool_decide as Hs; simpl.
    - subst subjects. by rewrite lookup_insert_ne.
    - rewrite lookup_insert_eq. simpl. apply decAll_encSubject. }
  assert (decRoleRef (u !! "roleRef") = Ok roleRef) as Hrole.
  { unfold u. skip_fields. unfold body. case_bool_decide; simpl.
    - rewrite lookup_insert_eq. apply decRoleRef_encRoleRef.
    - rewrite lookup_insert_ne by done. rewrite lookup_insert_eq.
      apply decRoleRef_encRoleRef. }
  assert (decString (u !! "kind") = Ok kind) as Hkind.
  { unfold u. rewrite putString_eq; [done|]. skip_fields. by apply Hbody. }
  assert (decString (u !! "apiVersion") = Ok apiVersion) as Hversion.
  { unfold u. skip_fields. rewrite putString_eq; [done|]. skip_fields. by apply Hbody. }
  assert (decStruct (u !! "metadata") = Ok meta) as Hmeta.
  { unfold u. skip_fields. by rewrite lookup_insert_eq. }
  assert (decString (meta !! "name") = Ok name) as Hname by (unfold meta; read_field).
  assert (decString (meta !! "namespace") = Ok namespace) as Hns
    by (unfold meta; read_field).
  assert (decStringMap (meta !! "labels") = Ok labels) as Hlabels
    by (unfold meta; read_field).
  assert (decStringMap (meta !! "annotations") = Ok annotations) as Hann
    by (unfold meta; read_field).
  unfold FromUnstructured.
  rewrite Hkind. cbn [bindR]. rewrite Hversion. cbn [bindR].
  rewrite Hmeta. cbn [bindR]. rewrite Hname. cbn [bindR]. rewrite Hns. cbn [bindR].
  rewrite Hlabels. cbn [bindR]. rewrite Hann. cbn [bindR].
  rewrite Hsubjects. cbn [bindR]. rewrite Hrole. done.
Qed.

(** The typed [kind] is the [kind] of the content when that is not empty. *)
Lemma FromUnstructured_kind (u : object) (crb : ClusterRoleBinding) :
  FromUnstructured u = Ok crb →
  unstructured.GetKind u ≠ "" →
  TypeKind crb = unstructured.GetKind u.
Proof.
  unfold FromUnstructured. intros H Hkind.
  apply bindR_Ok in H as (kind & Hk & H).
  repeat (apply bindR_Ok in H as (? & _ & H)).
  injection H as <-. cbn [TypeKind].
  revert Hkind Hk. unfold unstructured.GetKind, unstructured.getNestedString,
    unstructured.NestedFieldNoCopy. simpl.
  destruct (u !! "kind") as [[]|]; simpl; try done; by intros ? [= ->].
Qed.

Lemma FromUnstructured_labels (u meta : object) (crb : ClusterRoleBinding)
    (labels : gmap string string) :
  FromUnstructured u = Ok crb →
  u !! "metadata" = Some (VMap meta) →
  meta !! "labels" = Some (VMap (VString <$> labels)) →
  Labels crb = labels.
Proof.
  unfold FromUnstructured. intros H Hmeta Hlabels.
  apply bindR_Ok in H as (kind & _ & H).
  apply bindR_Ok in H as (apiVersion & _ & H).
  apply bindR_Ok in H as (meta' & Hm & H).
  rewrite Hmeta in Hm. injection Hm as <-.
  apply bindR_Ok in H as (name & _ & H).
  apply bindR_Ok in H as (namespace & _ & H).
  apply bindR_Ok in H as (labels' & Hl & H).
  rewrite Hlabels in Hl. cbn [decStringMap] in Hl. rewrite decStrings_fmap in Hl.
  injection Hl as <-.
  repeat (apply bindR_Ok in H as (? & _ & H)).
  by injection H as <-.
Qed.

Lemma ToUnstructured_kind (crb : ClusterRoleBinding) (u : object) :
  ToUnstructured crb = Ok u →
  TypeKind crb ≠ "" →
  unstructured.GetKind u = TypeKind crb.
Proof.
  unfold ToUnstructured. intros [= <-] Hkind.
  unfold unstructured.GetKind, unstructured.getNestedString,
    unstructured.NestedFieldNoCopy. cbn [unstructured.nestedIn].
  unfold putString at 1. rewrite bool_decide_eq_false_2 by done.
  by rewrite lookup_insert_eq.
Qed.

Lemma ToUnstructured_labels (crb : ClusterRoleBinding) (u : object) :
  ToUnstructured crb = Ok u → unstructured.GetLabels u = Labels crb.
Proof.
  unfold ToUnstructured. intros [= <-].
  unfold unstructured.GetLabels, unstructured.NestedStringMap,
    unstructured.NestedFieldNoCopy. cbn [unstructured.nestedIn].
  skip_fields. rewrite lookup_insert_eq.
  unfold encMeta. skip_fields.
  unfold putStringMap at 1. case_bool_decide as Hl.
  - rewrite Hl. skip_fields. by rewrite lookup_empty.
  - rewrite lookup_insert_eq. simpl. by rewrite stringsOf_fmap.
Qed.

End ConverterFacts.

(** ** The patch functions, run *)

Section PatchFacts.

Variable installerLabels : string → string → gmap string string.

Lemma addInstallerLabel_run (u : Unstructured) (name ns : string) (h : heap)
    (obj : object) :
  h !! Object u = Some obj →
  addInstallerLabel installerLabels u name ns h =
    (Returns (), <[Object u := AddInstallerLabel installerLabels obj name ns]> h).
Proof.
  intros Hu. unfold addInstallerLabel.
  rewrite (bind_run _ _ h h obj); [|by apply load_run].
  by apply (store_run h _ obj).
Qed.

Lemma renderClusterRole_run (cr : operatorsv1.MultiClusterHub) (res : Resource)
    (h : heap) (obj : object) :
  h !! Map res = Some obj →
  renderClusterRole installerLabels cr res h =
    (Returns (Some {| Object := Map res |}, None),
     <[Map res := AddInstallerLabel installerLabels obj (operatorsv1.Name cr)
                    (operatorsv1.Namespace cr)]> h).
Proof.
  intros Hres. unfold renderClusterRole.
  by rewrite (bind_run _ _ _ _ _ (addInstallerLabel_run {| Object := Map res |} _ _ h obj Hres)).
Qed.

Lemma renderCRD_run (cr : operatorsv1.MultiClusterHub) (res : Resource)
    (h : heap) (obj : object) :
  h !! Map res = Some obj →
  renderCRD installerLabels cr res h =
    (Returns (Some {| Object := Map res |}, None),
     <[Map res := AddInstallerLabel installerLabels obj (operatorsv1.Name cr)
                    (operatorsv1.Namespace cr)]> h).
Proof.
  intros Hres. unfold renderCRD.
  by rewrite (bind_run _ _ _ _ _ (addInstallerLabel_run {| Object := Map res |} _ _ h obj Hres)).
Qed.

(** [renderClusterRoleBinding] on a resource holding [obj]: the label is
    written to the resource's own map first, whatever happens next. *)
Lemma renderClusterRoleBinding_run (cr : operatorsv1.MultiClusterHub)
    (res : Resource) (h : heap) (obj : object) :
  h !! Map res = Some obj →
  let content := AddInstallerLabel installerLabels obj (operatorsv1.Name cr)
                   (operatorsv1.Namespace cr) in
  let h1 := <[Map res := content]> h in
  renderClusterRoleBinding installerLabels cr res h =
    match converter.FromUnstructured content with
    | Fail err => (Returns (None, Some err), h1)
    | Ok crb =>
        match rbacv1.Subjects crb with
        | [] => (Crashes "index out of range [0] with length 0", h1)
        | subject :: _ =>
            if bool_decide (rbacv1.Kind subject = "Group")
            then (Returns (Some {| Object := Map res |}, None), h1)
            else
              match converter.ToUnstructured
                      (if UpdateNamespace content
                       then rbacv1.setFirstSubjectNamespace crb (operatorsv1.Namespace cr)
                       else crb) with
              | Fail err => (Returns (None, Some err), h1)
              | Ok newCRB =>
                  (Returns (Some {| Object := length h1 |}, None), h1 ++ [newCRB])
              end
        end
    end.
Proof.
  intros Hres content h1. unfold renderClusterRoleBinding.
  rewrite (bind_run _ _ _ _ _ (addInstallerLabel_run {| Object := Map res |} _ _ h obj Hres)).
  fold content. fold h1.
  assert (h1 !! Map res = Some content) as Hcontent.
  { unfold h1. apply list_lookup_insert_eq. by eapply lookup_lt_Some. }
  rewrite (bind_run _ _ h1 h1 content); [|by apply load_run].
  destruct (converter.FromUnstructured content) as [crb|err]; [|done].
  destruct (rbacv1.Subjects crb) as [|subject rest]; [done|].
  case_bool_decide; [done|].
  destruct (converter.ToUnstructured _) as [newCRB|err]; done.
Qed.

(** C4: a ClusterRoleBinding that decodes and whose first subject has kind
    [Group] is returned as the resource's own map with the label added;
    its [subjects] are the ones it had, whatever the [update-namespace]
    annotation and the owner's namespace are. *)
Theorem renderClusterRoleBinding_group (cr : operatorsv1.MultiClusterHub)
    (res : Resource) (h : heap) (obj : object)
    (crb : rbacv1.ClusterRoleBinding) (subject : rbacv1.Subject)
    (rest : list rbacv1.Subject) :
  h !! Map res = Some obj →
  converter.FromUnstructured
    (AddInstallerLabel installerLabels obj (operatorsv1.Name cr)
       (operatorsv1.Namespace cr)) = Ok crb →
  rbacv1.Subjects crb = subject :: rest →
  rbacv1.Kind subject = "Group" →
  ∃ out,
    renderClusterRoleBinding installerLabels cr res h =
      (Returns (Some {| Object := Map res |}, None), <[Map res := out]> h) ∧
    out !! "subjects" = obj !! "subjects" ∧
    converter.decSubjects (out !! "subjects") = Ok (subject :: rest).
Proof.
  intros Hres Hdec Hsubjects Hgroup.
  rewrite (renderClusterRoleBinding_run _ _ _ _ Hres). cbv zeta.
  rewrite Hdec, Hsubjects. rewrite bool_decide_eq_true_2 by done.
  eexists. split; [done|]. split.
  - by apply AddInstallerLabel_other.
  - revert Hdec. unfold converter.FromUnstructured. intros H.
    repeat (apply bindR_Ok in H as (? & ? & H)).
    injection H as <-. simpl in Hsubjects. by subst.
Qed.

Lemma SetLabels_metadata (obj : object) (labels : gmap string string) :
  metadataIsMap obj →
  ∃ meta, unstructured.SetLabels obj labels !! "metadata" = Some (VMap meta) ∧
          meta !! "labels" = Some (VMap (VString <$> labels)).
Proof.
  unfold metadataIsMap, unstructured.SetLabels, unstructured.setNestedField.
  intros Hmeta. rewrite setNested_deeper.
  destruct (obj !! "metadata") as [[]|] eqn:E; try done; simpl.
  - eexists. rewrite lookup_insert_eq. split; [done|]. by rewrite lookup_insert_eq.
  - eexists. rewrite lookup_insert_eq. split; [done|]. by rewrite lookup_insert_eq.
Qed.

(** Labelling does not touch what [UpdateNamespace] reads. *)
Lemma UpdateNamespace_AddInstallerLabel (obj : object) (name ns : string) :
  UpdateNamespace (AddInstallerLabel installerLabels obj name ns) = UpdateNamespace obj.
Proof.
  unfold AddInstallerLabel, unstructured.SetLabels, unstructured.setNestedField.
  rewrite setNested_deeper. unfold UpdateNamespace.
  destruct (obj !! "metadata") as [[]|] eqn:E; simpl; rewrite ?E; try done.
  - rewrite lookup_insert_eq. simpl. by rewrite lookup_insert_ne.
  - rewrite lookup_insert_eq. simpl. by rewrite lookup_insert_ne.
Qed.



End PatchFacts.

Lemma renderClusterRoleBinding_group_witness :
  ∃ out,
    renderClusterRoleBinding samples.labels samples.hub {| Map := 0 |}
      [samples.binding "Group"] =
      (Returns (Some {| Object := 0 |}, None), <[0 := out]> [samples.binding "Group"]) ∧
    out !! "subjects" = samples.binding "Group" !! "subjects" ∧
    converter.decSubjects (out !! "subjects") = Ok [samples.subject "Group" "default"].
Proof.
  eapply (renderClusterRoleBinding_group samples.labels samples.hub {| Map := 0 |}
            [samples.binding "Group"] (samples.binding "Group") _
            (samples.subject "Group" "default") []).
  - reflexivity.
  - vm_compute. reflexivity.
  - reflexivity.
  - reflexivity.
Defined.



(** ** The pipeline *)

Lemma jsonValue_lookup (m : object) (k : string) (v : value) :
  runtime.jsonValue (VMap m) = true → m !! k = Some v → runtime.jsonValue v = true.
Proof.
  cbn [runtime.jsonValue]. revert m.
  apply (map_fold_weak_ind
           (λ b (m : object), b = true → m !! k = Some v → runtime.jsonValue v = true)).
  - intros _ Hk. by rewrite lookup_empty in Hk.
  - intros i x m b Hi IH Hall Hk. apply andb_true_iff in Hall as [Hx Hb].
    destruct (decide (i = k)) as [->|Hne].
    + rewrite lookup_insert_eq in Hk. by injection Hk as <-.
    + rewrite lookup_insert_ne in Hk by done. by apply IH.
Qed.

(** Content that [DeepCopy] copies holds no [map[string]string], so
    [UpdateNamespace] finds no annotation to read in it. *)
Lemma jsonValue_UpdateNamespace (o : object) :
  runtime.jsonValue (VMap o) = true → UpdateNamespace o = true.
Proof.
  intros Hjson. unfold UpdateNamespace.
  destruct (o !! "metadata") as [[| | | | | |metadata|]|] eqn:Hm; try done.
  cbn [asMap].
  destruct (metadata !! "annotations") as [[| | | | | | |annotations]|] eqn:Ha; try done.
  pose proof (jsonValue_lookup _ _ _ Hjson Hm) as Hmeta.
  by pose proof (jsonValue_lookup _ _ _ Hmeta Ha).
Qed.

Lemma DeepCopy_run (res : Resource) (h : heap) (o : object) :
  h !! Map res = Some o →
  DeepCopy res h =
    if runtime.jsonValue (VMap o)
    then (Returns {| Map := length h |}, h ++ [o])
    else (Crashes "cannot deep copy map[string]string", h).
Proof.
  intros Hres. unfold DeepCopy.
  rewrite (bind_run _ _ h h o); [|by apply load_run].
  unfold runtime.DeepCopyJSON. by destruct (runtime.jsonValue (VMap o)).
Qed.

Lemma DeepCopy_returns (res copy : Resource) (h h' : heap) (o : object) :
  h !! Map res = Some o →
  DeepCopy res h = (Returns copy, h') →
  runtime.jsonValue (VMap o) = true ∧ copy = {| Map := length h |} ∧ h' = h ++ [o].
Proof.
  intros Hres. rewrite (DeepCopy_run _ _ _ Hres).
  destruct (runtime.jsonValue (VMap o)); [|done]. by intros [= <- <-].
Qed.

Lemma GetKind_run (res : Resource) (h : heap) (o : object) :
  h !! Map res = Some o → GetKind res h = (Returns (unstructured.GetKind o), h).
Proof.
  intros Hres. unfold GetKind.
  by rewrite (bind_run _ _ h h o); [|by apply load_run].
Qed.

Lemma GetKind_crash (res : Resource) (h : heap) :
  h !! Map res = None → ∃ why, GetKind res h = (Crashes why, h).
Proof.
  intros Hres. unfold GetKind, bind, load. rewrite Hres. by eexists.
Qed.

(** One turn of the loop on a template that is allocated. *)
Lemma renderLoop_cons (r : Renderer) (template : Resource) (rest : list Resource)
    (uobjs : list Unstructured) (h : heap) (o : object) :
  h !! Map template = Some o →
  renderLoop r (template :: rest) uobjs h =
    match renderFns r !! unstructured.GetKind o with
    | None => renderLoop r rest (uobjs ++ [{| Object := Map template |}]) h
    | Some render =>
        if runtime.jsonValue (VMap o)
        then match render {| Map := length h |} (h ++ [o]) with
             | (Returns (_, Some e), h') => (Returns ([], Some e), h')
             | (Returns (Some u, None), h') => renderLoop r rest (uobjs ++ [u]) h'
             | (Returns (None, None), h') => renderLoop r rest uobjs h'
             | (Crashes why, h') => (Crashes why, h')
             end
        else (Crashes "cannot deep copy map[string]string", h)
    end.
Proof.
  intros Ho. cbn [renderLoop].
  rewrite (bind_run _ _ _ _ _ (GetKind_run _ _ _ Ho)).
  destruct (renderFns r !! unstructured.GetKind o) as [render|]; [|done].
  pose proof (DeepCopy_run template h o Ho) as Hcopy.
  destruct (runtime.jsonValue (VMap o)).
  - rewrite (bind_run _ _ _ _ _ Hcopy). unfold bind.
    destruct (render {| Map := length h |} (h ++ [o])) as [[[[u|] [e|]]|why] h'];
      reflexivity.
  - by rewrite (bind_crash _ _ _ _ _ Hcopy).
Qed.

Lemma renderLoop_dangling (r : Renderer) (template : Resource) (rest : list Resource)
    (uobjs : list Unstructured) (h : heap) :
  h !! Map template = None →
  ∃ why, renderLoop r (template :: rest) uobjs h = (Crashes why, h).
Proof.
  intros Ho. destruct (GetKind_crash _ _ Ho) as [why Hwhy].
  exists why. cbn [renderLoop]. by rewrite (bind_crash _ _ _ _ _ Hwhy).
Qed.

Section Pipeline.

Variable r : Renderer.

Hypothesis registered :
  ∀ kind f, renderFns r !! kind = Some f → wellBehaved f ∧ kind ≠ "".

(** Whatever the pipeline does, the maps allocated before it keep their
    content; an error comes with the empty slice; on success the outputs
    stand for the templates, one for one and in order. *)
Lemma renderLoop_spec (templates : list Resource) :
  ∀ (uobjs : list Unstructured) (h h' : heap)
    (res : outcome (list Unstructured * option error)),
    renderLoop r templates uobjs h = (res, h') →
    (length h ≤ length h')%nat ∧
    (∀ l, (l < length h)%nat → h' !! l = h !! l) ∧
    match res with
    | Returns (out, None) =>
        ∃ outs, out = uobjs ++ outs ∧ Forall2 (aligned r h h') templates outs
    | Returns (out, Some _) => out = []
    | Crashes _ => True
    end.
Proof.
  induction templates as [|template rest IH]; intros uobjs h h' res Hrun.
  - cbn in Hrun. injection Hrun as <- <-.
    split; [done|]. split; [done|].
    exists []. split; [by rewrite app_nil_r|constructor].
  - destruct (h !! Map template) as [o|] eqn:Ho.
    2:{ destruct (renderLoop_dangling r template rest uobjs h Ho) as [why Hwhy].
        rewrite Hwhy in Hrun. by injection Hrun as <- <-. }
    rewrite (renderLoop_cons _ _ _ _ _ _ Ho) in Hrun.
    destruct (renderFns r !! unstructured.GetKind o) as [render|] eqn:Hfn.
    + destruct (registered _ _ Hfn) as [(Hconf & Hkind & Hdrop) Hne].
      destruct (runtime.jsonValue (VMap o)).
      2:{ injection Hrun as <- <-. split; [done|]. by split. }
      destruct (Hconf {| Map := length h |} (h ++ [o])) as [Hlen Hframe].
      assert ((h ++ [o]) !! length h = Some o) as Hcopy.
      { rewrite lookup_app_r by done. by rewrite Nat.sub_diag. }
      assert (∀ l, (l < length h)%nat →
                   (render {| Map := length h |} (h ++ [o])).2 !! l = h !! l) as Hkeep.
      { intros l Hl. rewrite Hframe; [|simpl; lia|rewrite length_app; simpl; lia].
        by rewrite lookup_app_l. }
      rewrite length_app in Hlen. simpl in Hlen.
      destruct (render {| Map := length h |} (h ++ [o]))
        as [[[[u|] [e|]]|why] h2] eqn:Hrender; simpl in Hrun, Hlen, Hkeep.
      * injection Hrun as <- <-. split; [lia|]. by split.
      * destruct (IH _ _ _ _ Hrun) as (Hlen' & Hframe' & Hout).
        split; [lia|]. split.
        { intros l Hl. rewrite Hframe' by lia. by apply Hkeep. }
        destruct res as [[out [e|]]|why]; [done| |done].
        destruct Hout as (outs & -> & Hall).
        exists (u :: outs). split; [by rewrite <- app_assoc|].
        constructor.
        -- intros o0 Ho0. rewrite Ho in Ho0. injection Ho0 as <-.
           destruct (Hkind {| Map := length h |} _ _ _ _ Hcopy Hrender)
             as (o' & Ho' & Hsame).
           exists o'. split.
           { rewrite Hframe'; [done|]. by eapply lookup_lt_Some. }
           split; [by apply Hsame|]. intros Hnone. by rewrite Hfn in Hnone.
        -- eapply Forall2_impl; [exact Hall|].
           intros t u' Hal o0 Ho0. apply Hal.
           rewrite Hkeep; [done|]. by eapply lookup_lt_Some.
      * injection Hrun as <- <-. split; [lia|]. by split.
      * by destruct (Hdrop _ _ _ Hrender).
      * injection Hrun as <- <-. split; [lia|]. by split.
    + destruct (IH _ _ _ _ Hrun) as (Hlen' & Hframe' & Hout).
      split; [done|]. split; [done|].
      destruct res as [[out [e|]]|why]; [done| |done].
      destruct Hout as (outs & -> & Hall).
      exists ({| Object := Map template |} :: outs).
      split; [by rewrite <- app_assoc|].
      constructor; [|done].
      intros o0 Ho0. rewrite Ho in Ho0. injection Ho0 as <-.
      exists o. split; [|done].
      rewrite Hframe'; [done|]. by eapply lookup_lt_Some.
Qed.

End Pipeline.

(** ** The registered patch functions are well behaved *)

Section Registered.

Variable installerLabels : string → string → gmap string string.
Variable cr : operatorsv1.MultiClusterHub.

Lemma load_crash (l : loc) (h : heap) :
  h !! l = None → ∃ why, load l h = (Crashes why, h).
Proof. intros Hl. unfold load. rewrite Hl. by eexists. Qed.

Lemma renderNamespace_dangling (res : Resource) (h : heap) :
  h !! Map res = None → ∃ why, renderNamespace cr res h = (Crashes why, h).
Proof.
  intros Hres. destruct (load_crash _ _ Hres) as [why Hwhy].
  exists why. unfold renderNamespace. by rewrite (bind_crash _ _ _ _ _ Hwhy).
Qed.

Lemma addInstallerLabel_dangling (u : Unstructured) (name ns : string) (h : heap) :
  h !! Object u = None →
  ∃ why, addInstallerLabel installerLabels u name ns h = (Crashes why, h).
Proof.
  intros Hu. destruct (load_crash _ _ Hu) as [why Hwhy].
  exists why. unfold addInstallerLabel. by rewrite (bind_crash _ _ _ _ _ Hwhy).
Qed.

Lemma renderNamespace_wellBehaved : wellBehaved (renderNamespace cr).
Proof.
  split; [|split].
  - intros res h. destruct (h !! Map res) as [o|] eqn:Hres.
    + rewrite (renderNamespace_run _ _ _ _ Hres). simpl.
      destruct (UpdateNamespace o); [|done].
      rewrite length_insert. split; [done|]. intros l Hl _.
      by rewrite list_lookup_insert_ne.
    + destruct (renderNamespace_dangling _ _ Hres) as [why ->]. done.
  - intros res h h' o u Hres. rewrite (renderNamespace_run _ _ _ _ Hres).
    intros [= <- <-]. simpl.
    destruct (UpdateNamespace o).
    + eexists. split.
      * apply list_lookup_insert_eq. by eapply lookup_lt_Some.
      * intros _. apply GetKind_SetNamespace.
    + by exists o.
  - intros res h h'. destruct (h !! Map res) as [o|] eqn:Hres.
    + by rewrite (renderNamespace_run _ _ _ _ Hres).
    + by destruct (renderNamespace_dangling _ _ Hres) as [why ->].
Qed.

(** The two functions that only label have the same body. *)
Lemma labelling_wellBehaved (f : renderFn) :
  (∀ res h o, h !! Map res = Some o →
     f res h = (Returns (Some {| Object := Map res |}, None),
                <[Map res := AddInstallerLabel installerLabels o (operatorsv1.Name cr)
                               (operatorsv1.Namespace cr)]> h)) →
  (∀ res h, h !! Map res = None → ∃ why, f res h = (Crashes why, h)) →
  wellBehaved f.
Proof.
  intros Hrun Hcrash. split; [|split].
  - intros res h. destruct (h !! Map res) as [o|] eqn:Hres.
    + rewrite (Hrun _ _ _ Hres). simpl. rewrite length_insert.
      split; [done|]. intros l Hl _. by rewrite list_lookup_insert_ne.
    + by destruct (Hcrash _ _ Hres) as [why ->].
  - intros res h h' o u Hres. rewrite (Hrun _ _ _ Hres). intros [= <- <-]. simpl.
    eexists. split.
    + apply list_lookup_insert_eq. by eapply lookup_lt_Some.
    + intros _. apply GetKind_AddInstallerLabel.
  - intros res h h'. destruct (h !! Map res) as [o|] eqn:Hres.
    + by rewrite (Hrun _ _ _ Hres).
    + by destruct (Hcrash _ _ Hres) as [why ->].
Qed.

Lemma renderClusterRole_wellBehaved : wellBehaved (renderClusterRole installerLabels cr).
Proof.
  apply labelling_wellBehaved.
  - intros res h o Hres. by apply renderClusterRole_run.
  - intros res h Hres.
    destruct (addInstallerLabel_dangling {| Object := Map res |}
                (operatorsv1.GetName cr) (operatorsv1.GetNamespace cr) h Hres) as [why Hwhy].
    exists why. unfold renderClusterRole. by rewrite (bind_crash _ _ _ _ _ Hwhy).
Qed.

Lemma renderCRD_wellBehaved : wellBehaved (renderCRD installerLabels cr).
Proof.
  apply labelling_wellBehaved.
  - intros res h o Hres. by apply renderCRD_run.
  - intros res h Hres.
    destruct (addInstallerLabel_dangling {| Object := Map res |}
                (operatorsv1.GetName cr) (operatorsv1.GetNamespace cr) h Hres) as [why Hwhy].
    exists why. unfold renderCRD. by rewrite (bind_crash _ _ _ _ _ Hwhy).
Qed.

Lemma setFirstSubjectNamespace_kind (crb : rbacv1.ClusterRoleBinding) (ns : string) :
  rbacv1.TypeKind (rbacv1.setFirstSubjectNamespace crb ns) = rbacv1.TypeKind crb.
Proof. unfold rbacv1.setFirstSubjectNamespace. by destruct (rbacv1.Subjects crb). Qed.

Lemma renderClusterRoleBinding_wellBehaved :
  wellBehaved (renderClusterRoleBinding installerLabels cr).
Proof.
  split; [|split].
  - intros res h. destruct (h !! Map res) as [o|] eqn:Hres.
    + rewrite (renderClusterRoleBinding_run _ _ _ _ _ Hres). cbv zeta.
      set (h1 := <[Map res := _]> h).
      assert (length h1 = length h) as Hlen by apply length_insert.
      assert (∀ l, l ≠ Map res → h1 !! l = h !! l) as Hkeep.
      { intros l Hl. unfold h1. by rewrite list_lookup_insert_ne. }
      destruct (converter.FromUnstructured _) as [crb|err];
        [destruct (rbacv1.Subjects crb) as [|subject rest];
           [|case_bool_decide;
              [|destruct (converter.ToUnstructured _) as [newCRB|err]]]|];
        cbn [snd]; rewrite ?length_app, Hlen; (split; [lia|]);
        intros l Hl Hlt; rewrite ?lookup_app_l by lia; by apply Hkeep.
    + destruct (addInstallerLabel_dangling {| Object := Map res |}
                  (operatorsv1.GetName cr) (operatorsv1.GetNamespace cr) h Hres)
        as [why Hwhy].
      unfold renderClusterRoleBinding. by rewrite (bind_crash _ _ _ _ _ Hwhy).
  - intros res h h' o u Hres.
    rewrite (renderClusterRoleBinding_run _ _ _ _ _ Hres). cbv zeta.
    set (content := AddInstallerLabel _ o _ _).
    set (h1 := <[Map res := content]> h).
    assert (h1 !! Map res = Some content) as Hcontent.
    { apply list_lookup_insert_eq. by eapply lookup_lt_Some. }
    assert (unstructured.GetKind content = unstructured.GetKind o) as Hsame
      by apply GetKind_AddInstallerLabel.
    destruct (converter.FromUnstructured content) as [crb|err] eqn:Hdec; [|done].
    destruct (rbacv1.Subjects crb) as [|subject rest]; [done|].
    case_bool_decide.
    { intros [= <- <-]. by exists content. }
    destruct (converter.ToUnstructured _) as [newCRB|err] eqn:Henc; [|done].
    intros [= <- <-]. exists newCRB. simpl. split.
    { rewrite lookup_app_r by done. by rewrite Nat.sub_diag. }
    intros Hne. rewrite <- Hsame in Hne |- *.
    assert (rbacv1.TypeKind crb = unstructured.GetKind content) as Htyped
      by by apply FromUnstructured_kind.
    rewrite (ToUnstructured_kind _ _ Henc).
    + rewrite <- Htyped. destruct (UpdateNamespace content); [|done].
      apply setFirstSubjectNamespace_kind.
    + destruct (UpdateNamespace content);
        rewrite ?setFirstSubjectNamespace_kind; by rewrite Htyped.
  - intros res h h'. destruct (h !! Map res) as [o|] eqn:Hres.
    + rewrite (renderClusterRoleBinding_run _ _ _ _ _ Hres). cbv zeta.
      destruct (converter.FromUnstructured _) as [crb|err]; [|done].
      destruct (rbacv1.Subjects crb) as [|subject rest]; [done|].
      case_bool_decide; [done|].
      by destruct (converter.ToUnstructured _).
    + destruct (addInstallerLabel_dangling {| Object := Map res |}
                  (operatorsv1.GetName cr) (operatorsv1.GetNamespace cr) h Hres)
        as [why Hwhy].
      unfold renderClusterRoleBinding. by rewrite (bind_crash _ _ _ _ _ Hwhy).
Qed.

(** The kinds of the dispatch table. *)
Lemma NewRenderer_lookup (kind : string) (f : renderFn) :
  renderFns (NewRenderer installerLabels cr) !! kind = Some f →
  (kind, f) ∈
    [ ("Deployment", renderNamespace cr);
      ("Service", renderNamespace cr);
      ("ServiceAccount", renderNamespace cr);
      ("ConfigMap", renderNamespace cr);
      ("ClusterRoleBinding", renderClusterRoleBinding installerLabels cr);
      ("ClusterRole", renderClusterRole installerLabels cr);
      ("Subscription", renderNamespace cr);
      ("StatefulSet", renderNamespace cr);
      ("Channel", renderNamespace cr);
      ("CustomResourceDefinition", renderCRD installerLabels cr) ].
Proof. intros H. by apply elem_of_list_to_map_2 in H. Qed.

Lemma NewRenderer_registered (kind : string) (f : renderFn) :
  renderFns (NewRenderer installerLabels cr) !! kind = Some f →
  wellBehaved f ∧ kind ≠ "".
Proof.
  intros H. apply NewRenderer_lookup in H.
  repeat (apply elem_of_cons in H as [[= -> ->]|H]);
    try (split; [first [ apply renderNamespace_wellBehaved
                       | apply renderClusterRoleBinding_wellBehaved
                       | apply renderClusterRole_wellBehaved
                       | apply renderCRD_wellBehaved ] | done]).
  by apply elem_of_nil in H.
Qed.

End Registered.

(** ** The template cache *)

Section CacheFacts.
Import templates.

Variable Version : string.
Variable Join : list string → string.
Variable kustomize : nat → string → result (list object).

Abbreviation key := (templates.key Version).
Abbreviation GetTemplates := (templates.GetTemplates Version Join kustomize).

Lemma allocAll_run (objs : list object) (h : heap) :
  ∃ rm, allocAll objs h = (Returns rm, h ++ objs) ∧
        Forall2 (λ res o, (h ++ objs) !! Map res = Some o) rm objs.
Proof.
  revert h. induction objs as [|o objs IH]; intros h.
  - exists []. simpl. rewrite app_nil_r. split; [done|constructor].
  - destruct (IH (h ++ [o])) as (rm & Hrun & Hall).
    rewrite <- app_assoc in Hrun, Hall. simpl in Hrun, Hall.
    exists ({| Map := length h |} :: rm). split.
    + cbn [allocAll]. unfold bind at 1. unfold alloc at 1.
      unfold bind at 1. by rewrite Hrun.
    + constructor; [|done]. simpl.
      rewrite lookup_app_r by done. by rewrite Nat.sub_diag.
Qed.

Lemma GetTemplates_hit (w : world) (r : TemplateRenderer) (resMap : ResMap) :
  templateRenderer w = Some r →
  templates r !! key = Some resMap →
  GetTemplates w = (Returns (Resources resMap, None), w).
Proof. intros Hr Hkey. unfold GetTemplates, templates.GetTemplates. by rewrite Hr, Hkey. Qed.

Lemma GetTemplates_miss_fail (w : world) (r : TemplateRenderer) (e : error) :
  templateRenderer w = Some r →
  templates r !! key = None →
  kustomize (length (materialized w)) (base Join r) = Fail e →
  GetTemplates w = (Returns ([], Some e), logMaterialized w (base Join r)).
Proof.
  intros Hr Hkey Hfail. unfold GetTemplates, templates.GetTemplates.
  rewrite Hr, Hkey. unfold bind, render. fold (base Join r). by rewrite Hfail.
Qed.

Lemma GetTemplates_miss_ok (w : world) (r : TemplateRenderer) (objs : list object) :
  templateRenderer w = Some r →
  templates r !! key = None →
  kustomize (length (materialized w)) (base Join r) = Ok objs →
  ∃ resMap,
    GetTemplates w =
      (Returns (Resources resMap, None),
       setTemplateRenderer (setMem (logMaterialized w (base Join r)) (mem w ++ objs))
         {| templatesPath := templatesPath r;
            templates := <[key := resMap]> (templates r) |}) ∧
    Forall2 (λ res o, (mem w ++ objs) !! Map res = Some o) resMap objs.
Proof.
  intros Hr Hkey Hok. destruct (allocAll_run objs (mem w)) as (rm & Hrun & Hall).
  exists rm. split; [|done].
  unfold GetTemplates, templates.GetTemplates.
  rewrite Hr, Hkey. unfold bind at 1. unfold render. fold (base Join r). rewrite Hok.
  unfold onHeap, bind at 1. cbn [mem logMaterialized]. rewrite Hrun.
  unfold ret at 1. cbv beta iota. unfold bind, storeTemplates.
  change (templateRenderer (setMem (logMaterialized w (base Join r)) (mem w ++ objs)))
    with (templateRenderer w).
  by rewrite Hr.
Qed.

(** Every outcome of [GetTemplates]: the heap only grows, and the cache
    keeps the entries it has. *)
Lemma GetTemplates_grows (w : world) :
  let w' := (GetTemplates w).2 in
  (∃ objs, mem w' = mem w ++ objs) ∧
  environ w' = environ w ∧
  loadTemplateRendererOnce w' = loadTemplateRendererOnce w ∧
  ∀ r k resMap, templateRenderer w = Some r → templates r !! k = Some resMap →
                ∃ r', templateRenderer w' = Some r' ∧ templates r' !! k = Some resMap.
Proof.
  destruct (templateRenderer w) as [r|] eqn:Hr.
  2:{ unfold GetTemplates, templates.GetTemplates. rewrite Hr. simpl.
      split; [exists []; by rewrite app_nil_r|]. by repeat split. }
  destruct (templates r !! key) as [rm|] eqn:Hkey.
  { rewrite (GetTemplates_hit _ _ _ Hr Hkey). simpl.
    split; [exists []; by rewrite app_nil_r|]. repeat split; try done.
    intros r0 k rm0 [= <-] Hk. by exists r. }
  destruct (kustomize (length (materialized w)) (base Join r)) as [objs|e] eqn:Hk.
  - destruct (GetTemplates_miss_ok _ _ _ Hr Hkey Hk) as (rm & -> & _). simpl.
    split; [by exists objs|]. repeat split; try done.
    intros r0 k rm0 [= <-] Hk0. eexists. split; [done|]. simpl.
    rewrite lookup_insert_ne; [done|]. intros <-. by rewrite Hkey in Hk0.
  - rewrite (GetTemplates_miss_fail _ _ _ Hr Hkey Hk). simpl.
    split; [exists []; by rewrite app_nil_r|]. repeat split; try done.
    intros r0 k rm0 [= <-] Hk0. by exists r.
Qed.

Lemma GetTemplates_success_cached (w w1 : world) (rs : list Resource) :
  GetTemplates w = (Returns (rs, None), w1) →
  (length (materialized w1) ≤ length (materialized w) + 1)%nat ∧
  ∃ r1, templateRenderer w1 = Some r1 ∧ templates r1 !! key = Some rs.
Proof.
  intros Hrun. destruct (templateRenderer w) as [r|] eqn:Hr.
  2:{ revert Hrun. unfold GetTemplates, templates.GetTemplates. by rewrite Hr. }
  destruct (templates r !! key) as [rm|] eqn:Hkey.
  { rewrite (GetTemplates_hit _ _ _ Hr Hkey) in Hrun. injection Hrun as <- <-.
    split; [lia|]. by exists r. }
  destruct (kustomize (length (materialized w)) (base Join r)) as [objs|e] eqn:Hk.
  - destruct (GetTemplates_miss_ok _ _ _ Hr Hkey Hk) as (rm & Hok & _).
    rewrite Hok in Hrun. injection Hrun as <- <-. simpl.
    rewrite length_app. simpl. split; [lia|].
    eexists. split; [done|]. simpl. by rewrite lookup_insert_eq.
  - by rewrite (GetTemplates_miss_fail _ _ _ Hr Hkey Hk) in Hrun.
Qed.

Lemma sequentially_hits (w : world) (r : TemplateRenderer) (rs : list Resource) (n : nat) :
  templateRenderer w = Some r →
  templates r !! key = Some rs →
  sequentially n GetTemplates w = (Returns (replicate n (rs, None)), w).
Proof.
  intros Hr Hkey. induction n as [|n IH]; [done|].
  cbn [sequentially replicate].
  rewrite (bind_run _ _ _ _ _ (GetTemplates_hit _ _ _ Hr Hkey)).
  by rewrite (bind_run _ _ _ _ _ IH).
Qed.

(** C1: once a call of [GetTemplates] has returned a collection, that call
    and any number of calls after it return this same collection (the same
    pointers); the calls after it leave the world as it is, so they neither
    invoke the engine nor touch the heap, and the whole sequence has
    invoked the engine at most once. *)
Theorem GetTemplates_idempotent (w w1 : world) (rs : list Resource) (n : nat) :
  GetTemplates w = (Returns (rs, None), w1) →
  sequentially (S n) GetTemplates w = (Returns (replicate (S n) (rs, None)), w1) ∧
  GetTemplates w1 = (Returns (rs, None), w1) ∧
  (length (materialized w1) ≤ length (materialized w) + 1)%nat.
Proof.
  intros Hrun.
  destruct (GetTemplates_success_cached _ _ _ Hrun) as (Hcount & r1 & Hr1 & Hkey1).
  split; [|split; [by apply (GetTemplates_hit _ r1)|done]].
  cbn [sequentially replicate].
  rewrite (bind_run _ _ _ _ _ Hrun).
  by rewrite (bind_run _ _ _ _ _ (sequentially_hits _ _ _ n Hr1 Hkey1)).
Qed.

(** C7: when the engine fails on a key that is not cached, [GetTemplates]
    returns that error with no resources, the cache and the heap are what
    they were, and the next call invokes the engine again; if the engine
    then succeeds, that call returns the resources. *)
Theorem GetTemplates_failure_not_cached (w : world) (r : TemplateRenderer) (e : error) :
  templateRenderer w = Some r →
  templates r !! key = None →
  kustomize (length (materialized w)) (base Join r) = Fail e →
  ∃ w',
    GetTemplates w = (Returns ([], Some e), w') ∧
    templateRenderer w' = Some r ∧
    mem w' = mem w ∧
    materialized w' = materialized w ++ [base Join r] ∧
    materialized (GetTemplates w').2 = materialized w ++ [base Join r; base Join r] ∧
    ∀ objs, kustomize (S (length (materialized w))) (base Join r) = Ok objs →
            ∃ resMap w'',
              GetTemplates w' = (Returns (Resources resMap, None), w'') ∧
              Forall2 (λ res o, mem w'' !! Map res = Some o) resMap objs.
Proof.
  intros Hr Hkey Hfail. exists (logMaterialized w (base Join r)).
  split; [by apply GetTemplates_miss_fail|].
  split; [done|]. split; [done|]. split; [done|].
  set (w' := logMaterialized w (base Join r)).
  assert (templateRenderer w' = Some r) as Hr' by done.
  assert (length (materialized w') = S (length (materialized w))) as Hcount.
  { unfold w'. simpl. rewrite length_app. simpl. lia. }
  split.
  - destruct (kustomize (length (materialized w')) (base Join r)) as [objs|e'] eqn:Hk.
    + destruct (GetTemplates_miss_ok _ _ _ Hr' Hkey Hk) as (rm & -> & _).
      simpl. by rewrite <- app_assoc.
    + rewrite (GetTemplates_miss_fail _ _ _ Hr' Hkey Hk). simpl.
      by rewrite <- app_assoc.
  - intros objs Hok. rewrite <- Hcount in Hok.
    destruct (GetTemplates_miss_ok _ _ _ Hr' Hkey Hok) as (rm & Hrun & Hall).
    by eexists rm, _.
Qed.

End CacheFacts.

(** ** Fail-fast, pass-through and the frame of a render *)

Lemma renderLoop_app (r : Renderer) (pre ts : list Resource) :
  ∀ (uobjs acc : list Unstructured) (h h1 : heap),
    renderLoop r pre uobjs h = (Returns (acc, None), h1) →
    renderLoop r (pre ++ ts) uobjs h = renderLoop r ts acc h1.
Proof.
  induction pre as [|template pre IH]; intros uobjs acc h h1.
  - simpl. by intros [= <- <-].
  - destruct (h !! Map template) as [o|] eqn:Ho.
    2:{ destruct (renderLoop_dangling r template pre uobjs h Ho) as [why ->]. done. }
    rewrite <- app_comm_cons. rewrite !(renderLoop_cons _ _ _ _ _ _ Ho).
    destruct (renderFns r !! unstructured.GetKind o) as [render|]; [|by apply IH].
    destruct (runtime.jsonValue (VMap o)); [|done].
    destruct (render {| Map := length h |} (h ++ [o])) as [[[[u|] [e|]]|why] h2];
      try done; by apply IH.
Qed.

Lemma renderLoop_dangling_any (r : Renderer) (template : Resource)
    (rest : list Resource) (uobjs uobjs' : list Unstructured) (h : heap) :
  h !! Map template = None →
  renderLoop r (template :: rest) uobjs h = renderLoop r (template :: rest) uobjs' h ∧
  ∃ why, renderLoop r (template :: rest) uobjs h = (Crashes why, h).
Proof.
  intros Ho. cbn [renderLoop]. unfold bind at 1 3 5. unfold GetKind, bind, load.
  rewrite Ho. split; [done|]. by eexists.
Qed.

(** The outputs built so far are a prefix of the result. *)
Lemma renderLoop_acc (r : Renderer) (templates : list Resource) :
  ∀ (uobjs : list Unstructured) (h : heap),
    renderLoop r templates uobjs h
    = match renderLoop r templates [] h with
      | (Returns (out, None), h') => (Returns (uobjs ++ out, None), h')
      | other => other
      end.
Proof.
  induction templates as [|template rest IH]; intros uobjs h.
  - simpl. unfold ret. by rewrite app_nil_r.
  - destruct (h !! Map template) as [o|] eqn:Ho.
    2:{ destruct (renderLoop_dangling_any r template rest uobjs [] h Ho)
          as [-> [why ->]]. done. }
    rewrite !(renderLoop_cons _ _ _ _ _ _ Ho).
    destruct (renderFns r !! unstructured.GetKind o) as [render|].
    + destruct (runtime.jsonValue (VMap o)); [|done].
      destruct (render {| Map := length h |} (h ++ [o])) as [[[[u|] [e|]]|why] h2];
        try done.
      rewrite (IH (uobjs ++ [u])), (IH ([] ++ [u])).
      destruct (renderLoop r rest [] h2) as [[[out [e|]]|why] h3]; try done.
      by rewrite <- app_assoc.
    + rewrite (IH (uobjs ++ [_])), (IH ([] ++ [_])).
      destruct (renderLoop r rest [] h) as [[[out [e|]]|why] h3]; try done.
      by rewrite <- app_assoc.
Qed.

(** A run on [pre ++ post] that succeeds is a run on [pre] that succeeds
    followed by a run on [post] that succeeds, from the heap the first
    left, and the outputs are those of the first followed by those of the
    second. *)
Lemma renderLoop_fails (r : Renderer) (pre post : list Resource) :
  ∀ (uobjs : list Unstructured) (h h1 : heap)
    (res : outcome (list Unstructured * option error)),
    renderLoop r pre uobjs h = (res, h1) →
    (∀ out, res ≠ Returns (out, None)) →
    renderLoop r (pre ++ post) uobjs h = (res, h1).
Proof.
  induction pre as [|template pre IH]; intros uobjs h h1 res.
  - simpl. intros [= <- <-] Hfail. by destruct (Hfail uobjs).
  - destruct (h !! Map template) as [o|] eqn:Ho.
    2:{ rewrite <- app_comm_cons. cbn [renderLoop]. unfold GetKind. unfold bind, load.
        rewrite Ho. by intros [= <- <-] _. }
    rewrite <- app_comm_cons. rewrite !(renderLoop_cons _ _ _ _ _ _ Ho).
    destruct (renderFns r !! unstructured.GetKind o) as [render|]; [|by apply IH].
    destruct (runtime.jsonValue (VMap o)); [|done].
    destruct (render {| Map := length h |} (h ++ [o])) as [[[[u|] [e|]]|why] h2];
      try done; by apply IH.
Qed.

Lemma renderLoop_split (r : Renderer) (pre post : list Resource) (h h' : heap)
    (out : list Unstructured) :
  renderLoop r (pre ++ post) [] h = (Returns (out, None), h') →
  ∃ out1 h1 out2,
    renderLoop r pre [] h = (Returns (out1, None), h1) ∧
    renderLoop r post [] h1 = (Returns (out2, None), h') ∧
    out = out1 ++ out2.
Proof.
  destruct (renderLoop r pre [] h) as [res h1] eqn:Hpre.
  destruct res as [[out1 [e|]]|why].
  - rewrite (renderLoop_fails _ _ post _ _ _ _ Hpre) by (intros out0; discriminate).
    intros [=].
  - rewrite (renderLoop_app _ _ post _ _ _ _ Hpre), renderLoop_acc.
    destruct (renderLoop r post [] h1) as [[[out2 [e|]]|why] h2] eqn:Hpost; try done.
    intros [= <- <-]. by exists out1, h1, out2.
  - rewrite (renderLoop_fails _ _ post _ _ _ _ Hpre) by (intros out0; discriminate).
    intros [=].
Qed.

Section RenderFacts.
Import templates.

Variable installerLabels : string → string → gmap string string.
Variable Version : string.
Variable Join : list string → string.
Variable kustomize : nat → string → result (list object).

Lemma Render_run (r : Renderer) (w w0 w1 : world) (ts : list Resource) (h2 : heap)
    (res : list Unstructured * option error) :
  GetTemplateRenderer w = (Returns (), w0) →
  templates.GetTemplates Version Join kustomize w0 = (Returns (ts, None), w1) →
  renderTemplates r ts (mem w1) = (Returns res, h2) →
  Render Version Join kustomize r w =
    (Returns (match res.2 with Some e => ([], Some e) | None => (res.1, None) end),
     setMem w1 h2).
Proof.
  intros H0 H1 H2. unfold Render.
  rewrite (bind_run _ _ _ _ _ H0). rewrite (bind_run _ _ _ _ _ H1). cbv beta iota.
  assert (onHeap (renderTemplates r ts) w1 = (Returns res, setMem w1 h2)) as H3.
  { unfold onHeap. by rewrite H2. }
  rewrite (bind_run _ _ _ _ _ H3). by destruct res as [out [e|]].
Qed.

(** C3: when the patch function of one resource, run on the copy that
    [DeepCopy] made of it, returns an error, after the resources before it
    went through, [renderTemplates] returns that error with the empty
    slice, and [Render] returns that error with no resources. *)
Theorem Render_fail_fast (r : Renderer) (w w0 w1 : world)
    (pre post : list Resource) (template copy : Resource)
    (acc : list Unstructured) (h1 hcopy h2 : heap) (o : object)
    (render : renderFn) (u : option Unstructured) (e : error) :
  GetTemplateRenderer w = (Returns (), w0) →
  templates.GetTemplates Version Join kustomize w0 =
    (Returns (pre ++ template :: post, None), w1) →
  renderTemplates r pre (mem w1) = (Returns (acc, None), h1) →
  h1 !! Map template = Some o →
  renderFns r !! unstructured.GetKind o = Some render →
  DeepCopy template h1 = (Returns copy, hcopy) →
  render copy hcopy = (Returns (u, Some e), h2) →
  renderTemplates r (pre ++ template :: post) (mem w1) = (Returns ([], Some e), h2) ∧
  Render Version Join kustomize r w = (Returns ([], Some e), setMem w1 h2).
Proof.
  intros H0 H1 Hpre Ho Hfn Hcopy Hrender.
  destruct (DeepCopy_returns _ _ _ _ _ Ho Hcopy) as (Hjson & -> & ->).
  assert (renderTemplates r (pre ++ template :: post) (mem w1)
          = (Returns ([], Some e), h2)) as Hfail.
  { unfold renderTemplates in *. rewrite (renderLoop_app _ _ _ _ _ _ _ Hpre).
    rewrite (renderLoop_cons _ _ _ _ _ _ Ho), Hfn, Hjson, Hrender. by destruct u. }
  split; [done|]. by rewrite (Render_run _ _ _ _ _ _ _ H0 H1 Hfail).
Qed.

(** C6: when the pipeline succeeds there is one output per template, and
    the outputs come in the order of the templates: at every position the
    templates before it yield the outputs before it, the template at it
    yields the output at it, run from the heap the earlier ones left, and
    the templates after it yield the outputs after it.  Every output holds
    a map of the kind of its template; a template whose kind has no patch
    function is in the output at its position as its own map, and that map
    holds what it held. *)
Theorem renderTemplates_pass_through (multipleClusterHub : operatorsv1.MultiClusterHub)
    (ts : list Resource) (h h' : heap) (out : list Unstructured) :
  renderTemplates (NewRenderer installerLabels multipleClusterHub) ts h
    = (Returns (out, None), h') →
  length out = length ts ∧
  Forall2 (aligned (NewRenderer installerLabels multipleClusterHub) h h') ts out ∧
  (∀ i t,
     ts !! i = Some t →
     ∃ u hi hi',
       out !! i = Some u ∧
       renderTemplates (NewRenderer installerLabels multipleClusterHub) (take i ts) h
         = (Returns (take i out, None), hi) ∧
       renderTemplates (NewRenderer installerLabels multipleClusterHub) [t] hi
         = (Returns ([u], None), hi') ∧
       renderTemplates (NewRenderer installerLabels multipleClusterHub) (drop (S i) ts) hi'
         = (Returns (drop (S i) out, None), h')) ∧
  ∀ i t o,
    ts !! i = Some t →
    h !! Map t = Some o →
    renderFns (NewRenderer installerLabels multipleClusterHub) !! unstructured.GetKind o = None →
    out !! i = Some {| Object := Map t |} ∧ h' !! Map t = Some o.
Proof.
  intros Hrun.
  set (r := NewRenderer installerLabels multipleClusterHub) in *.
  assert (∀ ts0 h0 h0' out0,
            renderLoop r ts0 [] h0 = (Returns (out0, None), h0') →
            length out0 = length ts0) as Hcount.
  { intros ts0 h0 h0' out0 H0.
    destruct (renderLoop_spec _ (NewRenderer_registered installerLabels multipleClusterHub)
                _ _ _ _ _ H0) as (_ & _ & outs & -> & Hall0).
    simpl. by rewrite (Forall2_length _ _ _ Hall0). }
  destruct (renderLoop_spec _ (NewRenderer_registered installerLabels multipleClusterHub)
              _ _ _ _ _ Hrun) as (_ & _ & outs & Hout & Hall).
  simpl in Hout. subst outs.
  split; [by rewrite (Forall2_length _ _ _ Hall)|]. split; [done|]. split.
  - intros i t Ht. unfold renderTemplates in *.
    pose proof Hrun as Hwhole.
    rewrite <- (take_drop_middle ts i t Ht) in Hwhole.
    destruct (renderLoop_split _ _ _ _ _ _ Hwhole) as (out1 & h1 & out2 & Hpre & Hpost & ->).
    change (t :: drop (S i) ts) with ([t] ++ drop (S i) ts) in Hpost.
    destruct (renderLoop_split _ _ _ _ _ _ Hpost) as (outt & h2 & out3 & Hone & Hrest & ->).
    pose proof (Hcount _ _ _ _ Hpre) as Hlen1.
    rewrite length_take_le in Hlen1 by (apply Nat.lt_le_incl; by eapply lookup_lt_Some).
    pose proof (Hcount _ _ _ _ Hone) as Hlent.
    destruct outt as [|u [|u' outt]]; try done.
    exists u, h1, h2. split; [|split; [|split]].
    + rewrite lookup_app_r by lia. by rewrite Hlen1, Nat.sub_diag.
    + by rewrite take_app_length'.
    + done.
    + rewrite (app_assoc out1 [u] out3).
      rewrite drop_app_length'; [done|]. rewrite length_app. simpl. lia.
  - intros i t o Ht Ho Hnone.
    destruct (Forall2_lookup_l _ _ _ _ _ Hall Ht) as (u & Hu & Hal).
    destruct (Hal o Ho) as (o' & Ho' & _ & Hsame).
    destruct (Hsame Hnone) as [-> ->]. by split.
Qed.

(** C8: whatever a run of the pipeline does (return, error or panic),
    every map that was allocated before it holds afterwards what it held
    before, the cached templates among them; the same is true of a whole
    [Render], which also keeps every entry of the cache. *)
Theorem Render_preserves_templates (multipleClusterHub : operatorsv1.MultiClusterHub) :
  (∀ (ts : list Resource) (h : heap) (l : loc) (o : object),
     h !! l = Some o →
     (renderTemplates (NewRenderer installerLabels multipleClusterHub) ts h).2 !! l
       = Some o) ∧
  (∀ (w : world) (l : loc) (o : object),
     mem w !! l = Some o →
     mem (Render Version Join kustomize
            (NewRenderer installerLabels multipleClusterHub) w).2 !! l = Some o) ∧
  (∀ (w : world) (tr : TemplateRenderer) (k : string) (resMap : ResMap),
     loadTemplateRendererOnce w = true →
     templateRenderer w = Some tr →
     templates tr !! k = Some resMap →
     ∃ tr', templateRenderer
              (Render Version Join kustomize
                 (NewRenderer installerLabels multipleClusterHub) w).2 = Some tr' ∧
            templates tr' !! k = Some resMap).
Proof.
  set (r := NewRenderer installerLabels multipleClusterHub).
  assert (∀ ts h l o, h !! l = Some o → (renderTemplates r ts h).2 !! l = Some o)
    as Hpipeline.
  { intros ts h l o Hl.
    destruct (renderTemplates r ts h) as [res h'] eqn:Hrun.
    destruct (renderLoop_spec _ (NewRenderer_registered installerLabels multipleClusterHub)
                _ _ _ _ _ Hrun) as (_ & Hframe & _).
    simpl. rewrite Hframe; [done|]. by eapply lookup_lt_Some. }
  split; [done|].
  assert (∀ w, let w' := (Render Version Join kustomize r w).2 in
               (∀ l o, mem w !! l = Some o → mem w' !! l = Some o) ∧
               (loadTemplateRendererOnce w = true →
                ∀ tr k resMap, templateRenderer w = Some tr →
                               templates tr !! k = Some resMap →
                ∃ tr', templateRenderer w' = Some tr' ∧ templates tr' !! k = Some resMap))
    as Hrender.
  { intros w. unfold Render, bind.
    destruct (GetTemplateRenderer w) as [[[]|why] w0] eqn:H0.
    2:{ revert H0. unfold GetTemplateRenderer.
        destruct (loadTemplateRendererOnce w); [done|].
        destruct (environ w !! TemplatesPathEnvVar); [done|].
        intros [= <- <-]. simpl. split; [done|]. done. }
    assert (mem w0 = mem w ∧ (loadTemplateRendererOnce w = true → w0 = w)) as [Hmem Hsame].
    { revert H0. unfold GetTemplateRenderer.
      destruct (loadTemplateRendererOnce w); [by intros [= <-]|].
      destruct (environ w !! TemplatesPathEnvVar); [|done].
      by intros [= <-]. }
    pose proof (GetTemplates_grows Version Join kustomize w0) as Hgrow.
    destruct (templates.GetTemplates Version Join kustomize w0)
      as [[[ts [e|]]|why] w1] eqn:H1; cbn [snd] in Hgrow;
      destruct Hgrow as ((objs & Hobjs) & _ & _ & Hcache).
    - simpl. split.
      + intros l o Hl. rewrite Hobjs, Hmem. by apply lookup_app_l_Some.
      + intros Honce tr k rm Htr Hk. rewrite (Hsame Honce) in Hcache. by eapply Hcache.
    - unfold onHeap. pose proof (Hpipeline ts (mem w1)) as Hkeep.
      destruct (renderTemplates r ts (mem w1)) as [res h2] eqn:H2. cbn [snd] in Hkeep.
      assert (∀ l o, mem w !! l = Some o → h2 !! l = Some o) as Hall.
      { intros l o Hl. apply Hkeep. rewrite Hobjs, Hmem. by apply lookup_app_l_Some. }
      assert (loadTemplateRendererOnce w = true →
              ∀ tr k rm, templateRenderer w = Some tr → templates tr !! k = Some rm →
              ∃ tr', templateRenderer (setMem w1 h2) = Some tr' ∧
                     templates tr' !! k = Some rm) as Hentries.
      { intros Honce tr k rm Htr Hk. rewrite (Hsame Honce) in Hcache. by eapply Hcache. }
      destruct res as [[out [e|]]|why]; simpl; by split.
    - simpl. split.
      + intros l o Hl. rewrite Hobjs, Hmem. by apply lookup_app_l_Some.
      + intros Honce tr k rm Htr Hk. rewrite (Hsame Honce) in Hcache. by eapply Hcache. }
  split.
  - intros w l o Hl. by apply (Hrender w).
  - intros w tr k rm Honce Htr Hk. by eapply (Hrender w).
Qed.

End RenderFacts.

(** C2: the opt-out does not take effect.  A Deployment in namespace
    [default] carries [update-namespace: "false"] and is rendered for an
    owner in namespace [ns-a].  With the annotations in a
    [map[string]interface{}], the shape of every decoded template,
    [UpdateNamespace] does not read them: it answers true, and
    [renderTemplates] and [Render] return a copy whose namespace is
    [ns-a].  With the annotations in a [map[string]string], the one shape
    [UpdateNamespace] reads, it answers false, but [renderTemplates]
    panics in [DeepCopy] before the patch function runs. *)
Theorem renderNamespace_opt_out_ignored :
  annotation samples.genericOptOut "update-namespace" = Some "false" ∧
  unstructured.GetKind samples.genericOptOut = "Deployment" ∧
  unstructured.GetNamespace samples.genericOptOut = "default" ∧
  UpdateNamespace samples.genericOptOut = true ∧
  (renderTemplates (NewRenderer samples.labels samples.hub) [{| Map := 0 |}]
     [samples.genericOptOut]).1 = Returns ([{| Object := 1 |}], None) ∧
  unstructured.GetNamespace <$>
    (renderTemplates (NewRenderer samples.labels samples.hub) [{| Map := 0 |}]
       [samples.genericOptOut]).2 !! 1 = Some "ns-a" ∧
  (Render samples.version samples.join samples.optingOut
     (NewRenderer samples.labels samples.hub) samples.loaded).1
    = Returns ([{| Object := 1 |}], None) ∧
  unstructured.GetNamespace <$>
    templates.mem
      (Render samples.version samples.join samples.optingOut
         (NewRenderer samples.labels samples.hub) samples.loaded).2 !! 1 = Some "ns-a" ∧
  annotation samples.typedOptOut "update-namespace" = Some "false" ∧
  UpdateNamespace samples.typedOptOut = false ∧
  renderTemplates (NewRenderer samples.labels samples.hub) [{| Map := 0 |}]
    [samples.typedOptOut]
    = (Crashes "cannot deep copy map[string]string", [samples.typedOptOut]).
Proof. repeat split; vm_compute; reflexivity. Qed.

(** ** Concurrent callers *)

Section ConcurrentFacts.
Import templates concurrent.

Variable Version : string.
Variable Join : list string → string.
Variable kustomize : nat → string → result (list object).

Lemma render_logs (dir : string) (w : world) :
  materialized (render kustomize dir w).2 = materialized w ++ [dir].
Proof.
  unfold render. destruct (kustomize _ dir) as [objs|e]; [|done].
  unfold onHeap. cbn [mem logMaterialized].
  destruct (allocAll_run objs (mem w)) as (rm & Hrun & _).
  unfold bind. by rewrite Hrun.
Qed.

(** A step of a caller invokes the engine only by using up the caller's
    one pending materialization. *)
Lemma stepThread_budget (p p' : pc) (w w' : world) :
  stepThread Version Join kustomize p w = (p', w') →
  (materializations w' + pending p' ≤ materializations w + pending p)%nat.
Proof.
  unfold materializations. destruct p as [|dir|resMap|out|]; simpl.
  - destruct (templateRenderer w) as [r|]; [|intros [= <- <-]; simpl; lia].
    destruct (templates r !! key Version); intros [= <- <-]; simpl; lia.
  - pose proof (render_logs dir w) as Hlog.
    destruct (render kustomize dir w) as [[[rm [e|]]|why] w1];
      intros [= <- <-]; simpl in *; rewrite Hlog, length_app; simpl; lia.
  - unfold storeTemplates.
    destruct (templateRenderer w) as [r|]; intros [= <- <-]; simpl; lia.
  - intros [= <- <-]. simpl. lia.
  - intros [= <- <-]. simpl. lia.
Qed.

Lemma sum_pending_insert (ts : list pc) (i : nat) (p p' : pc) :
  ts !! i = Some p →
  (sum_list_with pending (<[i := p']> ts) + pending p
   = sum_list_with pending ts + pending p')%nat.
Proof.
  revert i. induction ts as [|t ts IH]; intros i; [done|].
  destruct i as [|i]; simpl.
  - intros [= ->]. lia.
  - intros Hi. specialize (IH i Hi). lia.
Qed.

Lemma step_budget (c : config) (i : nat) :
  (materializations (step Version Join kustomize c i).1
   + sum_list_with pending (step Version Join kustomize c i).2
   ≤ materializations c.1 + sum_list_with pending c.2)%nat.
Proof.
  destruct c as [w ts]. unfold step. simpl.
  destruct (ts !! i) as [p|] eqn:Hi; [|done].
  destruct (stepThread Version Join kustomize p w) as [p' w'] eqn:Hstep. simpl.
  pose proof (stepThread_budget _ _ _ _ Hstep).
  pose proof (sum_pending_insert ts i p p' Hi). lia.
Qed.

Lemma run_budget (sched : list nat) :
  ∀ c : config,
    (materializations (run Version Join kustomize sched c).1
     + sum_list_with pending (run Version Join kustomize sched c).2
     ≤ materializations c.1 + sum_list_with pending c.2)%nat.
Proof.
  induction sched as [|i sched IH]; intros c; [done|].
  unfold run in *. simpl.
  pose proof (IH (step Version Join kustomize c i)).
  pose proof (step_budget c i). lia.
Qed.

Lemma sum_pending_replicate (n : nat) :
  sum_list_with pending (replicate n AtLookup) = n.
Proof. induction n as [|n IH]; [done|]. simpl. by rewrite IH. Qed.

(** One caller running alone takes the steps of [GetTemplates]. *)
Lemma run_alone (w : world) :
  match templates.GetTemplates Version Join kustomize w with
  | (Returns out, w') =>
      run Version Join kustomize [0; 0; 0] (w, [AtLookup]) = (w', [Finished out])
  | (Crashes _, w') =>
      run Version Join kustomize [0; 0; 0] (w, [AtLookup]) = (w', [Panicked])
  end.
Proof.
  unfold templates.GetTemplates, run, step. simpl.
  destruct (templateRenderer w) as [r|] eqn:Hr; [|done].
  destruct (templates r !! key Version) as [rm|]; simpl; [done|].
  unfold bind.
  destruct (render kustomize (Join [templatesPath r; kind; "base"]) w)
    as [[[rm [e|]]|why] w1]; simpl; try done.
  by destruct (storeTemplates Version rm w1) as [[[]|why] w2].
Qed.

Lemma render_renderer (dir : string) (w : world) :
  templateRenderer (render kustomize dir w).2 = templateRenderer w.
Proof.
  unfold render. destruct (kustomize _ dir) as [objs|e]; [|done].
  unfold onHeap. cbn [mem logMaterialized].
  destruct (allocAll_run objs (mem w)) as (rm & Hrun & _).
  unfold bind. by rewrite Hrun.
Qed.

Lemma step_engineRan (m : nat) (c : config) (i : nat) :
  engineRan Version m c → engineRan Version m (step Version Join kustomize c i).
Proof.
  destruct c as [w ts]. intros (Hle & Hrenderer & Hpast).
  cbn [fst snd] in *. unfold step. cbn [fst snd].
  destruct (ts !! i) as [p|] eqn:Hi; [|done].
  assert (∀ (w' : world) (p' : pc),
            (materializations w ≤ materializations w')%nat →
            (∃ r', templateRenderer w' = Some r' ∧
                   (is_Some (templates r' !! key Version) →
                    (m < materializations w')%nat)) →
            (pending p' = 0 → (m < materializations w')%nat) →
            engineRan Version m (w', <[i := p']> ts)) as Hkeep.
  { intros w' p' Hmono Hkey' Hp'. split; [cbn [fst]; lia|]. split; [done|].
    cbn [fst snd]. intros j q Hj Hq.
    apply list_lookup_insert_Some in Hj as [(-> & -> & _)|[_ Hj]]; [by apply Hp'|].
    pose proof (Hpast j q Hj Hq). lia. }
  destruct Hrenderer as (r & Hr & Hkey).
  destruct p as [|dir|resMap|out|]; cbn [stepThread].
  - rewrite Hr. destruct (templates r !! key Version) as [rm|] eqn:Hhit.
    + apply Hkeep; [done| |].
      * exists r. split; [done|]. intros _. apply Hkey. by eexists.
      * intros _. apply Hkey. by eexists.
    + apply Hkeep; [done| |done].
      exists r. split; [done|]. rewrite Hhit. by intros [? ?].
  - pose proof (render_logs dir w) as Hlog. pose proof (render_renderer dir w) as Hsame.
    assert (materializations (render kustomize dir w).2 = S (materializations w)) as Hone.
    { unfold materializations. rewrite Hlog, length_app. simpl. lia. }
    destruct (render kustomize dir w) as [[[rm [e|]]|why] w1]; cbn [snd] in *;
      (apply Hkeep; [lia| |intros _; lia]);
      exists r; (split; [congruence|intros _; lia]).
  - pose proof (Hpast i (AtStore resMap) Hi eq_refl) as Hran.
    unfold storeTemplates. rewrite Hr.
    apply Hkeep; [done| |done]. eexists. split; [done|]. done.
  - apply Hkeep; [done| |].
    + exists r. by split.
    + intros _. by apply (Hpast i (Finished out)).
  - apply Hkeep; [done| |].
    + exists r. by split.
    + intros _. by apply (Hpast i Panicked).
Qed.

Lemma run_engineRan (m : nat) (sched : list nat) :
  ∀ c : config, engineRan Version m c → engineRan Version m (run Version Join kustomize sched c).
Proof.
  induction sched as [|i sched IH]; intros c Hc; [done|].
  unfold run in *. simpl. by apply IH, step_engineRan.
Qed.

(** C9, amended: whatever the schedule, callers of [GetTemplates] that
    start together invoke the engine at most once each: the number of
    materializations grows by at most the number of callers.  On a cache
    that does not hold the key it grows by at least one as soon as a caller
    has returned.  A caller whose lookup finds the key stored returns the
    stored collection and leaves the world as it is. *)
Theorem concurrent_at_most_once_each (sched : list nat) (n : nat) (w : world) :
  (materializations (run Version Join kustomize sched (w, replicate n AtLookup)).1
   ≤ materializations w + n)%nat ∧
  (∀ r i out,
     templateRenderer w = Some r →
     templates r !! key Version = None →
     (run Version Join kustomize sched (w, replicate n AtLookup)).2 !! i
       = Some (Finished out) →
     (materializations w + 1
      ≤ materializations (run Version Join kustomize sched (w, replicate n AtLookup)).1)%nat) ∧
  ∀ r resMap,
    templateRenderer w = Some r →
    templates r !! key Version = Some resMap →
    stepThread Version Join kustomize AtLookup w = (Finished (Resources resMap, None), w).
Proof.
  split; [|split].
  - pose proof (run_budget sched (w, replicate n AtLookup)) as H.
    simpl in H. rewrite sum_pending_replicate in H. lia.
  - intros r i out Hr Hkey Hi.
    assert (engineRan Version (materializations w) (w, replicate n AtLookup)) as Hstart.
    { split; [done|]. split.
      - exists r. split; [done|]. cbn [fst]. rewrite Hkey. by intros [? ?].
      - cbn [fst snd]. intros j p Hj Hp.
        apply lookup_replicate in Hj as [-> _]. done. }
    destruct (run_engineRan _ sched _ Hstart) as (_ & _ & Hpast).
    pose proof (Hpast i (Finished out) Hi eq_refl). lia.
  - intros r rm Hr Hkey. simpl. by rewrite Hr, Hkey.
Qed.

End ConcurrentFacts.

(** C9, as stated, fails: two callers that both look the key up before
    either has stored it both invoke the engine; they return different
    collections, and the second store replaces the first. *)
Lemma concurrent_double_materialization :
  concurrent.materializations samples.loaded = 0 ∧
  concurrent.materializations
    (concurrent.run samples.version samples.join samples.engine [0; 1; 0; 1; 0; 1]
       (samples.loaded, [concurrent.AtLookup; concurrent.AtLookup])).1 = 2 ∧
  (concurrent.run samples.version samples.join samples.engine [0; 1; 0; 1; 0; 1]
     (samples.loaded, [concurrent.AtLookup; concurrent.AtLookup])).2 =
    [ concurrent.Finished ([{| Map := 0 |}; {| Map := 1 |}; {| Map := 2 |}], None);
      concurrent.Finished ([{| Map := 3 |}; {| Map := 4 |}; {| Map := 5 |}], None) ].
Proof. repeat split; vm_compute; reflexivity. Qed.

(** ** The theorems at sample inputs *)

Lemma GetTemplates_idempotent_witness :
  sequentially 3 (templates.GetTemplates samples.version samples.join samples.engine)
    samples.loaded
    = (Returns (replicate 3 (samples.three, None)), samples.cached) ∧
  templates.GetTemplates samples.version samples.join samples.engine samples.cached
    = (Returns (samples.three, None), samples.cached) ∧
  (length (templates.materialized samples.cached)
   ≤ length (templates.materialized samples.loaded) + 1)%nat.
Proof.
  apply (GetTemplates_idempotent samples.version samples.join samples.engine
           samples.loaded samples.cached samples.three 2).
  vm_compute. reflexivity.
Defined.

Lemma GetTemplates_failure_not_cached_witness :
  ∃ w',
    templates.GetTemplates samples.version samples.join samples.flaky samples.loaded
      = (Returns ([], Some (Err "open kustomization.yaml: no such file or directory")), w') ∧
    templates.templateRenderer w' = templates.templateRenderer samples.loaded ∧
    templates.mem w' = [] ∧
    templates.materialized w' = ["/templates/multiclusterhub/base"] ∧
    templates.materialized
      (templates.GetTemplates samples.version samples.join samples.flaky w').2
      = ["/templates/multiclusterhub/base"; "/templates/multiclusterhub/base"] ∧
    ∀ objs, samples.flaky 1 "/templates/multiclusterhub/base" = Ok objs →
            ∃ resMap w'',
              templates.GetTemplates samples.version samples.join samples.flaky w'
                = (Returns (templates.Resources resMap, None), w'') ∧
              Forall2 (λ res o, templates.mem w'' !! Map res = Some o) resMap objs.
Proof.
  apply (GetTemplates_failure_not_cached samples.version samples.join samples.flaky
           samples.loaded
           {| templates.templatesPath := "/templates"; templates.templates := ∅ |}
           (Err "open kustomization.yaml: no such file or directory")).
  - reflexivity.
  - reflexivity.
  - reflexivity.
Defined.

Lemma Render_fail_fast_witness :
  renderTemplates (NewRenderer samples.labels samples.hub) samples.three
    (templates.mem samples.cachedBroken)
    = (Returns ([], Some (Err "cannot restore slice from string")),
       (renderTemplates (NewRenderer samples.labels samples.hub) samples.three
          (templates.mem samples.cachedBroken)).2) ∧
  Render samples.version samples.join samples.broken
    (NewRenderer samples.labels samples.hub) samples.loaded
    = (Returns ([], Some (Err "cannot restore slice from string")),
       templates.setMem samples.cachedBroken
         (renderTemplates (NewRenderer samples.labels samples.hub) samples.three
            (templates.mem samples.cachedBroken)).2).
Proof.
  apply (Render_fail_fast samples.version samples.join samples.broken
           (NewRenderer samples.labels samples.hub)
           samples.loaded samples.loaded samples.cachedBroken
           [{| Map := 0 |}] [{| Map := 2 |}] {| Map := 1 |} {| Map := 4 |}
           [{| Object := 3 |}]
           (renderTemplates (NewRenderer samples.labels samples.hub) [{| Map := 0 |}]
              (templates.mem samples.cachedBroken)).2
           ((renderTemplates (NewRenderer samples.labels samples.hub) [{| Map := 0 |}]
               (templates.mem samples.cachedBroken)).2 ++ [samples.malformedBinding])
           (renderTemplates (NewRenderer samples.labels samples.hub) samples.three
              (templates.mem samples.cachedBroken)).2
           samples.malformedBinding
           (renderClusterRoleBinding samples.labels samples.hub)
           None (Err "cannot restore slice from string")).
  - reflexivity.
  - vm_compute. reflexivity.
  - vm_compute. reflexivity.
  - vm_compute. reflexivity.
  - reflexivity.
  - vm_compute. reflexivity.
  - vm_compute. reflexivity.
Defined.

Lemma renderTemplates_pass_through_witness :
  length [{| Object := 3 |}; {| Object := 5 |}; {| Object := 2 |}] = length samples.three ∧
  Forall2
    (aligned (NewRenderer samples.labels samples.hub) samples.stored
       (renderTemplates (NewRenderer samples.labels samples.hub) samples.three
          samples.stored).2)
    samples.three [{| Object := 3 |}; {| Object := 5 |}; {| Object := 2 |}] ∧
  (∀ i t,
     samples.three !! i = Some t →
     ∃ u hi hi',
       [{| Object := 3 |}; {| Object := 5 |}; {| Object := 2 |}] !! i = Some u ∧
       renderTemplates (NewRenderer samples.labels samples.hub) (take i samples.three)
         samples.stored
         = (Returns (take i [{| Object := 3 |}; {| Object := 5 |}; {| Object := 2 |}],
                     None), hi) ∧
       renderTemplates (NewRenderer samples.labels samples.hub) [t] hi
         = (Returns ([u], None), hi') ∧
       renderTemplates (NewRenderer samples.labels samples.hub)
         (drop (S i) samples.three) hi'
         = (Returns (drop (S i) [{| Object := 3 |}; {| Object := 5 |}; {| Object := 2 |}],
                     None),
            (renderTemplates (NewRenderer samples.labels samples.hub) samples.three
               samples.stored).2)) ∧
  ∀ i t o,
    samples.three !! i = Some t →
    samples.stored !! Map t = Some o →
    renderFns (NewRenderer samples.labels samples.hub) !! unstructured.GetKind o = None →
    [{| Object := 3 |}; {| Object := 5 |}; {| Object := 2 |}] !! i
      = Some {| Object := Map t |} ∧
    (renderTemplates (NewRenderer samples.labels samples.hub) samples.three
       samples.stored).2 !! Map t = Some o.
Proof.
  apply (renderTemplates_pass_through samples.labels samples.hub samples.three
           samples.stored).
  apply outcome_with_state. vm_compute. reflexivity.
Defined.

Lemma Render_preserves_templates_witness :
  (renderTemplates (NewRenderer samples.labels samples.hub) samples.three
     samples.stored).2 !! 1 = Some (samples.binding "ServiceAccount").
Proof.
  apply (proj1 (Render_preserves_templates samples.labels samples.version samples.join
                  samples.engine samples.hub)).
  reflexivity.
Defined.

Lemma concurrent_at_most_once_each_witness :
  (concurrent.materializations
     (concurrent.run samples.version samples.join samples.engine [0; 1; 0; 1; 0; 1]
        (samples.loaded, replicate 2 concurrent.AtLookup)).1
   ≤ concurrent.materializations samples.loaded + 2)%nat ∧
  (concurrent.materializations samples.loaded + 1
   ≤ concurrent.materializations
       (concurrent.run samples.version samples.join samples.engine [0; 1; 0; 1; 0; 1]
          (samples.loaded, replicate 2 concurrent.AtLookup)).1)%nat ∧
  concurrent.stepThread samples.version samples.join samples.engine
    concurrent.AtLookup samples.cached
    = (concurrent.Finished (samples.three, None), samples.cached).
Proof.
  split; [|split].
  - apply (proj1 (concurrent_at_most_once_each samples.version samples.join
                    samples.engine [0; 1; 0; 1; 0; 1] 2 samples.loaded)).
  - apply (proj1 (proj2 (concurrent_at_most_once_each samples.version samples.join
                           samples.engine [0; 1; 0; 1; 0; 1] 2 samples.loaded))
             {| templates.templatesPath := "/templates"; templates.templates := ∅ |}
             0 (samples.three, None)).
    + reflexivity.
    + reflexivity.
    + vm_compute. reflexivity.
  - eapply (proj2 (proj2 (concurrent_at_most_once_each samples.version samples.join
                            samples.engine [0; 1; 0; 1; 0; 1] 2 samples.cached))).
    + vm_compute. reflexivity.
    + vm_compute. reflexivity.
Defined.

(** * Further properties *)

(** ** [UpdateNamespace] *)

Lemma ParseBool_true (s : string) :
  (strconv.ParseBool s).1 = true ↔ s ∈ trueSpellings.
Proof.
  unfold strconv.ParseBool, trueSpellings.
  repeat case_bool_decide; simpl; split; try done.
Qed.

(** X1: [UpdateNamespace] answers false exactly when [metadata] is a
    generic map, [metadata.annotations] is a string-to-string map and its
    [update-namespace] value is non-empty and not one of the six spellings
    of true; in every other case the namespace is to be overridden. *)
Theorem UpdateNamespace_false_iff (Object : object) :
  UpdateNamespace Object = false ↔
  ∃ annotations s,
    typedAnnotations Object = Some annotations ∧
    annotations !! "update-namespace" = Some s ∧
    s ≠ "" ∧ s ∉ trueSpellings.
Proof.
  destruct (typedAnnotations Object) as [annotations|] eqn:Hann.
  - rewrite (UpdateNamespace_typed _ _ Hann). unfold index.
    destruct (annotations !! "update-namespace") as [s|] eqn:Hs; simpl.
    + case_bool_decide as Hne.
      * split.
        -- intros Hfalse. exists annotations, s. repeat split; try done.
           intros Hin. apply ParseBool_true in Hin. congruence.
        -- intros (a & s' & [= <-] & Hs' & _ & Hnot).
           rewrite Hs in Hs'. injection Hs' as <-.
           destruct (strconv.ParseBool s).1 eqn:Hp; [|done].
           by apply ParseBool_true in Hp.
      * split; [done|]. intros (a & s' & [= <-] & Hs' & Hne' & _).
        rewrite Hs in Hs'. injection Hs' as <-. by destruct Hne.
    + split; [done|]. intros (a & s' & [= <-] & Hs' & _). by rewrite Hs in Hs'.
  - rewrite (UpdateNamespace_untyped _ Hann). split; [done|].
    by intros (a & s & ? & _).
Qed.

(** ** Writes under [metadata] leave the other fields of [metadata] alone *)

Lemma setNestedField_metadata_other (o : object) (v : value) (field j : string) :
  j ≠ field →
  unstructured.NestedFieldNoCopy (unstructured.setNestedField o v ["metadata"; field])
    ["metadata"; j]
  = unstructured.NestedFieldNoCopy o ["metadata"; j].
Proof.
  intros Hne. unfold unstructured.setNestedField, unstructured.NestedFieldNoCopy.
  simpl. destruct (o !! "metadata") as [[]|] eqn:E; simpl; rewrite ?E; try done.
  - rewrite lookup_insert_eq. by rewrite lookup_insert_ne.
  - rewrite lookup_insert_eq. rewrite lookup_insert_ne by done. by rewrite lookup_empty.
Qed.

Lemma SetNamespace_metadata_other (o : object) (ns j : string) :
  j ≠ "namespace" →
  unstructured.NestedFieldNoCopy (unstructured.SetNamespace o ns) ["metadata"; j]
  = unstructured.NestedFieldNoCopy o ["metadata"; j].
Proof.
  intros Hne. unfold unstructured.SetNamespace. case_bool_decide.
  - unfold unstructured.NestedFieldNoCopy. simpl.
    destruct (o !! "metadata") as [[]|] eqn:E; simpl; rewrite ?E; try done.
    rewrite lookup_insert_eq. by rewrite lookup_delete_ne.
  - by apply setNestedField_metadata_other.
Qed.

Lemma typedAnnotations_nested (o : object) :
  typedAnnotations o
  = asStrMap (unstructured.NestedFieldNoCopy o ["metadata"; "annotations"]).
Proof.
  unfold typedAnnotations, unstructured.NestedFieldNoCopy. simpl.
  destruct (o !! "metadata") as [[]|]; simpl; try done.
  by destruct (m !! "annotations").
Qed.

Lemma UpdateNamespace_same_annotations (o o' : object) :
  typedAnnotations o' = typedAnnotations o → UpdateNamespace o' = UpdateNamespace o.
Proof.
  intros Heq. destruct (typedAnnotations o) as [annotations|] eqn:Hann.
  - by rewrite (UpdateNamespace_typed _ _ Heq), (UpdateNamespace_typed _ _ Hann).
  - by rewrite (UpdateNamespace_untyped _ Heq), (UpdateNamespace_untyped _ Hann).
Qed.

Lemma UpdateNamespace_SetNamespace (o : object) (ns : string) :
  UpdateNamespace (unstructured.SetNamespace o ns) = UpdateNamespace o.
Proof.
  apply UpdateNamespace_same_annotations. rewrite !typedAnnotations_nested.
  by rewrite SetNamespace_metadata_other.
Qed.

Lemma SetNamespace_idempotent (o : object) (ns : string) :
  unstructured.SetNamespace (unstructured.SetNamespace o ns) ns
  = unstructured.SetNamespace o ns.
Proof.
  unfold unstructured.SetNamespace, unstructured.setNestedField. case_bool_decide; simpl.
  - destruct (o !! "metadata") as [[]|] eqn:E; simpl; rewrite ?E; try done.
    rewrite lookup_insert_eq. rewrite insert_insert_eq. by rewrite delete_delete_eq.
  - destruct (o !! "metadata") as [[]|] eqn:E; simpl; rewrite ?E; simpl; rewrite ?E;
      try done.
    + rewrite lookup_insert_eq. simpl. by rewrite !insert_insert_eq.
    + rewrite lookup_insert_eq. simpl. by rewrite !insert_insert_eq.
Qed.

(** ** [renderNamespace] *)

(** X2: the namespace transform changes nothing but [metadata.namespace]:
    every other top-level field of the resource and every other field of
    its [metadata] (name, labels, annotations) reads as before. *)
Theorem renderNamespace_frame (cr : operatorsv1.MultiClusterHub) (res : Resource)
    (h : heap) (o : object) :
  h !! Map res = Some o →
  ∃ o',
    renderNamespace cr res h
      = (Returns (Some {| Object := Map res |}, None), <[Map res := o']> h) ∧
    (∀ k, k ≠ "metadata" → o' !! k = o !! k) ∧
    (∀ j, j ≠ "namespace" →
          unstructured.NestedFieldNoCopy o' ["metadata"; j]
          = unstructured.NestedFieldNoCopy o ["metadata"; j]).
Proof.
  intros Hres. rewrite (renderNamespace_run _ _ _ _ Hres).
  destruct (UpdateNamespace o).
  - eexists. split; [done|]. split.
    + intros k Hk. by apply SetNamespace_other.
    + intros j Hj. by apply SetNamespace_metadata_other.
  - exists o. split; [by rewrite list_insert_id|]. by split.
Qed.

(** X3: the namespace transform is idempotent: run again on the same
    resource it returns the same and leaves the heap as the first run left
    it. *)
Theorem renderNamespace_idempotent (cr : operatorsv1.MultiClusterHub) (res : Resource)
    (h : heap) (o : object) :
  h !! Map res = Some o →
  renderNamespace cr res (renderNamespace cr res h).2 = renderNamespace cr res h.
Proof.
  intros Hres. rewrite (renderNamespace_run _ _ _ _ Hres).
  destruct (UpdateNamespace o) eqn:Hupd; simpl.
  - assert (<[Map res := unstructured.SetNamespace o (operatorsv1.Namespace cr)]> h
            !! Map res
            = Some (unstructured.SetNamespace o (operatorsv1.Namespace cr))) as Hres'.
    { apply list_lookup_insert_eq. by eapply lookup_lt_Some. }
    rewrite (renderNamespace_run _ _ _ _ Hres').
    rewrite UpdateNamespace_SetNamespace, Hupd.
    by rewrite SetNamespace_idempotent, list_insert_insert_eq.
  - rewrite (renderNamespace_run _ _ _ _ Hres). by rewrite Hupd.
Qed.

(** ** [renderClusterRoleBinding] *)

Section BindingFacts.

Variable installerLabels : string → string → gmap string string.
Variable cr : operatorsv1.MultiClusterHub.

Lemma setFirstSubjectNamespace_subjects (crb : rbacv1.ClusterRoleBinding)
    (subject : rbacv1.Subject) (rest : list rbacv1.Subject) (ns : string) :
  rbacv1.Subjects crb = subject :: rest →
  rbacv1.Subjects (rbacv1.setFirstSubjectNamespace crb ns)
  = {| rbacv1.Kind := rbacv1.Kind subject; rbacv1.APIGroup := rbacv1.APIGroup subject;
       rbacv1.Name := rbacv1.Name subject; rbacv1.Namespace := ns |} :: rest.
Proof. intros H. unfold rbacv1.setFirstSubjectNamespace. by rewrite H. Qed.

(** X5: only the kind [Group] is exempt.  A binding that decodes, whose
    first subject has any other kind (a [User] as well as a
    [ServiceAccount]) and which does not opt out comes out as a new map
    that reads as the decoded binding with the namespace of the first
    subject set to the owner's namespace; the other subjects are as they
    were. *)
Theorem renderClusterRoleBinding_not_group (res : Resource) (h : heap) (obj : object)
    (crb : rbacv1.ClusterRoleBinding) (subject : rbacv1.Subject)
    (rest : list rbacv1.Subject) :
  h !! Map res = Some obj →
  converter.FromUnstructured
    (AddInstallerLabel installerLabels obj (operatorsv1.Name cr)
       (operatorsv1.Namespace cr)) = Ok crb →
  rbacv1.Subjects crb = subject :: rest →
  rbacv1.Kind subject ≠ "Group" →
  UpdateNamespace obj = true →
  ∃ (h' : heap) (out : object),
    renderClusterRoleBinding installerLabels cr res h
      = (Returns (Some {| Object := length h |}, None), h') ∧
    h' !! length h = Some out ∧
    converter.FromUnstructured out
      = Ok (rbacv1.setFirstSubjectNamespace crb (operatorsv1.Namespace cr)) ∧
    rbacv1.Subjects (rbacv1.setFirstSubjectNamespace crb (operatorsv1.Namespace cr))
      = {| rbacv1.Kind := rbacv1.Kind subject; rbacv1.APIGroup := rbacv1.APIGroup subject;
           rbacv1.Name := rbacv1.Name subject;
           rbacv1.Namespace := operatorsv1.Namespace cr |} :: rest.
Proof.
  intros Hres Hdec Hsubjects Hkind Hupd.
  rewrite (renderClusterRoleBinding_run _ _ _ _ _ Hres). cbv zeta.
  rewrite Hdec, Hsubjects. rewrite bool_decide_eq_false_2 by done.
  rewrite UpdateNamespace_AddInstallerLabel, Hupd.
  destruct (converter.ToUnstructured _) as [out|err] eqn:Henc; [|done].
  rewrite length_insert. eexists _, out. split; [done|]. split.
  { rewrite lookup_app_r by (by rewrite length_insert).
    by rewrite length_insert, Nat.sub_diag. }
  split; [by apply FromUnstructured_ToUnstructured|].
  by apply setFirstSubjectNamespace_subjects.
Qed.

(** X6: the opt-out holds for bindings too.  A binding that decodes, whose
    first subject is not a [Group] and for which [UpdateNamespace] answers
    false comes out as a new map that reads as the decoded binding itself:
    no subject namespace is changed. *)
Theorem renderClusterRoleBinding_opt_out (res : Resource) (h : heap) (obj : object)
    (crb : rbacv1.ClusterRoleBinding) (subject : rbacv1.Subject)
    (rest : list rbacv1.Subject) :
  h !! Map res = Some obj →
  converter.FromUnstructured
    (AddInstallerLabel installerLabels obj (operatorsv1.Name cr)
       (operatorsv1.Namespace cr)) = Ok crb →
  rbacv1.Subjects crb = subject :: rest →
  rbacv1.Kind subject ≠ "Group" →
  UpdateNamespace obj = false →
  ∃ (h' : heap) (out : object),
    renderClusterRoleBinding installerLabels cr res h
      = (Returns (Some {| Object := length h |}, None), h') ∧
    h' !! length h = Some out ∧
    converter.FromUnstructured out = Ok crb.
Proof.
  intros Hres Hdec Hsubjects Hkind Hupd.
  rewrite (renderClusterRoleBinding_run _ _ _ _ _ Hres). cbv zeta.
  rewrite Hdec, Hsubjects. rewrite bool_decide_eq_false_2 by done.
  rewrite UpdateNamespace_AddInstallerLabel, Hupd.
  destruct (converter.ToUnstructured crb) as [out|err] eqn:Henc; [|done].
  rewrite length_insert. eexists _, out. split; [done|]. split.
  { rewrite lookup_app_r by (by rewrite length_insert).
    by rewrite length_insert, Nat.sub_diag. }
  by apply FromUnstructured_ToUnstructured.
Qed.

Lemma NewRenderer_binding :
  renderFns (NewRenderer installerLabels cr) !! "ClusterRoleBinding"
  = Some (renderClusterRoleBinding installerLabels cr).
Proof. reflexivity. Qed.

(** X7: a binding that decodes to no subjects makes
    [renderClusterRoleBinding], run on its copy, panic on [Subjects[0]],
    and with it the whole pipeline: [renderTemplates] does not return,
    whatever came before and whatever would come after. *)
Theorem renderTemplates_no_subjects (pre post : list Resource) (template copy : Resource)
    (acc : list Unstructured) (h h1 hcopy : heap) (o : object)
    (crb : rbacv1.ClusterRoleBinding) :
  renderTemplates (NewRenderer installerLabels cr) pre h = (Returns (acc, None), h1) →
  h1 !! Map template = Some o →
  unstructured.GetKind o = "ClusterRoleBinding" →
  DeepCopy template h1 = (Returns copy, hcopy) →
  converter.FromUnstructured
    (AddInstallerLabel installerLabels o (operatorsv1.Name cr)
       (operatorsv1.Namespace cr)) = Ok crb →
  rbacv1.Subjects crb = [] →
  ∃ why h2,
    renderClusterRoleBinding installerLabels cr copy hcopy = (Crashes why, h2) ∧
    renderTemplates (NewRenderer installerLabels cr) (pre ++ template :: post) h
      = (Crashes why, h2).
Proof.
  intros Hpre Ho Hkind Hdeep Hdec Hnone.
  destruct (DeepCopy_returns _ _ _ _ _ Ho Hdeep) as (Hjson & -> & ->).
  assert ((h1 ++ [o]) !! Map {| Map := length h1 |} = Some o) as Hcopy.
  { simpl. rewrite lookup_app_r by done. by rewrite Nat.sub_diag. }
  pose proof (renderClusterRoleBinding_run installerLabels cr _ _ _ Hcopy) as Hrun.
  cbv zeta in Hrun. rewrite Hdec, Hnone in Hrun.
  eexists _, _. split; [exact Hrun|].
  unfold renderTemplates in *. rewrite (renderLoop_app _ _ _ _ _ _ _ Hpre).
  rewrite (renderLoop_cons _ _ _ _ _ _ Ho), Hkind, NewRenderer_binding, Hjson.
  by rewrite Hrun.
Qed.

End BindingFacts.

(** ** More on the pipeline *)

(** X8: the pipeline composes over concatenation: when it succeeds on the
    first templates, running it on all of them is running it on the rest
    from the heap the first run left, with the outputs of the first run in
    front; an error or a panic on the rest is the outcome of the whole. *)
Theorem renderTemplates_app (r : Renderer) (pre post : list Resource)
    (h h1 h2 : heap) (out1 : list Unstructured)
    (res : outcome (list Unstructured * option error)) :
  renderTemplates r pre h = (Returns (out1, None), h1) →
  renderTemplates r post h1 = (res, h2) →
  renderTemplates r (pre ++ post) h
  = (match res with
     | Returns (out2, None) => Returns (out1 ++ out2, None)
     | other => other
     end, h2).
Proof.
  unfold renderTemplates. intros Hpre Hpost.
  rewrite (renderLoop_app _ _ _ _ _ _ _ Hpre), renderLoop_acc, Hpost.
  by destruct res as [[out2 [e|]]|why].
Qed.

(** X9: a patch function that returns neither a resource nor an error on
    the copy of a resource drops the resource: the pipeline goes on with
    the rest and the outputs built so far, as if the template had not been
    there. *)
Theorem renderTemplates_drop (r : Renderer) (pre post : list Resource)
    (template copy : Resource) (acc : list Unstructured) (h h1 hcopy h2 : heap)
    (o : object) (render : renderFn) :
  renderTemplates r pre h = (Returns (acc, None), h1) →
  h1 !! Map template = Some o →
  renderFns r !! unstructured.GetKind o = Some render →
  DeepCopy template h1 = (Returns copy, hcopy) →
  render copy hcopy = (Returns (None, None), h2) →
  renderTemplates r (pre ++ template :: post) h = renderLoop r post acc h2 ∧
  renderTemplates r (pre ++ [template]) h = (Returns (acc, None), h2).
Proof.
  unfold renderTemplates. intros Hpre Ho Hfn Hdeep Hrender.
  destruct (DeepCopy_returns _ _ _ _ _ Ho Hdeep) as (Hjson & -> & ->).
  rewrite !(renderLoop_app _ _ _ _ _ _ _ Hpre).
  rewrite !(renderLoop_cons _ _ _ _ _ _ Ho), Hfn, Hjson, Hrender. done.
Qed.

(** X10: templates whose kinds all have no patch function are returned as
    they are, each wrapped around its own map, in order; nothing is copied
    and the heap is left as it was. *)
Theorem renderTemplates_unregistered (r : Renderer) (templates : list Resource)
    (h : heap) :
  Forall (λ t, ∃ o, h !! Map t = Some o ∧
                    renderFns r !! unstructured.GetKind o = None) templates →
  renderTemplates r templates h = (Returns (wrap <$> templates, None), h).
Proof.
  unfold renderTemplates. intros Hall.
  rewrite renderLoop_acc.
  induction Hall as [|t ts (o & Ho & Hnone) _ IH]; [done|].
  rewrite (renderLoop_cons _ _ _ _ _ _ Ho), Hnone.
  rewrite renderLoop_acc.
  destruct (renderLoop r ts [] h) as [[[out [e|]]|why] h'];
    simpl in IH |- *; try done.
  by injection IH as -> ->.
Qed.

Section Rendered.

Variable r : Renderer.
Variable Q : string → object → object → Prop.

Hypothesis registered :
  ∀ kind f, renderFns r !! kind = Some f →
            confined f ∧ neverDrops f ∧ ownOrFresh f ∧ establishes (Q kind) f.

Lemma renderLoop_rendered (templates : list Resource) :
  ∀ (uobjs out : list Unstructured) (h h' : heap),
    renderLoop r templates uobjs h = (Returns (out, None), h') →
    (length h ≤ length h')%nat ∧
    (∀ l, (l < length h)%nat → h' !! l = h !! l) ∧
    ∃ outs, out = uobjs ++ outs ∧ Forall2 (rendered r Q h h') templates outs.
Proof.
  induction templates as [|template rest IH]; intros uobjs out h h' Hrun.
  - cbn in Hrun. injection Hrun as <- <-.
    split; [done|]. split; [done|].
    exists []. split; [by rewrite app_nil_r|constructor].
  - destruct (h !! Map template) as [o|] eqn:Ho.
    2:{ destruct (renderLoop_dangling r template rest uobjs h Ho) as [why Hwhy].
        by rewrite Hwhy in Hrun. }
    rewrite (renderLoop_cons _ _ _ _ _ _ Ho) in Hrun.
    destruct (renderFns r !! unstructured.GetKind o) as [render|] eqn:Hfn.
    + destruct (registered _ _ Hfn) as (Hconf & Hdrop & Hown & Hest).
      destruct (runtime.jsonValue (VMap o)) eqn:Hjson; [|done].
      destruct (Hconf {| Map := length h |} (h ++ [o])) as [Hlen Hframe].
      assert ((h ++ [o]) !! Map {| Map := length h |} = Some o) as Hcopy.
      { simpl. rewrite lookup_app_r by done. by rewrite Nat.sub_diag. }
      assert (∀ l, (l < length h)%nat →
                   (render {| Map := length h |} (h ++ [o])).2 !! l = h !! l) as Hkeep.
      { intros l Hl. rewrite Hframe; [|simpl; lia|rewrite length_app; simpl; lia].
        by rewrite lookup_app_l. }
      rewrite length_app in Hlen. simpl in Hlen.
      destruct (render {| Map := length h |} (h ++ [o]))
        as [[[[u|] [e|]]|why] h2] eqn:Hrender; simpl in Hrun, Hlen, Hkeep; try done.
      2:{ by destruct (Hdrop _ _ _ Hrender). }
      destruct (IH _ _ _ _ Hrun) as (Hlen' & Hframe' & outs & -> & Hall).
      split; [lia|]. split.
      { intros l Hl. rewrite Hframe' by lia. by apply Hkeep. }
      exists (u :: outs). split; [by rewrite <- app_assoc|].
      constructor.
      * intros o0 Ho0. rewrite Ho in Ho0. injection Ho0 as <-. rewrite Hfn.
        destruct (Hest _ _ _ _ _ Hcopy Hrender) as (o' & Ho' & HQ).
        split; [done|]. split.
        { destruct (Hown _ _ _ _ Hrender) as [->|Hfresh]; simpl; [done|].
          rewrite length_app in Hfresh. simpl in Hfresh. lia. }
        exists o'. split; [|done].
        rewrite Hframe'; [done|]. by eapply lookup_lt_Some.
      * eapply Forall2_impl; [exact Hall|].
        intros t u' Hrend o0 Ho0.
        assert (h2 !! Map t = Some o0) as Ho2.
        { rewrite Hkeep; [done|]. by eapply lookup_lt_Some. }
        specialize (Hrend o0 Ho2).
        destruct (renderFns r !! unstructured.GetKind o0); [|done].
        destruct Hrend as (Hjson0 & Hfresh & Hrest). split; [done|]. split; [lia|done].
    + destruct (IH _ _ _ _ Hrun) as (Hlen' & Hframe' & outs & -> & Hall).
      split; [done|]. split; [done|].
      exists (wrap template :: outs). split; [by rewrite <- app_assoc|].
      constructor; [|done].
      intros o0 Ho0. rewrite Ho in Ho0. injection Ho0 as <-. rewrite Hfn.
      split; [done|]. rewrite Hframe'; [done|]. by eapply lookup_lt_Some.
Qed.

End Rendered.

(** ** What the registered patch functions make of a template *)

Lemma kinds_disjoint (kind : string) :
  kind ∈ namespaceKinds → kind ∈ labelKinds → False.
Proof.
  unfold namespaceKinds, labelKinds. rewrite !elem_of_cons, !elem_of_nil.
  intros Hns Hlabel.
  repeat (destruct Hns as [->|Hns]);
    try (repeat (destruct Hlabel as [Hlabel|Hlabel]); done); done.
Qed.

Section Patched.

Variable installerLabels : string → string → gmap string string.
Variable cr : operatorsv1.MultiClusterHub.

Lemma renderNamespace_patched (kind : string) :
  kind ∈ namespaceKinds →
  ownOrFresh (renderNamespace cr) ∧
  establishes (patched installerLabels cr kind) (renderNamespace cr).
Proof.
  intros Hkind. split.
  - intros res h h' u. destruct (h !! Map res) as [o|] eqn:Hres.
    + rewrite (renderNamespace_run _ _ _ _ Hres). intros [= <- _]. by left.
    + by destruct (renderNamespace_dangling cr _ _ Hres) as [why ->].
  - intros res h h' o u Hres. rewrite (renderNamespace_run _ _ _ _ Hres).
    intros [= <- <-]. simpl.
    exists (if UpdateNamespace o
            then unstructured.SetNamespace o (operatorsv1.Namespace cr) else o).
    split.
    + destruct (UpdateNamespace o); [|done].
      apply list_lookup_insert_eq. by eapply lookup_lt_Some.
    + split; [done|]. intros Hlabel. by destruct (kinds_disjoint _ Hkind Hlabel).
Qed.

Lemma labelling_patched (f : renderFn) (kind : string) :
  (∀ res h o, h !! Map res = Some o →
     f res h = (Returns (Some {| Object := Map res |}, None),
                <[Map res := AddInstallerLabel installerLabels o (operatorsv1.Name cr)
                               (operatorsv1.Namespace cr)]> h)) →
  (∀ res h, h !! Map res = None → ∃ why, f res h = (Crashes why, h)) →
  kind ∈ labelKinds →
  ownOrFresh f ∧ establishes (patched installerLabels cr kind) f.
Proof.
  intros Hrun Hcrash Hkind. split.
  - intros res h h' u. destruct (h !! Map res) as [o|] eqn:Hres.
    + rewrite (Hrun _ _ _ Hres). intros [= <- _]. by left.
    + by destruct (Hcrash _ _ Hres) as [why ->].
  - intros res h h' o u Hres. rewrite (Hrun _ _ _ Hres). intros [= <- <-]. simpl.
    eexists. split.
    + apply list_lookup_insert_eq. by eapply lookup_lt_Some.
    + split.
      * intros Hns. by destruct (kinds_disjoint _ Hns Hkind).
      * intros _ Hmeta k v Hk. by apply AddInstallerLabel_attached.
Qed.

Lemma renderClusterRoleBinding_patched :
  ownOrFresh (renderClusterRoleBinding installerLabels cr) ∧
  establishes (patched installerLabels cr "ClusterRoleBinding")
    (renderClusterRoleBinding installerLabels cr).
Proof.
  split.
  - intros res h h' u. destruct (h !! Map res) as [o|] eqn:Hres.
    + rewrite (renderClusterRoleBinding_run _ _ _ _ _ Hres). cbv zeta.
      destruct (converter.FromUnstructured _) as [crb|err]; [|done].
      destruct (rbacv1.Subjects crb) as [|subject rest]; [done|].
      case_bool_decide; [intros [= <- _]; by left|].
      destruct (converter.ToUnstructured _) as [newCRB|err]; [|done].
      intros [= <- _]. right. simpl. by rewrite length_insert.
    + destruct (addInstallerLabel_dangling installerLabels {| Object := Map res |}
                  (operatorsv1.GetName cr) (operatorsv1.GetNamespace cr) h Hres)
        as [why Hwhy].
      unfold renderClusterRoleBinding. by rewrite (bind_crash _ _ _ _ _ Hwhy).
  - intros res h h' o u Hres.
    rewrite (renderClusterRoleBinding_run _ _ _ _ _ Hres). cbv zeta.
    set (content := AddInstallerLabel _ o _ _).
    destruct (converter.FromUnstructured content) as [crb|err] eqn:Hdec; [|done].
    destruct (rbacv1.Subjects crb) as [|subject rest] eqn:Hsubjects; [done|].
    case_bool_decide.
    + intros [= <- <-]. exists content. simpl. split.
      * apply list_lookup_insert_eq. by eapply lookup_lt_Some.
      * split.
        -- intros Hns. exfalso. apply (kinds_disjoint _ Hns).
           unfold labelKinds. rewrite !elem_of_cons. by left.
        -- intros _ Hmeta k v Hk. by apply AddInstallerLabel_attached.
    + destruct (converter.ToUnstructured _) as [newCRB|err] eqn:Henc; [|done].
      intros [= <- <-]. exists newCRB. simpl. split.
      { rewrite lookup_app_r by done. by rewrite Nat.sub_diag. }
      split.
      * intros Hns. exfalso. apply (kinds_disjoint _ Hns).
        unfold labelKinds. rewrite !elem_of_cons. by left.
      * intros _ Hmeta k v Hk.
        rewrite (ToUnstructured_labels _ _ Henc).
        assert (rbacv1.Labels
                  (if UpdateNamespace content
                   then rbacv1.setFirstSubjectNamespace crb (operatorsv1.Namespace cr)
                   else crb) = rbacv1.Labels crb) as ->.
        { destruct (UpdateNamespace content); [|done].
          unfold rbacv1.setFirstSubjectNamespace. by rewrite Hsubjects. }
        destruct (SetLabels_metadata o
                    (installerLabels (operatorsv1.Name cr) (operatorsv1.Namespace cr)
                     ∪ unstructured.GetLabels o) Hmeta) as (meta & Hm & Hl).
        rewrite (FromUnstructured_labels _ _ _ _ Hdec Hm Hl).
        by apply lookup_union_Some_l.
Qed.

Lemma NewRenderer_patched (kind : string) (f : renderFn) :
  renderFns (NewRenderer installerLabels cr) !! kind = Some f →
  confined f ∧ neverDrops f ∧ ownOrFresh f ∧ establishes (patched installerLabels cr kind) f.
Proof.
  intros H.
  destruct (NewRenderer_registered _ _ _ _ H) as [(Hconf & _ & Hdrop) _].
  split; [done|]. split; [done|].
  apply NewRenderer_lookup in H.
  assert (∀ res h, h !! Map res = None →
            ∃ why, renderClusterRole installerLabels cr res h = (Crashes why, h)) as Hrole.
  { intros res h Hres.
    destruct (addInstallerLabel_dangling installerLabels {| Object := Map res |}
                (operatorsv1.GetName cr) (operatorsv1.GetNamespace cr) h Hres) as [why Hwhy].
    exists why. unfold renderClusterRole. by rewrite (bind_crash _ _ _ _ _ Hwhy). }
  assert (∀ res h, h !! Map res = None →
            ∃ why, renderCRD installerLabels cr res h = (Crashes why, h)) as Hcrd.
  { intros res h Hres.
    destruct (addInstallerLabel_dangling installerLabels {| Object := Map res |}
                (operatorsv1.GetName cr) (operatorsv1.GetNamespace cr) h Hres) as [why Hwhy].
    exists why. unfold renderCRD. by rewrite (bind_crash _ _ _ _ _ Hwhy). }
  repeat (apply elem_of_cons in H as [[= -> ->]|H]);
    try (apply renderNamespace_patched; unfold namespaceKinds;
         rewrite !elem_of_cons; tauto).
  - apply renderClusterRoleBinding_patched.
  - apply labelling_patched; [intros; by apply renderClusterRole_run|done|].
    unfold labelKinds. rewrite !elem_of_cons. tauto.
  - apply labelling_patched; [intros; by apply renderCRD_run|done|].
    unfold labelKinds. rewrite !elem_of_cons. tauto.
  - by apply elem_of_nil in H.
Qed.

Lemma renderTemplates_rendered (ts : list Resource) (h h' : heap)
    (out : list Unstructured) :
  renderTemplates (NewRenderer installerLabels cr) ts h = (Returns (out, None), h') →
  Forall2 (rendered (NewRenderer installerLabels cr) (patched installerLabels cr) h h')
    ts out.
Proof.
  intros Hrun.
  by destruct (renderLoop_rendered _ _ NewRenderer_patched _ _ _ _ _ Hrun)
    as (_ & _ & outs & -> & Hall).
Qed.

Lemma NewRenderer_namespaceKinds (kind : string) :
  kind ∈ namespaceKinds →
  renderFns (NewRenderer installerLabels cr) !! kind = Some (renderNamespace cr).
Proof.
  unfold namespaceKinds. rewrite !elem_of_cons, elem_of_nil.
  intros H. repeat (destruct H as [->|H]; [reflexivity|]). done.
Qed.

Lemma NewRenderer_labelKinds (kind : string) :
  kind ∈ labelKinds → is_Some (renderFns (NewRenderer installerLabels cr) !! kind).
Proof.
  unfold labelKinds. rewrite !elem_of_cons, elem_of_nil.
  intros H. repeat (destruct H as [->|H]; [by eexists|]). done.
Qed.

(** X12: on a successful run the output of a registered kind is a map
    allocated by the run, so it is none of the maps that existed before,
    no cached template among them; the output of a kind without patch
    function is the template's own map, shared with the cache. *)
Theorem renderTemplates_sharing (ts : list Resource) (h h' : heap)
    (out : list Unstructured) :
  renderTemplates (NewRenderer installerLabels cr) ts h = (Returns (out, None), h') →
  ∀ i t u o,
    ts !! i = Some t → out !! i = Some u → h !! Map t = Some o →
    (is_Some (renderFns (NewRenderer installerLabels cr) !! unstructured.GetKind o) →
     (length h ≤ Object u)%nat ∧ h !! Object u = None ∧ is_Some (h' !! Object u)) ∧
    (renderFns (NewRenderer installerLabels cr) !! unstructured.GetKind o = None →
     Object u = Map t).
Proof.
  intros Hrun i t u o Ht Hu Ho.
  pose proof (renderTemplates_rendered _ _ _ _ Hrun) as Hall.
  destruct (Forall2_lookup_l _ _ _ _ _ Hall Ht) as (u' & Hu' & Hrend).
  rewrite Hu in Hu'. injection Hu' as <-. specialize (Hrend o Ho).
  destruct (renderFns (NewRenderer installerLabels cr) !! unstructured.GetKind o)
    as [f|] eqn:Hfn.
  - destruct Hrend as (_ & Hfresh & o' & Ho' & _). split; [|done].
    intros _. split; [done|]. split; [by apply lookup_ge_None_2|by eexists].
  - destruct Hrend as [-> _]. split; [by intros [? ?]|done].
Qed.

(** X13: on a successful run the output of every ClusterRoleBinding,
    ClusterRole and CustomResourceDefinition whose [metadata] is absent or
    a generic map carries the installer label, whatever its
    [update-namespace] annotation says. *)
Theorem renderTemplates_labels (ts : list Resource) (h h' : heap)
    (out : list Unstructured) :
  renderTemplates (NewRenderer installerLabels cr) ts h = (Returns (out, None), h') →
  ∀ i t u o,
    ts !! i = Some t → out !! i = Some u → h !! Map t = Some o →
    unstructured.GetKind o ∈ labelKinds →
    metadataIsMap o →
    ∃ o', h' !! Object u = Some o' ∧
          ∀ k v, installerLabels (operatorsv1.Name cr) (operatorsv1.Namespace cr) !! k
                   = Some v →
                 unstructured.GetLabels o' !! k = Some v.
Proof.
  intros Hrun i t u o Ht Hu Ho Hkind Hmeta.
  pose proof (renderTemplates_rendered _ _ _ _ Hrun) as Hall.
  destruct (Forall2_lookup_l _ _ _ _ _ Hall Ht) as (u' & Hu' & Hrend).
  rewrite Hu in Hu'. injection Hu' as <-. specialize (Hrend o Ho).
  destruct (NewRenderer_labelKinds _ Hkind) as [f Hf]. rewrite Hf in Hrend.
  destruct Hrend as (_ & _ & o' & Ho' & _ & Hlabels).
  exists o'. split; [done|]. by apply Hlabels.
Qed.

(** X14: through the pipeline the opt-out has no effect on the kinds of
    the namespace transform.  [DeepCopy] panics on a [map[string]string],
    so a template that went through holds none, [UpdateNamespace] is true
    of it, and its output holds its content with the namespace set to the
    owner's; with [metadata] absent or a generic map the namespace read
    back is the owner's. *)
Theorem renderTemplates_namespace (ts : list Resource) (h h' : heap)
    (out : list Unstructured) :
  renderTemplates (NewRenderer installerLabels cr) ts h = (Returns (out, None), h') →
  ∀ i t u o,
    ts !! i = Some t → out !! i = Some u → h !! Map t = Some o →
    unstructured.GetKind o ∈ namespaceKinds →
    UpdateNamespace o = true ∧
    ∃ o', h' !! Object u = Some o' ∧
          o' = unstructured.SetNamespace o (operatorsv1.Namespace cr) ∧
          (metadataIsMap o → unstructured.GetNamespace o' = operatorsv1.Namespace cr).
Proof.
  intros Hrun i t u o Ht Hu Ho Hkind.
  pose proof (renderTemplates_rendered _ _ _ _ Hrun) as Hall.
  destruct (Forall2_lookup_l _ _ _ _ _ Hall Ht) as (u' & Hu' & Hrend).
  rewrite Hu in Hu'. injection Hu' as <-. specialize (Hrend o Ho).
  rewrite (NewRenderer_namespaceKinds _ Hkind) in Hrend.
  destruct Hrend as (Hjson & _ & o' & Ho' & Hns & _). specialize (Hns Hkind).
  pose proof (jsonValue_UpdateNamespace _ Hjson) as Hupd. rewrite Hupd in Hns.
  split; [done|]. exists o'. split; [done|]. split; [done|].
  intros Hmeta. rewrite Hns. by apply GetNamespace_SetNamespace.
Qed.

End Patched.

(** ** [GetTemplateRenderer], the cache and [Render] *)

Section RenderMore.
Import templates.

Variable Version : string.
Variable Join : list string → string.
Variable kustomize : nat → string → result (list object).

Lemma GetTemplateRenderer_loaded (w : world) :
  loadTemplateRendererOnce w = true → GetTemplateRenderer w = (Returns (), w).
Proof. intros Honce. unfold GetTemplateRenderer. by rewrite Honce. Qed.

Lemma GetTemplateRenderer_returns (w w0 : world) :
  GetTemplateRenderer w = (Returns (), w0) →
  loadTemplateRendererOnce w0 = true ∧
  mem w0 = mem w ∧ materialized w0 = materialized w.
Proof.
  unfold GetTemplateRenderer.
  destruct (loadTemplateRendererOnce w) eqn:Honce; [by intros [= <-]|].
  destruct (environ w !! TemplatesPathEnvVar); [|done]. by intros [= <-].
Qed.

Lemma sequentially_loaded (w : world) (n : nat) :
  loadTemplateRendererOnce w = true →
  sequentially n GetTemplateRenderer w = (Returns (replicate n ()), w).
Proof.
  intros Honce. induction n as [|n IH]; [done|].
  cbn [sequentially replicate].
  rewrite (bind_run _ _ _ _ _ (GetTemplateRenderer_loaded _ Honce)).
  by rewrite (bind_run _ _ _ _ _ IH).
Qed.

(** X15: the renderer is loaded once.  The first call of
    [GetTemplateRenderer] in a process that has [TEMPLATES_PATH] set makes
    a renderer with that path and an empty cache; any number of calls
    leave it at that, and a later change of the environment is not seen. *)
Theorem GetTemplateRenderer_once (w : world) (path : string) (n : nat) :
  loadTemplateRendererOnce w = false →
  environ w !! TemplatesPathEnvVar = Some path →
  sequentially (S n) GetTemplateRenderer w
    = (Returns (replicate (S n) ()),
       setOnce (setTemplateRenderer w {| templatesPath := path; templates := ∅ |})) ∧
  ∀ env,
    GetTemplateRenderer
      (setEnviron
         (setOnce (setTemplateRenderer w {| templatesPath := path; templates := ∅ |})) env)
    = (Returns (),
       setEnviron
         (setOnce (setTemplateRenderer w {| templatesPath := path; templates := ∅ |})) env).
Proof.
  intros Honce Henv.
  assert (GetTemplateRenderer w
          = (Returns (),
             setOnce (setTemplateRenderer w {| templatesPath := path; templates := ∅ |})))
    as Hfirst.
  { unfold GetTemplateRenderer. by rewrite Honce, Henv. }
  split.
  - cbn [sequentially replicate]. rewrite (bind_run _ _ _ _ _ Hfirst).
    by rewrite (bind_run _ _ _ _ _
                  (sequentially_loaded
                     (setOnce (setTemplateRenderer w
                                 {| templatesPath := path; templates := ∅ |}))
                     n eq_refl)).
  - intros env. by apply GetTemplateRenderer_loaded.
Qed.

(** X16: in a process that has not loaded the renderer and has no
    [TEMPLATES_PATH], [GetTemplateRenderer] ends the process, and so does
    [Render]: the engine is not invoked and nothing is written. *)
Theorem Render_without_templates_path (r : Renderer) (w : world) :
  loadTemplateRendererOnce w = false →
  environ w !! TemplatesPathEnvVar = None →
  ∃ why,
    GetTemplateRenderer w = (Crashes why, w) ∧
    Render Version Join kustomize r w = (Crashes why, w).
Proof.
  intros Honce Henv. eexists.
  assert (GetTemplateRenderer w
          = (Crashes "TEMPLATES_PATH environment variable is required", w)) as Hfatal.
  { unfold GetTemplateRenderer. by rewrite Honce, Henv. }
  split; [exact Hfatal|].
  unfold Render. by rewrite (bind_crash _ _ _ _ _ Hfatal).
Qed.

(** X17: when the engine fails on a key that is not cached, [Render]
    returns the engine's error with no resources and does not run the
    patch pipeline: the heap and the cache are what they were, and the
    engine was invoked once. *)
Theorem Render_materialization_error (r : Renderer) (w : world)
    (tr : TemplateRenderer) (e : error) :
  loadTemplateRendererOnce w = true →
  templateRenderer w = Some tr →
  templates tr !! key Version = None →
  kustomize (length (materialized w)) (base Join tr) = Fail e →
  Render Version Join kustomize r w
    = (Returns ([], Some e), logMaterialized w (base Join tr)).
Proof.
  intros Honce Htr Hkey Hfail. unfold Render.
  rewrite (bind_run _ _ _ _ _ (GetTemplateRenderer_loaded _ Honce)).
  by rewrite (bind_run _ _ _ _ _
                (GetTemplates_miss_fail Version Join kustomize _ _ _ Htr Hkey Hfail)).
Qed.

Lemma Render_success (r : Renderer) (w w1 : world) (out : list Unstructured) :
  Render Version Join kustomize r w = (Returns (out, None), w1) →
  ∃ w0 wa ts h2,
    GetTemplateRenderer w = (Returns (), w0) ∧
    templates.GetTemplates Version Join kustomize w0 = (Returns (ts, None), wa) ∧
    renderTemplates r ts (mem wa) = (Returns (out, None), h2) ∧
    w1 = setMem wa h2.
Proof.
  unfold Render, bind.
  destruct (GetTemplateRenderer w) as [[[]|why] w0] eqn:H0; [|done].
  destruct (templates.GetTemplates Version Join kustomize w0)
    as [[[ts [e|]]|why] wa] eqn:Ha; try done.
  unfold onHeap.
  destruct (renderTemplates r ts (mem wa)) as [[[out' [e|]]|why] h2] eqn:H2; try done.
  unfold ret. intros [= <- <-]. by eexists w0, wa, ts, h2.
Qed.

(** X18: after a [Render] that succeeded, a further [Render], for the same
    or for another owning entity, finds the templates in the cache and does
    not invoke the engine; the first one invoked it at most once. *)
Theorem Render_again (r r' : Renderer) (w w1 : world) (out : list Unstructured) :
  Render Version Join kustomize r w = (Returns (out, None), w1) →
  (length (materialized w1) ≤ length (materialized w) + 1)%nat ∧
  materialized (Render Version Join kustomize r' w1).2 = materialized w1.
Proof.
  intros Hrun.
  destruct (Render_success _ _ _ _ Hrun) as (w0 & wa & ts & h2 & H0 & Ha & _ & ->).
  destruct (GetTemplateRenderer_returns _ _ H0) as (Honce0 & _ & Hmat0).
  destruct (GetTemplates_success_cached _ _ _ _ _ _ Ha) as (Hcount & r1 & Hr1 & Hkey1).
  destruct (GetTemplates_grows Version Join kustomize w0) as (_ & _ & Honce & _).
  rewrite Ha in Honce. cbn [snd] in Honce.
  split; [cbn [materialized setMem]; rewrite <- Hmat0; exact Hcount|].
  assert (loadTemplateRendererOnce (setMem wa h2) = true) as Hloaded
    by (simpl; congruence).
  assert (templates.GetTemplates Version Join kustomize (setMem wa h2)
          = (Returns (ts, None), setMem wa h2)) as Hhit.
  { by apply (GetTemplates_hit _ _ _ _ r1). }
  unfold Render.
  rewrite (bind_run _ _ _ _ _ (GetTemplateRenderer_loaded _ Hloaded)).
  rewrite (bind_run _ _ _ _ _ Hhit). cbv beta iota.
  unfold bind, onHeap.
  destruct (renderTemplates r' ts (mem (setMem wa h2))) as [[[out' [e|]]|why] h3]; done.
Qed.

Lemma allocAll_seq (objs : list object) (h : heap) :
  ∃ rm, allocAll objs h = (Returns rm, h ++ objs) ∧
        Map <$> rm = seq (length h) (length objs).
Proof.
  revert h. induction objs as [|o objs IH]; intros h.
  - exists []. simpl. rewrite app_nil_r. by split.
  - destruct (IH (h ++ [o])) as (rm & Hrun & Hseq).
    rewrite <- app_assoc in Hrun. simpl in Hrun.
    rewrite length_app in Hseq. simpl in Hseq.
    exists ({| Map := length h |} :: rm). split.
    + cbn [allocAll]. unfold bind at 1. unfold alloc at 1.
      unfold bind at 1. by rewrite Hrun.
    + rewrite fmap_cons. cbn [seq length Map]. f_equal.
      by rewrite Hseq, Nat.add_1_r.
Qed.

(** X19: on a miss with the engine succeeding, [GetTemplates] invokes the
    engine once on the directory [templatesPath/multiclusterhub/base],
    allocates the engine's objects at the end of the heap, returns the
    resources that wrap them, in the engine's order, and stores them under
    the key; the other entries of the cache stay. *)
Theorem GetTemplates_first_success (w : world) (tr : TemplateRenderer)
    (objs : list object) :
  templateRenderer w = Some tr →
  templates tr !! key Version = None →
  kustomize (length (materialized w)) (base Join tr) = Ok objs →
  ∃ resMap w',
    templates.GetTemplates Version Join kustomize w = (Returns (resMap, None), w') ∧
    Map <$> resMap = seq (length (mem w)) (length objs) ∧
    mem w' = mem w ++ objs ∧
    materialized w' = materialized w ++ [base Join tr] ∧
    templateRenderer w'
      = Some {| templatesPath := templatesPath tr;
                templates := <[key Version := resMap]> (templates tr) |}.
Proof.
  intros Htr Hkey Hok. destruct (allocAll_seq objs (mem w)) as (rm & Hrun & Hseq).
  destruct (GetTemplates_miss_ok Version Join kustomize _ _ _ Htr Hkey Hok)
    as (rm' & Hget & _).
  assert (rm' = rm) as ->.
  { destruct (allocAll_run objs (mem w)) as (rm'' & Hrun'' & _).
    revert Hget. unfold templates.GetTemplates. rewrite Htr, Hkey.
    unfold bind at 1. unfold render. fold (base Join tr). rewrite Hok.
    unfold onHeap, bind at 1. cbn [mem logMaterialized]. rewrite Hrun.
    unfold ret at 1. cbv beta iota. unfold bind, storeTemplates.
    change (templateRenderer (setMem (logMaterialized w (base Join tr)) (mem w ++ objs)))
      with (templateRenderer w).
    rewrite Htr. unfold ret, Resources. by intros [= ->]. }
  by eexists rm, _.
Qed.

Lemma sequentially_final {S A : Type} (c : ST S A) (n : nat) (s : S) :
  (sequentially (Datatypes.S n) c s).2
  = match (c s).1 with
    | Returns _ => (sequentially n c (c s).2).2
    | Crashes _ => (c s).2
    end.
Proof.
  cbn [sequentially]. unfold bind. destruct (c s) as [[a|why] s1]; [|done].
  cbn [fst snd]. by destruct (sequentially n c s1) as [[others|why] s2].
Qed.

(** X20: the cache does not evict: over any number of calls of
    [GetTemplates], whatever their outcomes, every entry of the cache
    stays as it is and every allocated map keeps its content. *)
Theorem GetTemplates_never_evicts (n : nat) (w : world) :
  (∀ l o, mem w !! l = Some o →
          mem (sequentially n (templates.GetTemplates Version Join kustomize) w).2 !! l
          = Some o) ∧
  (∀ tr k resMap,
     templateRenderer w = Some tr → templates tr !! k = Some resMap →
     ∃ tr', templateRenderer
              (sequentially n (templates.GetTemplates Version Join kustomize) w).2
            = Some tr' ∧
            templates tr' !! k = Some resMap).
Proof.
  revert w. induction n as [|n IH]; intros w.
  - simpl. split; [done|]. intros tr k rm Htr Hk. by exists tr.
  - rewrite sequentially_final.
    destruct (GetTemplates_grows Version Join kustomize w)
      as ((objs & Hobjs) & _ & _ & Hcache).
    destruct (IH (templates.GetTemplates Version Join kustomize w).2) as [Hmem Hentries].
    assert (∀ l o, mem w !! l = Some o →
                   mem (templates.GetTemplates Version Join kustomize w).2 !! l = Some o)
      as Hkept.
    { intros l o Hl. rewrite Hobjs. by apply lookup_app_l_Some. }
    destruct (templates.GetTemplates Version Join kustomize w).1 as [a|why].
    + split.
      * intros l o Hl. by apply Hmem, Hkept.
      * intros tr k rm Htr Hk. destruct (Hcache _ _ _ Htr Hk) as (tr1 & Htr1 & Hk1).
        by apply (Hentries tr1).
    + split; [exact Hkept|]. intros tr k rm Htr Hk. by apply (Hcache tr).
Qed.

End RenderMore.

(** ** Callers in flight on a warm cache *)

Section WarmCache.
Import templates concurrent.

Variable Version : string.
Variable Join : list string → string.
Variable kustomize : nat → string → result (list object).

Lemma step_warm (w : world) (tr : TemplateRenderer) (resMap : ResMap)
    (ps : list pc) (i : nat) :
  templateRenderer w = Some tr →
  templates tr !! key Version = Some resMap →
  Forall (λ p, p = AtLookup ∨ p = Finished (Resources resMap, None)) ps →
  ∃ ps', step Version Join kustomize (w, ps) i = (w, ps') ∧
         Forall (λ p, p = AtLookup ∨ p = Finished (Resources resMap, None)) ps'.
Proof.
  intros Htr Hkey Hps. unfold step. cbn [fst snd].
  destruct (ps !! i) as [p|] eqn:Hp; [|by exists ps].
  assert (p = AtLookup ∨ p = Finished (Resources resMap, None)) as [-> | ->]
    by (by eapply Forall_lookup_1 in Hps).
  - cbn [stepThread]. rewrite Htr, Hkey. eexists. split; [done|].
    apply Forall_insert; [done|by right].
  - cbn [stepThread]. eexists. split; [done|].
    apply Forall_insert; [done|by right].
Qed.

(** X21: on a warm cache callers only read.  When the key is stored, any
    number of callers of [GetTemplates] under any schedule leave the world
    as it is (no invocation of the engine, no write), and each of them
    has either not run yet or has returned the stored collection with no
    error. *)
Theorem concurrent_warm_cache (sched : list nat) (n : nat) (w : world)
    (tr : TemplateRenderer) (resMap : ResMap) :
  templateRenderer w = Some tr →
  templates tr !! key Version = Some resMap →
  (run Version Join kustomize sched (w, replicate n AtLookup)).1 = w ∧
  Forall (λ p, p = AtLookup ∨ p = Finished (Resources resMap, None))
    (run Version Join kustomize sched (w, replicate n AtLookup)).2.
Proof.
  intros Htr Hkey.
  assert (Forall (λ p, p = AtLookup ∨ p = Finished (Resources resMap, None))
            (replicate n AtLookup)) as Hps.
  { apply Forall_replicate. by left. }
  generalize dependent (replicate n AtLookup). unfold run.
  induction sched as [|i sched IH]; intros ps Hps; [done|].
  cbn [foldl].
  destruct (step_warm w tr resMap ps i Htr Hkey Hps) as (ps' & -> & Hps').
  by apply IH.
Qed.

End WarmCache.

(** ** The further properties at sample inputs *)

Lemma UpdateNamespace_false_iff_witness : UpdateNamespace samples.typedYes = false.
Proof.
  apply (proj2 (UpdateNamespace_false_iff samples.typedYes)).
  exists (<["update-namespace" := "yes"]> ∅), "yes".
  split; [reflexivity|]. split; [reflexivity|]. split; [discriminate|].
  intros Hin. vm_compute in Hin.
  repeat (apply elem_of_cons in Hin as [Hin|Hin]; [discriminate|]).
  by apply elem_of_nil in Hin.
Defined.

Lemma renderNamespace_frame_witness :
  ∃ o',
    renderNamespace samples.hub {| Map := 0 |} [samples.plainDeployment]
      = (Returns (Some {| Object := 0 |}, None), <[0 := o']> [samples.plainDeployment]) ∧
    (∀ k, k ≠ "metadata" → o' !! k = samples.plainDeployment !! k) ∧
    (∀ j, j ≠ "namespace" →
          unstructured.NestedFieldNoCopy o' ["metadata"; j]
          = unstructured.NestedFieldNoCopy samples.plainDeployment ["metadata"; j]).
Proof.
  apply (renderNamespace_frame samples.hub {| Map := 0 |} [samples.plainDeployment]
           samples.plainDeployment).
  reflexivity.
Defined.

Lemma renderNamespace_idempotent_witness :
  renderNamespace samples.hub {| Map := 0 |}
    (renderNamespace samples.hub {| Map := 0 |} [samples.plainDeployment]).2
  = renderNamespace samples.hub {| Map := 0 |} [samples.plainDeployment].
Proof.
  apply (renderNamespace_idempotent samples.hub {| Map := 0 |} [samples.plainDeployment]
           samples.plainDeployment).
  reflexivity.
Defined.

Lemma renderClusterRoleBinding_not_group_witness :
  ∃ (h' : heap) (out : object),
    renderClusterRoleBinding samples.labels samples.hub {| Map := 0 |}
      [samples.binding "User"]
      = (Returns (Some {| Object := 1 |}, None), h') ∧
    h' !! 1 = Some out ∧
    converter.FromUnstructured out
      = Ok (rbacv1.setFirstSubjectNamespace (samples.typedBinding "User" ∅) "ns-a") ∧
    rbacv1.Subjects (rbacv1.setFirstSubjectNamespace (samples.typedBinding "User" ∅) "ns-a")
      = [samples.subject "User" "ns-a"].
Proof.
  apply (renderClusterRoleBinding_not_group samples.labels samples.hub
           {| Map := 0 |} [samples.binding "User"] (samples.binding "User")
           (samples.typedBinding "User" ∅) (samples.subject "User" "default") []).
  - reflexivity.
  - vm_compute. reflexivity.
  - reflexivity.
  - discriminate.
  - vm_compute. reflexivity.
Defined.

Lemma renderClusterRoleBinding_opt_out_witness :
  ∃ (h' : heap) (out : object),
    renderClusterRoleBinding samples.labels samples.hub {| Map := 0 |}
      [samples.annotatedBinding "ServiceAccount" (<["update-namespace" := "false"]> ∅)]
      = (Returns (Some {| Object := 1 |}, None), h') ∧
    h' !! 1 = Some out ∧
    converter.FromUnstructured out
      = Ok (samples.typedBinding "ServiceAccount" (<["update-namespace" := "false"]> ∅)).
Proof.
  apply (renderClusterRoleBinding_opt_out samples.labels samples.hub
           {| Map := 0 |}
           [samples.annotatedBinding "ServiceAccount" (<["update-namespace" := "false"]> ∅)]
           (samples.annotatedBinding "ServiceAccount" (<["update-namespace" := "false"]> ∅))
           (samples.typedBinding "ServiceAccount" (<["update-namespace" := "false"]> ∅))
           (samples.subject "ServiceAccount" "default") []).
  - reflexivity.
  - vm_compute. reflexivity.
  - reflexivity.
  - discriminate.
  - vm_compute. reflexivity.
Defined.

Lemma renderTemplates_no_subjects_witness :
  ∃ why h2,
    renderClusterRoleBinding samples.labels samples.hub {| Map := 4 |}
      ((renderTemplates (NewRenderer samples.labels samples.hub) [{| Map := 0 |}]
          samples.storedEmpty).2 ++ [samples.emptyBinding])
      = (Crashes why, h2) ∧
    renderTemplates (NewRenderer samples.labels samples.hub) samples.three
      samples.storedEmpty
      = (Crashes why, h2).
Proof.
  apply (renderTemplates_no_subjects samples.labels samples.hub
           [{| Map := 0 |}] [{| Map := 2 |}] {| Map := 1 |} {| Map := 4 |}
           [{| Object := 3 |}]
           samples.storedEmpty
           (renderTemplates (NewRenderer samples.labels samples.hub) [{| Map := 0 |}]
              samples.storedEmpty).2
           ((renderTemplates (NewRenderer samples.labels samples.hub) [{| Map := 0 |}]
               samples.storedEmpty).2 ++ [samples.emptyBinding])
           samples.emptyBinding
           {| rbacv1.TypeKind := "ClusterRoleBinding"; rbacv1.APIVersion := "";
              rbacv1.MetaName := "empty"; rbacv1.MetaNamespace := "";
              rbacv1.Labels := samples.labels "multiclusterhub" "ns-a";
              rbacv1.Annotations := ∅; rbacv1.Subjects := [];
              rbacv1.Ref := {| rbacv1.RoleAPIGroup := ""; rbacv1.RoleKind := "";
                               rbacv1.RoleName := "" |} |}).
  - apply outcome_with_state. vm_compute. reflexivity.
  - vm_compute. reflexivity.
  - vm_compute. reflexivity.
  - vm_compute. reflexivity.
  - vm_compute. reflexivity.
  - reflexivity.
Defined.

Lemma renderTemplates_app_witness :
  renderTemplates (NewRenderer samples.labels samples.hub) samples.three samples.stored
  = (Returns ([{| Object := 3 |}; {| Object := 5 |}; {| Object := 2 |}], None),
     (renderTemplates (NewRenderer samples.labels samples.hub)
        [{| Map := 1 |}; {| Map := 2 |}]
        (renderTemplates (NewRenderer samples.labels samples.hub) [{| Map := 0 |}]
           samples.stored).2).2).
Proof.
  apply (renderTemplates_app (NewRenderer samples.labels samples.hub)
           [{| Map := 0 |}] [{| Map := 1 |}; {| Map := 2 |}]
           samples.stored
           (renderTemplates (NewRenderer samples.labels samples.hub) [{| Map := 0 |}]
              samples.stored).2
           (renderTemplates (NewRenderer samples.labels samples.hub)
              [{| Map := 1 |}; {| Map := 2 |}]
              (renderTemplates (NewRenderer samples.labels samples.hub) [{| Map := 0 |}]
                 samples.stored).2).2
           [{| Object := 3 |}]
           (Returns ([{| Object := 5 |}; {| Object := 2 |}], None))).
  - apply outcome_with_state. vm_compute. reflexivity.
  - apply outcome_with_state. vm_compute. reflexivity.
Defined.

Lemma renderTemplates_drop_witness :
  renderTemplates samples.dropping [{| Map := 0 |}; {| Map := 2 |}; {| Map := 1 |}]
    samples.stored
  = renderLoop samples.dropping [{| Map := 1 |}] [{| Object := 0 |}]
      (samples.stored ++ [samples.secret]) ∧
  renderTemplates samples.dropping [{| Map := 0 |}; {| Map := 2 |}] samples.stored
  = (Returns ([{| Object := 0 |}], None), samples.stored ++ [samples.secret]).
Proof.
  apply (renderTemplates_drop samples.dropping [{| Map := 0 |}] [{| Map := 1 |}]
           {| Map := 2 |} {| Map := 3 |} [{| Object := 0 |}] samples.stored samples.stored
           (samples.stored ++ [samples.secret]) (samples.stored ++ [samples.secret])
           samples.secret samples.dropSecret).
  - reflexivity.
  - reflexivity.
  - reflexivity.
  - reflexivity.
  - reflexivity.
Defined.

Lemma renderTemplates_unregistered_witness :
  renderTemplates (NewRenderer samples.labels samples.hub)
    [{| Map := 2 |}; {| Map := 2 |}] samples.stored
  = (Returns ([{| Object := 2 |}; {| Object := 2 |}], None), samples.stored).
Proof.
  apply (renderTemplates_unregistered (NewRenderer samples.labels samples.hub)
           [{| Map := 2 |}; {| Map := 2 |}] samples.stored).
  repeat constructor; exists samples.secret; split; reflexivity.
Defined.

Lemma renderTemplates_sharing_witness :
  ((length samples.stored ≤ 3)%nat ∧ samples.stored !! 3 = None ∧
   is_Some ((renderTemplates (NewRenderer samples.labels samples.hub) samples.three
               samples.stored).2 !! 3)) ∧
  Object {| Object := 2 |} = Map {| Map := 2 |}.
Proof.
  pose proof (renderTemplates_sharing samples.labels samples.hub samples.three
                samples.stored
                (renderTemplates (NewRenderer samples.labels samples.hub) samples.three
                   samples.stored).2
                [{| Object := 3 |}; {| Object := 5 |}; {| Object := 2 |}]
                ltac:(apply outcome_with_state; vm_compute; reflexivity)) as Hshare.
  split.
  - apply (proj1 (Hshare 0 {| Map := 0 |} {| Object := 3 |} samples.plainDeployment
                    eq_refl eq_refl eq_refl)).
    eexists. reflexivity.
  - apply (proj2 (Hshare 2 {| Map := 2 |} {| Object := 2 |} samples.secret
                    eq_refl eq_refl eq_refl)).
    reflexivity.
Defined.

Lemma renderTemplates_labels_witness :
  ∃ o',
    (renderTemplates (NewRenderer samples.labels samples.hub) samples.three
       samples.stored).2 !! 5 = Some o' ∧
    ∀ k v, samples.labels "multiclusterhub" "ns-a" !! k = Some v →
           unstructured.GetLabels o' !! k = Some v.
Proof.
  apply (renderTemplates_labels samples.labels samples.hub samples.three samples.stored
           (renderTemplates (NewRenderer samples.labels samples.hub) samples.three
              samples.stored).2
           [{| Object := 3 |}; {| Object := 5 |}; {| Object := 2 |}]
           ltac:(apply outcome_with_state; vm_compute; reflexivity)
           1 {| Map := 1 |} {| Object := 5 |} (samples.binding "ServiceAccount")).
  - reflexivity.
  - reflexivity.
  - reflexivity.
  - vm_compute. constructor.
  - vm_compute. exact I.
Defined.

Lemma renderTemplates_namespace_witness :
  UpdateNamespace samples.genericOptOut = true ∧
  ∃ o',
    (renderTemplates (NewRenderer samples.labels samples.hub)
       [{| Map := 1 |}; {| Map := 0 |}]
       [samples.genericOptOut; samples.secret]).2 !! 2 = Some o' ∧
    o' = unstructured.SetNamespace samples.genericOptOut "ns-a" ∧
    (metadataIsMap samples.genericOptOut → unstructured.GetNamespace o' = "ns-a").
Proof.
  apply (renderTemplates_namespace samples.labels samples.hub
           [{| Map := 1 |}; {| Map := 0 |}]
           [samples.genericOptOut; samples.secret]
           (renderTemplates (NewRenderer samples.labels samples.hub)
              [{| Map := 1 |}; {| Map := 0 |}]
              [samples.genericOptOut; samples.secret]).2
           [{| Object := 1 |}; {| Object := 2 |}]
           ltac:(apply outcome_with_state; vm_compute; reflexivity)
           1 {| Map := 0 |} {| Object := 2 |} samples.genericOptOut).
  - reflexivity.
  - reflexivity.
  - reflexivity.
  - vm_compute. constructor.
Defined.

Lemma GetTemplateRenderer_once_witness :
  sequentially 3 templates.GetTemplateRenderer
    (samples.fresh (<["TEMPLATES_PATH" := "/templates"]> ∅))
  = (Returns [(); (); ()], samples.loaded) ∧
  ∀ env,
    templates.GetTemplateRenderer (setEnviron samples.loaded env)
    = (Returns (), setEnviron samples.loaded env).
Proof.
  exact (GetTemplateRenderer_once
           (samples.fresh (<["TEMPLATES_PATH" := "/templates"]> ∅)) "/templates" 2
           eq_refl eq_refl).
Defined.

Lemma Render_without_templates_path_witness :
  ∃ why,
    templates.GetTemplateRenderer (samples.fresh ∅) = (Crashes why, samples.fresh ∅) ∧
    Render samples.version samples.join samples.engine
      (NewRenderer samples.labels samples.hub) (samples.fresh ∅)
    = (Crashes why, samples.fresh ∅).
Proof.
  apply (Render_without_templates_path samples.version samples.join samples.engine
           (NewRenderer samples.labels samples.hub) (samples.fresh ∅)).
  - reflexivity.
  - reflexivity.
Defined.

Lemma Render_materialization_error_witness :
  Render samples.version samples.join samples.flaky
    (NewRenderer samples.labels samples.hub) samples.loaded
  = (Returns ([], Some (Err "open kustomization.yaml: no such file or directory")),
     templates.logMaterialized samples.loaded "/templates/multiclusterhub/base").
Proof.
  apply (Render_materialization_error samples.version samples.join samples.flaky
           (NewRenderer samples.labels samples.hub) samples.loaded
           {| templates.templatesPath := "/templates"; templates.templates := ∅ |}
           (Err "open kustomization.yaml: no such file or directory")).
  - reflexivity.
  - reflexivity.
  - reflexivity.
  - reflexivity.
Defined.

Lemma Render_again_witness :
  (length (templates.materialized
             (Render samples.version samples.join samples.engine
                (NewRenderer samples.labels samples.hub) samples.loaded).2)
   ≤ length (templates.materialized samples.loaded) + 1)%nat ∧
  templates.materialized
    (Render samples.version samples.join samples.engine
       (NewRenderer samples.labels samples.otherHub)
       (Render samples.version samples.join samples.engine
          (NewRenderer samples.labels samples.hub) samples.loaded).2).2
  = templates.materialized
      (Render samples.version samples.join samples.engine
         (NewRenderer samples.labels samples.hub) samples.loaded).2.
Proof.
  apply (Render_again samples.version samples.join samples.engine
           (NewRenderer samples.labels samples.hub)
           (NewRenderer samples.labels samples.otherHub)
           samples.loaded
           (Render samples.version samples.join samples.engine
              (NewRenderer samples.labels samples.hub) samples.loaded).2
           [{| Object := 3 |}; {| Object := 5 |}; {| Object := 2 |}]).
  apply outcome_with_state. vm_compute. reflexivity.
Defined.

Lemma GetTemplates_first_success_witness :
  ∃ resMap w',
    templates.GetTemplates samples.version samples.join samples.engine samples.loaded
      = (Returns (resMap, None), w') ∧
    Map <$> resMap = [0; 1; 2] ∧
    templates.mem w' = samples.stored ∧
    templates.materialized w' = ["/templates/multiclusterhub/base"] ∧
    templates.templateRenderer w'
      = Some {| templates.templatesPath := "/templates";
                templates.templates := <[templates.key samples.version := resMap]> ∅ |}.
Proof.
  apply (GetTemplates_first_success samples.version samples.join samples.engine
           samples.loaded
           {| templates.templatesPath := "/templates"; templates.templates := ∅ |}
           samples.stored).
  - reflexivity.
  - reflexivity.
  - reflexivity.
Defined.

Lemma GetTemplates_never_evicts_witness :
  templates.mem
    (sequentially 3 (templates.GetTemplates samples.version samples.join samples.flaky)
       samples.cached).2 !! 1
  = Some (samples.binding "ServiceAccount").
Proof.
  apply (proj1 (GetTemplates_never_evicts samples.version samples.join samples.flaky
                  3 samples.cached)).
  reflexivity.
Defined.

Lemma concurrent_warm_cache_witness :
  (concurrent.run samples.version samples.join samples.engine [0; 1; 1; 0]
     (samples.cached, replicate 2 concurrent.AtLookup)).1 = samples.cached ∧
  Forall (λ p, p = concurrent.AtLookup ∨ p = concurrent.Finished (samples.three, None))
    (concurrent.run samples.version samples.join samples.engine [0; 1; 1; 0]
       (samples.cached, replicate 2 concurrent.AtLookup)).2.
Proof.
  apply (concurrent_warm_cache samples.version samples.join samples.engine
           [0; 1; 1; 0] 2 samples.cached
           {| templates.templatesPath := "/templates";
              templates.templates := <[templates.key samples.version := samples.three]> ∅ |}
           samples.three).
  - vm_compute. reflexivity.
  - vm_compute. reflexivity.
Defined.
